(** * The IPython kernel of lib/kernel.js: message codec, dispatcher and
      execution orchestrator

    A shallow embedding of [Kernel], [Message], [Message.prototype.parse] and
    [Message.prototype.respond] of [lib/kernel.js], and the properties of the
    message protocol that hold of them.

    Conventions.
    - A [Buffer] (a frame received from a socket) is a [string]: a sequence
      of bytes.
    - A JavaScript string is a [string] too, holding the UTF-8 encoding of
      its text; this is the encoding [hmac.update] and the sockets use when
      they are handed a string.
    - [undefined] in a text field is [None]; other JavaScript values are
      terms of [value].
    - What Node.js and the modules [crypto], [JSON], [node-uuid] and [sm]
      provide is a parameter of the development (records [Crypto], [Json],
      [Manager] and the function [uuid_v4]); module [Reference] instantiates
      them with HMAC-SHA-256 and a JSON codec to run the kernel on concrete
      frames. *)

From Stdlib Require Import List String Ascii ZArith NArith Bool Lia DecimalString.
Import ListNotations.
Local Open Scope list_scope.
Local Open Scope string_scope.

#[local] Set Warnings "-register-all".

(** ** JavaScript values *)

Inductive value : Type :=
| VUndefined
| VNull
| VBool (b : bool)
| VNum (n : Z)
| VStr (s : string)
| VArr (items : list value)
| VObj (props : list (string * value)).

(** Numbers are the integers: the counters and version components the
    kernel handles. *)

Inductive exn : Type :=
| TypeError
| SyntaxError
| CryptoError.

Inductive completion (A : Type) : Type :=
| Normal (a : A)
| Throw (e : exn).

Arguments Normal {A} a.
Arguments Throw {A} e.

Fixpoint lookup_prop (name : string) (props : list (string * value)) : value :=
  match props with
  | [] => VUndefined
  | (k, v) :: rest => if String.eqb k name then v else lookup_prop name rest
  end.

(** [v.name], for a name that no built-in prototype defines ([msg_type],
    [username], [session], [code], [mime], [error], [ename], [evalue],
    [traceback]): reading it from [undefined] or [null] raises a TypeError,
    from an object gives the property, from anything else [undefined]. *)
Definition get_prop (v : value) (name : string) : completion value :=
  match v with
  | VUndefined | VNull => Throw TypeError
  | VObj props => Normal (lookup_prop name props)
  | _ => Normal VUndefined
  end.

Definition string_of_Z (n : Z) : string := NilZero.string_of_int (Z.to_int n).

Fixpoint join (sep : string) (l : list string) : string :=
  match l with
  | [] => ""
  | [x] => x
  | x :: rest => x ++ sep ++ join sep rest
  end.

(** ToString of a value whose conversion to a string does not throw. *)
Fixpoint ToString (v : value) : string :=
  match v with
  | VUndefined => "undefined"
  | VNull => "null"
  | VBool true => "true"
  | VBool false => "false"
  | VNum n => string_of_Z n
  | VStr s => s
  | VArr items =>
      join "," (map (fun x => match x with
                              | VUndefined | VNull => ""
                              | _ => ToString x
                              end) items)
  | VObj _ => "[object Object]"
  end.

(** The conversion to a string as the language applies it to the left
    operand of [in] and to an operand of [+] beside a string. An object
    converts through its members [toString] and [valueOf]: an object made
    by [JSON.parse] that has a property of its own named [toString] has no
    such function ([valueOf] returns the object, which is no primitive),
    and the conversion throws a TypeError; without that property,
    [Object.prototype.toString] gives [[object Object]]. An array converts
    through [join], which converts its elements the same way. *)
Fixpoint ToPrimitiveString (v : value) : completion string :=
  match v with
  | VObj props =>
      if existsb (fun p => String.eqb (fst p) "toString") props
      then Throw TypeError
      else Normal "[object Object]"
  | VArr items =>
      match (fix elements (l : list value) : completion (list string) :=
               match l with
               | [] => Normal []
               | x :: rest =>
                   match match x with
                         | VUndefined | VNull => Normal EmptyString
                         | _ => ToPrimitiveString x
                         end with
                   | Throw e => Throw e
                   | Normal text =>
                       match elements rest with
                       | Throw e => Throw e
                       | Normal texts => Normal (text :: texts)
                       end
                   end
               end) items with
      | Throw e => Throw e
      | Normal texts => Normal (join "," texts)
      end
  | _ => Normal (ToString v)
  end.

(** ** A state and exception monad

    [SE S A]: a computation over a mutable object or store [S] that
    completes normally with an [A] or throws; the store as it stands at the
    throw is kept. *)

Definition SE (S A : Type) : Type := S -> completion A * S.

Definition ret {S A : Type} (a : A) : SE S A := fun s => (Normal a, s).

Definition bind {S A B : Type} (m : SE S A) (f : A -> SE S B) : SE S B :=
  fun s => match m s with
           | (Normal a, s') => f a s'
           | (Throw e, s') => (Throw e, s')
           end.

Definition throw {S A : Type} (e : exn) : SE S A := fun s => (Throw e, s).

Definition lift {S A : Type} (c : completion A) : SE S A := fun s => (c, s).

Definition get {S : Type} : SE S S := fun s => (Normal s, s).

Definition modify {S : Type} (f : S -> S) : SE S unit := fun s => (Normal tt, f s).

Declare Scope se_scope.
Delimit Scope se_scope with se.
Notation "x <- c1 ;; c2" := (bind c1 (fun x => c2))
  (at level 61, c1 at next level, right associativity) : se_scope.
Notation "c1 ;; c2" := (bind c1 (fun _ => c2))
  (at level 61, right associativity) : se_scope.
Local Open Scope se_scope.

(** ** Buffers *)

Definition byte_of (c : ascii) : N := N_of_ascii c.

Definition chr (n : N) : ascii := ascii_of_N n.

(** U+FFFD REPLACEMENT CHARACTER, in UTF-8. *)
Definition replacement : string :=
  String (chr 239) (String (chr 191) (String (chr 189) EmptyString)).

(** State of the UTF-8 decoder: the bytes of the sequence read so far, how
    many continuation bytes are still needed, and the range the next one
    must lie in. *)
Record utf8_state : Type := mk_utf8_state {
  u_pending : string;
  u_needed : nat;
  u_lower : N;
  u_upper : N
}.

Definition utf8_idle : utf8_state := mk_utf8_state "" 0 128 191.

(** A byte read with no sequence pending. *)
Definition utf8_lead (c : ascii) : string * utf8_state :=
  let b := byte_of c in
  let one := String c EmptyString in
  if (b <=? 127)%N then (one, utf8_idle)
  else if ((194 <=? b) && (b <=? 223))%N then ("", mk_utf8_state one 1 128 191)
  else if ((224 <=? b) && (b <=? 239))%N then
    ("", mk_utf8_state one 2 (if (b =? 224)%N then 160 else 128)%N
                             (if (b =? 237)%N then 159 else 191)%N)
  else if ((240 <=? b) && (b <=? 244))%N then
    ("", mk_utf8_state one 3 (if (b =? 240)%N then 144 else 128)%N
                             (if (b =? 244)%N then 143 else 191)%N)
  else (replacement, utf8_idle).

Definition utf8_step (st : utf8_state) (c : ascii) : string * utf8_state :=
  match u_needed st with
  | O => utf8_lead c
  | S n =>
      let b := byte_of c in
      if ((u_lower st <=? b) && (b <=? u_upper st))%N then
        let seq := u_pending st ++ String c EmptyString in
        match n with
        | O => (seq, utf8_idle)
        | S _ => ("", mk_utf8_state seq n 128 191)
        end
      else
        let '(out, st') := utf8_lead c in (replacement ++ out, st')
  end.

Fixpoint utf8_decode (st : utf8_state) (b : string) : string :=
  match b with
  | EmptyString => match u_needed st with O => "" | S _ => replacement end
  | String c rest => let '(out, st') := utf8_step st c in out ++ utf8_decode st' rest
  end.

(** [buffer.toString()]: the buffer decoded as UTF-8, every ill-formed
    sequence replaced by U+FFFD. *)
Definition Buffer_toString (b : string) : string := utf8_decode utf8_idle b.

Definition hex_digit (n : N) : ascii :=
  if (n <? 10)%N then chr (48 + n) else chr (87 + n).

(** Lower-case hexadecimal text of a byte string. *)
Fixpoint hex (b : string) : string :=
  match b with
  | EmptyString => EmptyString
  | String c rest =>
      String (hex_digit (byte_of c / 16)) (String (hex_digit (byte_of c mod 16)) (hex rest))
  end.

(** ** The crypto module *)

(** [supported scheme] tells whether [crypto.createHmac(scheme, key)]
    knows the digest; [mac scheme key data] is the raw authentication code
    of [data]. *)
Record Crypto : Type := {
  supported : string -> bool;
  mac : string -> string -> string -> string
}.

Record Hmac : Type := mk_Hmac {
  hmac_scheme : string;
  hmac_key : string;
  hmac_data : string
}.

Section Hmac.
Variable crypto : Crypto.

Definition createHmac (scheme key : string) : completion Hmac :=
  if supported crypto scheme then Normal (mk_Hmac scheme key "")
  else Throw CryptoError.

(** [hmac.update(data)]; [data] is [None] when the argument is
    [undefined]. *)
Definition update (hmac : Hmac) (data : option string) : completion Hmac :=
  match data with
  | Some d => Normal (mk_Hmac (hmac_scheme hmac) (hmac_key hmac) (hmac_data hmac ++ d))
  | None => Throw TypeError
  end.

Definition digest_hex (hmac : Hmac) : string :=
  hex (mac crypto (hmac_scheme hmac) (hmac_key hmac) (hmac_data hmac)).
End Hmac.

(** ** JSON *)

(** [JSON_parse text] is [None] when [JSON.parse] throws a SyntaxError. *)
Record Json : Type := {
  JSON_parse : string -> option value;
  JSON_stringify : value -> string
}.

(** ** Messages *)

Record Message : Type := mk_Message {
  idents : option string;
  delimiter : option string;
  signature : option string;
  header : value;
  parentHeader : value;
  metadata : option string;
  content : value;
  blob : option string;
  scheme : string;
  key : string;
  signatureOK : option bool
}.

Definition set_idents (x : option string) (m : Message) : Message :=
  mk_Message x (delimiter m) (signature m) (header m) (parentHeader m) (metadata m)
             (content m) (blob m) (scheme m) (key m) (signatureOK m).

Definition set_delimiter (x : option string) (m : Message) : Message :=
  mk_Message (idents m) x (signature m) (header m) (parentHeader m) (metadata m)
             (content m) (blob m) (scheme m) (key m) (signatureOK m).

Definition set_signature (x : option string) (m : Message) : Message :=
  mk_Message (idents m) (delimiter m) x (header m) (parentHeader m) (metadata m)
             (content m) (blob m) (scheme m) (key m) (signatureOK m).

Definition set_header (x : value) (m : Message) : Message :=
  mk_Message (idents m) (delimiter m) (signature m) x (parentHeader m) (metadata m)
             (content m) (blob m) (scheme m) (key m) (signatureOK m).

Definition set_parentHeader (x : value) (m : Message) : Message :=
  mk_Message (idents m) (delimiter m) (signature m) (header m) x (metadata m)
             (content m) (blob m) (scheme m) (key m) (signatureOK m).

Definition set_metadata (x : option string) (m : Message) : Message :=
  mk_Message (idents m) (delimiter m) (signature m) (header m) (parentHeader m) x
             (content m) (blob m) (scheme m) (key m) (signatureOK m).

Definition set_content (x : value) (m : Message) : Message :=
  mk_Message (idents m) (delimiter m) (signature m) (header m) (parentHeader m) (metadata m)
             x (blob m) (scheme m) (key m) (signatureOK m).

Definition set_blob (x : option string) (m : Message) : Message :=
  mk_Message (idents m) (delimiter m) (signature m) (header m) (parentHeader m) (metadata m)
             (content m) x (scheme m) (key m) (signatureOK m).

Definition set_signatureOK (x : option bool) (m : Message) : Message :=
  mk_Message (idents m) (delimiter m) (signature m) (header m) (parentHeader m) (metadata m)
             (content m) (blob m) (scheme m) (key m) x.

(** [x || d] on an optional string: [undefined] and the empty string are
    falsy. *)
Definition or_default (x : option string) (d : string) : string :=
  match x with
  | None | Some EmptyString => d
  | Some s => s
  end.

(** Truth value of [signatureOK], which is [undefined] or a boolean. *)
Definition truthy (b : option bool) : bool :=
  match b with
  | Some true => true
  | _ => false
  end.

(** The fields as the constructor sets them before it calls [parse]. *)
Definition Message_fields (scheme0 key0 : option string) : Message :=
  mk_Message None None None VUndefined VUndefined None VUndefined None
             (or_default scheme0 "sha256") (or_default key0 "") None.

(** ** Sockets, the trace of effects and the kernel object *)

Record Socket : Type := createSocket { socket_type : string }.

Inductive Event : Type :=
| EvBind (socket : Socket) (address : string)
| EvSend (socket : Socket) (frames : list (option string))
| EvWarn (args : list value)
| EvCall (member : string) (msg : Message)
| EvConstruct (ipythonConfig : Message).

(** [EvBind], [EvSend] and [EvWarn] record [socket.bind], [socket.send] and
    [console.warn]; [EvCall] records that [_onMessage] called the member of
    the prototype of that name with the message. [EvConstruct] records
    that the constructor ran again on the kernel object with the message
    as its argument: from then on the [config] of the object is that
    message, and its sockets and its session manager are new ones.
    [uuid_calls] counts the calls of [uuid.v4]. *)
Record Store : Type := mk_Store {
  trace : list Event;
  uuid_calls : nat
}.

Definition M : Type -> Type := SE Store.

Definition emit_event (e : Event) : M unit :=
  modify (fun st => mk_Store (trace st ++ [e])%list (uuid_calls st)).

Definition send (socket : Socket) (frames : list (option string)) : M unit :=
  emit_event (EvSend socket frames).

Definition warn (args : list value) : M unit := emit_event (EvWarn args).

(** The session the execution engine hands to the callbacks of a task. *)
Record Session : Type := {
  executionCount : value;
  result : value
}.

Record Task : Type := {
  task_code : value;
  task_beforeRun : Session -> M unit;
  task_afterRun : Session -> M unit;
  task_onSuccess : Session -> M unit;
  task_onError : Session -> M unit
}.

(** [sm.Manager]: the execution engine, of which the kernel uses [run]. *)
Record Manager : Type := {
  run : value -> Task -> M unit
}.

Record Config : Type := {
  config_ip : string;
  config_shell_port : Z;
  config_iopub_port : Z;
  config_hb_port : Z;
  config_signature_scheme : string;
  config_key : string
}.

Record Kernel : Type := mk_Kernel {
  config : Config;
  hbSocket : Socket;
  iopubSocket : Socket;
  shellSocket : Socket;
  sm : Manager
}.

(** The object a listener runs with as [this]. *)
Inductive object : Type :=
| OKernel (k : Kernel)
| OSocket (s : Socket).

(** [this.hbSocket]: a socket has no property of that name. *)
Definition prop_hbSocket (this : object) : option Socket :=
  match this with
  | OKernel k => Some (hbSocket k)
  | OSocket _ => None
  end.

Definition listener : Type := object -> list string -> M unit.

(** [f.bind(k)]: whatever the caller passes as [this], [f] runs with [k]. *)
Definition bind_this (f : Kernel -> list string -> M unit) (k : Kernel) : listener :=
  fun _ args => f k args.

(** An event emitter calls a listener with itself as [this]. *)
Definition emit (emitter : Socket) (l : listener) (args : list string) : M unit :=
  l (OSocket emitter) args.

(** [s.slice(n)] for [n] within the string or past its end. *)
Fixpoint slice (n : nat) (s : string) : string :=
  match n, s with
  | O, _ => s
  | S _, EmptyString => EmptyString
  | S n', String _ rest => slice n' rest
  end.

Definition protocolVersion : list Z := [4; 1]%Z.

(** The names [msg_type in prototype] finds: the properties of
    [Kernel.prototype] itself and those of [Object.prototype], which it
    inherits. *)
Definition Kernel_prototype_own : list string :=
  ["constructor"; "kernel_info_request"; "execute_request"].

Definition Object_prototype : list string :=
  ["constructor"; "toString"; "toLocaleString"; "valueOf"; "hasOwnProperty";
   "isPrototypeOf"; "propertyIsEnumerable"; "__defineGetter__"; "__defineSetter__";
   "__lookupGetter__"; "__lookupSetter__"; "__proto__"].

Definition in_prototype (name : string) : bool :=
  existsb (String.eqb name) (Kernel_prototype_own ++ Object_prototype)%list.

(** The frames [socket.send(parts)] writes: a part that is not a buffer is
    written as the text of [String(part)]. *)
Definition wire (parts : list (option string)) : list string :=
  map (fun p => match p with Some s => s | None => "undefined" end) parts.

(** ** The code of lib/kernel.js

    [DEBUG] is the constant [false] in the file, so the two
    [if (DEBUG) console.log(...)] statements do nothing and are left out. *)

Section KernelJs.
Variable crypto : Crypto.
Variable json : Json.
Variable uuid_v4 : nat -> string.
Variable nodeVersion : list Z.

(** *** Message.prototype.parse *)

(** The two functions local to [parse]; an argument is [None] when the
    frame is missing ([undefined]). *)
Definition toString (v : option string) : option string :=
  match v with
  | None => None
  | Some b => Some (Buffer_toString b)
  end.

Definition toJSON (v : option string) : completion value :=
  match v with
  | None => Normal VUndefined
  | Some b =>
      match JSON_parse json (Buffer_toString b) with
      | Some x => Normal x
      | None => Throw SyntaxError
      end
  end.

(** [parse] runs on the message object [this], the state of the
    computation. *)
Definition parse (requestArguments : list string) : SE Message unit :=
  this <- get ;;
  hmac <- lift (createHmac crypto (scheme this) (key this)) ;;
  hmac <- lift (update hmac (nth_error requestArguments 3)) ;;
  hmac <- lift (update hmac (nth_error requestArguments 4)) ;;
  hmac <- lift (update hmac (nth_error requestArguments 5)) ;;
  hmac <- lift (update hmac (nth_error requestArguments 6)) ;;
  signature0 <- lift match nth_error requestArguments 2 with
                     | Some b => Normal (Buffer_toString b)
                     | None => Throw TypeError
                     end ;;
  modify (set_signature (Some signature0)) ;;
  let ok := String.eqb signature0 (digest_hex crypto hmac) in
  modify (set_signatureOK (Some ok)) ;;
  if negb ok then ret tt
  else
    modify (set_idents (toString (nth_error requestArguments 0))) ;;
    modify (set_delimiter (toString (nth_error requestArguments 1))) ;;
    header0 <- lift (toJSON (nth_error requestArguments 3)) ;;
    modify (set_header header0) ;;
    parentHeader0 <- lift (toJSON (nth_error requestArguments 4)) ;;
    modify (set_parentHeader parentHeader0) ;;
    modify (set_metadata (toString (nth_error requestArguments 5))) ;;
    content0 <- lift (toJSON (nth_error requestArguments 6)) ;;
    modify (set_content content0) ;;
    modify (set_blob (toString (nth_error requestArguments 7))).

(** [new Message(requestArguments, scheme, key)]: the object, unless
    [parse] throws. *)
Definition new_Message (requestArguments : option (list string))
           (scheme0 key0 : option string) : completion Message :=
  let this := Message_fields scheme0 key0 in
  match requestArguments with
  | None => Normal this
  | Some args =>
      match parse args this with
      | (Normal _, this') => Normal this'
      | (Throw e, _) => Throw e
      end
  end.

(** *** Message.prototype.respond *)

(** [JSON.stringify(v)], which is [undefined] for [undefined]. *)
Definition stringify (v : value) : option string :=
  match v with
  | VUndefined => None
  | _ => Some (JSON_stringify json v)
  end.

Definition v4 : M string :=
  fun st => (Normal (uuid_v4 (uuid_calls st)), mk_Store (trace st) (S (uuid_calls st))).

Definition respond (this : Message) (socket : Socket) (messageType : string)
           (content0 : value) : M unit :=
  let idents0 := idents this in
  let delimiter0 := delimiter this in
  msg_id <- v4 ;;
  username <- lift (get_prop (header this) "username") ;;
  session <- lift (get_prop (header this) "session") ;;
  let header0 := stringify (VObj [("msg_id", VStr msg_id);
                                  ("username", username);
                                  ("session", session);
                                  ("msg_type", VStr messageType)]) in
  let parentHeader0 := stringify (header this) in
  let metadata0 := stringify (VObj []) in
  let content1 := stringify content0 in
  hmac <- lift (createHmac crypto (scheme this) (key this)) ;;
  hmac <- lift (update hmac header0) ;;
  hmac <- lift (update hmac parentHeader0) ;;
  hmac <- lift (update hmac metadata0) ;;
  hmac <- lift (update hmac content1) ;;
  let signature0 := digest_hex crypto hmac in
  send socket [idents0; delimiter0; Some signature0; header0; parentHeader0;
               metadata0; content1].

(** *** Kernel.prototype.kernel_info_request *)

Definition kernel_info_request (this : Kernel) (request : Message) : M unit :=
  respond request (shellSocket this) "kernel_info_reply"
          (VObj [("language", VStr "javascript");
                 ("language_version", VArr (map VNum nodeVersion));
                 ("protocol_version", VArr (map VNum protocolVersion))]).

(** *** Kernel.prototype.execute_request *)

(** The four callbacks are closures over [this] and [request]. *)
Definition beforeRun (this : Kernel) (request : Message) (session : Session) : M unit :=
  code <- lift (get_prop (content request) "code") ;;
  respond request (iopubSocket this) "pyin"
          (VObj [("execution_count", executionCount session);
                 ("code", code)]).

Definition afterRun (this : Kernel) (request : Message) (session : Session) : M unit :=
  ret tt.

Definition onSuccess (this : Kernel) (request : Message) (session : Session) : M unit :=
  respond request (shellSocket this) "execute_reply"
          (VObj [("status", VStr "ok");
                 ("execution_count", executionCount session);
                 ("payload", VArr []);
                 ("user_variables", VObj []);
                 ("user_expressions", VObj [])]) ;;
  mime <- lift (get_prop (result session) "mime") ;;
  respond request (iopubSocket this) "pyout"
          (VObj [("execution_count", executionCount session);
                 ("data", mime);
                 ("metadata", VObj [])]).

Definition onError (this : Kernel) (request : Message) (session : Session) : M unit :=
  error <- lift (get_prop (result session) "error") ;;
  ename <- lift (get_prop error "ename") ;;
  evalue <- lift (get_prop error "evalue") ;;
  traceback <- lift (get_prop error "traceback") ;;
  respond request (shellSocket this) "execute_reply"
          (VObj [("status", VStr "error");
                 ("execution_count", executionCount session);
                 ("ename", ename);
                 ("evalue", evalue);
                 ("traceback", traceback)]) ;;
  respond request (iopubSocket this) "pyerr"
          (VObj [("execution_count", executionCount session);
                 ("ename", ename);
                 ("evalue", evalue);
                 ("traceback", traceback)]).

Definition execute_request (this : Kernel) (request : Message) : M unit :=
  code <- lift (get_prop (content request) "code") ;;
  let task := {| task_code := code;
                 task_beforeRun := beforeRun this request;
                 task_afterRun := afterRun this request;
                 task_onSuccess := onSuccess this request;
                 task_onError := onError this request |} in
  session <- lift (get_prop (header request) "session") ;;
  run (sm this) session task.

(** *** Kernel *)

(** The constructor: the object, and the three sockets bound. *)
Definition new_Kernel (ipythonConfig : Config) (manager : Manager) : M Kernel :=
  let this := mk_Kernel ipythonConfig (createSocket "rep") (createSocket "pub")
                        (createSocket "router") manager in
  let address := "tcp://" ++ config_ip ipythonConfig ++ ":" in
  emit_event (EvBind (shellSocket this)
                     (address ++ string_of_Z (config_shell_port ipythonConfig))) ;;
  emit_event (EvBind (iopubSocket this)
                     (address ++ string_of_Z (config_iopub_port ipythonConfig))) ;;
  emit_event (EvBind (hbSocket this)
                     (address ++ string_of_Z (config_hb_port ipythonConfig))) ;;
  ret this.

(** [prototype[name].call(this, msg)] for a name found in the prototype.
    [prototype.__proto__] is [Object.prototype], an object that has no
    member [call]: the expression throws a TypeError and nothing is
    called. Every other name is a function, which is called. The two
    handlers are the methods above. [constructor] is [Kernel] itself, run
    again on the kernel object with the message as its configuration: it
    overwrites the fields of the object and binds the new sockets at the
    address made of the message's [ip] and port properties, which are
    [undefined]. [__defineGetter__] and [__defineSetter__] reject the
    missing accessor function with a TypeError. The other methods of
    [Object.prototype] return a value, which is dropped. *)
Definition call_member (name : string) (this : Kernel) (msg : Message) : M unit :=
  if String.eqb name "__proto__" then throw TypeError
  else
    emit_event (EvCall name msg) ;;
    if String.eqb name "kernel_info_request" then kernel_info_request this msg
    else if String.eqb name "execute_request" then execute_request this msg
    else if String.eqb name "constructor" then
      emit_event (EvConstruct msg) ;;
      emit_event (EvBind (createSocket "router") "tcp://undefined:undefined") ;;
      emit_event (EvBind (createSocket "pub") "tcp://undefined:undefined") ;;
      emit_event (EvBind (createSocket "rep") "tcp://undefined:undefined")
    else if String.eqb name "__defineGetter__" || String.eqb name "__defineSetter__"
    then throw TypeError
    else ret tt.

(** The listener of the Shell socket. *)
Definition _onMessage (this : Kernel) (arguments : list string) : M unit :=
  msg <- lift (new_Message (Some arguments)
                           (Some (slice 5 (config_signature_scheme (config this))))
                           (Some (config_key (config this)))) ;;
  if negb (truthy (signatureOK msg)) then ret tt
  else
    msg_type <- lift (get_prop (header msg) "msg_type") ;;
    name <- lift (ToPrimitiveString msg_type) ;;
    if in_prototype name
    then call_member name this msg
    else warn [VStr "Unhandled message type:"; msg_type].

(** The listener of the HeartBeat socket, a function that is not bound:
    [this] is whatever object calls it. *)
Definition hbSocket_onMessage (this : object) (arguments : list string) : M unit :=
  match prop_hbSocket this with
  | Some socket => send socket [nth_error arguments 0]
  | None => throw TypeError
  end.

(** A message arriving on the Shell and on the HeartBeat socket: the
    socket emits it to the listener the constructor registered. *)
Definition shellSocket_message (k : Kernel) (frames : list string) : M unit :=
  emit (shellSocket k) (bind_this _onMessage k) frames.

Definition hbSocket_message (k : Kernel) (frames : list string) : M unit :=
  emit (hbSocket k) hbSocket_onMessage frames.

End KernelJs.

(** ** A reference platform

    HMAC-SHA-256 (FIPS 180-4, RFC 2104) for the scheme [sha256], and a JSON
    codec for texts whose numbers are integers, to run the kernel on
    concrete frames. *)

Module Reference.

Local Open Scope Z_scope.

Definition bytes_of (s : string) : list Z :=
  map (fun c => Z.of_N (N_of_ascii c)) (list_ascii_of_string s).

Definition string_of_bytes (l : list Z) : string :=
  string_of_list_ascii (map (fun b => ascii_of_N (Z.to_N b)) l).

Definition add32 (x y : Z) : Z := (x + y) mod 4294967296.

Definition rotr (n x : Z) : Z :=
  Z.lor (Z.shiftr x n) (Z.land (Z.shiftl x (32 - n)) 4294967295).

Definition Ch (x y z : Z) : Z :=
  Z.lxor (Z.land x y) (Z.land (Z.lxor x 4294967295) z).

Definition Maj (x y z : Z) : Z :=
  Z.lxor (Z.lxor (Z.land x y) (Z.land x z)) (Z.land y z).

Definition Sigma0 (x : Z) : Z := Z.lxor (Z.lxor (rotr 2 x) (rotr 13 x)) (rotr 22 x).
Definition Sigma1 (x : Z) : Z := Z.lxor (Z.lxor (rotr 6 x) (rotr 11 x)) (rotr 25 x).
Definition sigma0 (x : Z) : Z := Z.lxor (Z.lxor (rotr 7 x) (rotr 18 x)) (Z.shiftr x 3).
Definition sigma1 (x : Z) : Z := Z.lxor (Z.lxor (rotr 17 x) (rotr 19 x)) (Z.shiftr x 10).

(** The primes below [n], by trial division. *)
Definition is_prime (p : nat) : bool :=
  forallb (fun d => negb (Nat.eqb (Nat.modulo p d) 0)) (seq 2 (p - 2)).

Definition primes_below (n : nat) : list Z :=
  map Z.of_nat (filter is_prime (seq 2 (n - 2))).

(** The largest [x] below [2 ^ bits] with [x ^ 3 <= n]. *)
Fixpoint cube_root (bits : nat) (n x : Z) : Z :=
  match bits with
  | O => x
  | S b =>
      let y := x + 2 ^ Z.of_nat b in
      cube_root b n (if y * y * y <=? n then y else x)
  end.

(** The round constants: the first 32 bits of the fractional parts of the
    cube roots of the first sixty-four primes. *)
Definition K256 : list Z :=
  Eval vm_compute in
    map (fun p => cube_root 40 (p * 2 ^ 96) 0 mod 2 ^ 32) (primes_below 312).

(** The initial hash value: the first 32 bits of the fractional parts of
    the square roots of the first eight primes. *)
Definition H256 : list Z :=
  Eval vm_compute in
    map (fun p => Z.sqrt (p * 2 ^ 64) mod 2 ^ 32) (primes_below 20).

(** The message followed by the bit 1, zeros, and its length in bits as
    a 64-bit big-endian number: a multiple of 64 bytes. *)
Definition be_bytes (n : nat) (x : Z) : list Z :=
  map (fun i => (x / 256 ^ Z.of_nat i) mod 256) (rev (seq 0 n)).

Definition pad (msg : list Z) : list Z :=
  let len := Z.of_nat (List.length msg) in
  (msg ++ [128] ++ repeat 0 (Z.to_nat ((55 - len) mod 64)) ++ be_bytes 8 (8 * len))%list.

Fixpoint words (fuel : nat) (l : list Z) : list Z :=
  match fuel, l with
  | S f, a :: b :: c :: d :: rest =>
      (((a * 256 + b) * 256 + c) * 256 + d) :: words f rest
  | _, _ => []
  end.

Fixpoint blocks (fuel : nat) (w : list Z) : list (list Z) :=
  match fuel, w with
  | S f, _ :: _ => firstn 16 w :: blocks f (skipn 16 w)
  | _, _ => []
  end.

(** The [n] words of the message schedule that follow the window [win]
    of the last sixteen. *)
Fixpoint schedule (n : nat) (win : list Z) : list Z :=
  match n with
  | O => []
  | S n' =>
      let next := add32 (add32 (sigma1 (nth 14 win 0)) (nth 9 win 0))
                        (add32 (sigma0 (nth 1 win 0)) (nth 0 win 0)) in
      next :: schedule n' (tl win ++ [next])%list
  end.

Definition round (st : list Z) (kw : Z * Z) : list Z :=
  match st with
  | [a; b; c; d; e; f; g; h] =>
      let t1 := add32 (add32 (add32 h (Sigma1 e)) (add32 (Ch e f g) (fst kw))) (snd kw) in
      let t2 := add32 (Sigma0 a) (Maj a b c) in
      [add32 t1 t2; a; b; c; add32 d t1; e; f; g]
  | _ => st
  end.

Definition compress (h : list Z) (block : list Z) : list Z :=
  let w := (block ++ schedule 48 block)%list in
  map (fun p => add32 (fst p) (snd p))
      (combine h (fold_left round (combine K256 w) h)).

Definition sha256 (msg : list Z) : list Z :=
  let p := pad msg in
  let h := fold_left compress (blocks (List.length p) (words (List.length p) p)) H256 in
  flat_map (be_bytes 4) h.

Definition hmac_sha256 (key msg : list Z) : list Z :=
  let k := if Z.of_nat (List.length key) >? 64 then sha256 key else key in
  let k := (k ++ repeat 0 (64 - List.length k))%list in
  sha256 (map (Z.lxor 92) k ++ sha256 (map (Z.lxor 54) k ++ msg))%list.

Definition crypto : Crypto :=
  {| supported := fun scheme => String.eqb scheme "sha256";
     mac := fun _ key data => string_of_bytes (hmac_sha256 (bytes_of key) (bytes_of data)) |}.

(** *** JSON *)

Local Open Scope N_scope.

Definition is_ws (c : ascii) : bool :=
  let b := byte_of c in (b =? 32) || (b =? 9) || (b =? 10) || (b =? 13).

Fixpoint skip_ws (s : string) : string :=
  match s with
  | String c r => if is_ws c then skip_ws r else s
  | EmptyString => s
  end.

Definition is_digit (c : ascii) : bool := (48 <=? byte_of c) && (byte_of c <=? 57).

Definition hexval (c : ascii) : option N :=
  let b := byte_of c in
  if (48 <=? b) && (b <=? 57) then Some (b - 48)
  else if (97 <=? b) && (b <=? 102) then Some (b - 87)
  else if (65 <=? b) && (b <=? 70) then Some (b - 55)
  else None.

Definition hex4 (s : string) : option (N * string) :=
  match s with
  | String a (String b (String c (String d rest))) =>
      match hexval a, hexval b, hexval c, hexval d with
      | Some x, Some y, Some z, Some w => Some (((x * 16 + y) * 16 + z) * 16 + w, rest)
      | _, _, _, _ => None
      end
  | _ => None
  end.

Definition utf8_encode (cp : N) : string :=
  string_of_list_ascii
    (map chr
         (if cp <? 128 then [cp]
          else if cp <? 2048 then [192 + cp / 64; 128 + cp mod 64]
          else if cp <? 65536 then
            [224 + cp / 4096; 128 + (cp / 64) mod 64; 128 + cp mod 64]
          else [240 + cp / 262144; 128 + (cp / 4096) mod 64;
                128 + (cp / 64) mod 64; 128 + cp mod 64])).

Definition simple_escape (b : N) : option ascii :=
  if b =? 34 then Some (chr 34)
  else if b =? 92 then Some (chr 92)
  else if b =? 47 then Some (chr 47)
  else if b =? 98 then Some (chr 8)
  else if b =? 102 then Some (chr 12)
  else if b =? 110 then Some (chr 10)
  else if b =? 114 then Some (chr 13)
  else if b =? 116 then Some (chr 9)
  else None.

Definition prepend (p : string) (o : option (string * string)) : option (string * string) :=
  match o with
  | Some (x, rest) => Some ((p ++ x)%string, rest)
  | None => None
  end.

(** The low half of a surrogate pair, written as a second escape. *)
Definition low_surrogate (s : string) : option (N * string) :=
  match s with
  | String b (String u r) =>
      if (byte_of b =? 92) && (byte_of u =? 117) then
        match hex4 r with
        | Some (lo, r') => if (56320 <=? lo) && (lo <? 57344) then Some (lo, r') else None
        | None => None
        end
      else None
  | _ => None
  end.

(** The text of a string literal, read after its opening quote. *)
Fixpoint string_body (fuel : nat) (s : string) : option (string * string) :=
  match fuel with
  | O => None
  | S f =>
      match s with
      | EmptyString => None
      | String c r =>
          let b := byte_of c in
          if b =? 34 then Some (EmptyString, r)
          else if b =? 92 then
            match r with
            | EmptyString => None
            | String e r' =>
                if byte_of e =? 117 then
                  match hex4 r' with
                  | None => None
                  | Some (cp, r'') =>
                      match (if (55296 <=? cp) && (cp <? 56320)
                             then low_surrogate r'' else None) with
                      | Some (lo, r3) =>
                          prepend (utf8_encode (65536 + (cp - 55296) * 1024 + (lo - 56320)))
                                  (string_body f r3)
                      | None => prepend (utf8_encode cp) (string_body f r'')
                      end
                  end
                else
                  match simple_escape (byte_of e) with
                  | Some ch => prepend (String ch EmptyString) (string_body f r')
                  | None => None
                  end
            end
          else if b <? 32 then None
          else prepend (String c EmptyString) (string_body f r)
      end
  end.

Fixpoint digits (s : string) (acc : Z) : Z * string :=
  match s with
  | String c r =>
      if is_digit c then digits r (acc * 10 + Z.of_N (byte_of c - 48))%Z else (acc, s)
  | EmptyString => (acc, s)
  end.

(** An integer numeral; one continued by a fraction or an exponent is not
    read by this codec. *)
Definition number (s : string) : option (value * string) :=
  let '(neg, s1) := match s with
                    | String c r => if byte_of c =? 45 then (true, r) else (false, s)
                    | EmptyString => (false, s)
                    end in
  match s1 with
  | String c r =>
      if is_digit c then
        let '(n, rest) := if byte_of c =? 48 then (0%Z, r) else digits s1 0%Z in
        let v := VNum (if neg : bool then (- n)%Z else n) in
        match rest with
        | String d _ =>
            if (byte_of d =? 46) || (byte_of d =? 101) || (byte_of d =? 69)
            then None else Some (v, rest)
        | EmptyString => Some (v, rest)
        end
      else None
  | EmptyString => None
  end.

Fixpoint strip_prefix (p s : string) : option string :=
  match p, s with
  | EmptyString, _ => Some s
  | String a p', String b s' => if Ascii.eqb a b then strip_prefix p' s' else None
  | _, _ => None
  end.

(** A property set by a member of an object literal: a repeated key keeps
    its place and takes the later value. *)
Fixpoint set_prop (props : list (string * value)) (k : string) (v : value)
  : list (string * value) :=
  match props with
  | [] => [(k, v)]
  | (k', v') :: rest =>
      if String.eqb k' k then (k', v) :: rest else (k', v') :: set_prop rest k v
  end.

Fixpoint json_value (fuel : nat) (s : string) : option (value * string) :=
  match fuel with
  | O => None
  | S f =>
      match s with
      | EmptyString => None
      | String c r =>
          let b := byte_of c in
          if b =? 123 then
            match skip_ws r with
            | String c1 r1 =>
                if byte_of c1 =? 125 then Some (VObj [], r1)
                else json_members f [] (String c1 r1)
            | EmptyString => None
            end
          else if b =? 91 then
            match skip_ws r with
            | String c1 r1 =>
                if byte_of c1 =? 93 then Some (VArr [], r1)
                else json_elements f [] (String c1 r1)
            | EmptyString => None
            end
          else if b =? 34 then
            match string_body (S (String.length r)) r with
            | Some (x, rest) => Some (VStr x, rest)
            | None => None
            end
          else
            match strip_prefix "true" s, strip_prefix "false" s, strip_prefix "null" s with
            | Some rest, _, _ => Some (VBool true, rest)
            | _, Some rest, _ => Some (VBool false, rest)
            | _, _, Some rest => Some (VNull, rest)
            | None, None, None => number s
            end
      end
  end
with json_elements (fuel : nat) (acc : list value) (s : string) : option (value * string) :=
  match fuel with
  | O => None
  | S f =>
      match json_value f s with
      | Some (v, rest) =>
          match skip_ws rest with
          | String c r =>
              if byte_of c =? 44 then json_elements f (acc ++ [v])%list (skip_ws r)
              else if byte_of c =? 93 then Some (VArr (acc ++ [v])%list, r)
              else None
          | EmptyString => None
          end
      | None => None
      end
  end
with json_members (fuel : nat) (acc : list (string * value)) (s : string)
     : option (value * string) :=
  match fuel with
  | O => None
  | S f =>
      match s with
      | String q r =>
          if byte_of q =? 34 then
            match string_body (S (String.length r)) r with
            | Some (k, rest) =>
                match skip_ws rest with
                | String colon r2 =>
                    if byte_of colon =? 58 then
                      match json_value f (skip_ws r2) with
                      | Some (v, rest2) =>
                          match skip_ws rest2 with
                          | String c r3 =>
                              if byte_of c =? 44
                              then json_members f (set_prop acc k v) (skip_ws r3)
                              else if byte_of c =? 125
                                   then Some (VObj (set_prop acc k v), r3)
                                   else None
                          | EmptyString => None
                          end
                      | None => None
                      end
                    else None
                | EmptyString => None
                end
            | None => None
            end
          else None
      | EmptyString => None
      end
  end.

Definition parse_text (text : string) : option value :=
  match json_value (2 * String.length text + 2) (skip_ws text) with
  | Some (v, rest) =>
      match skip_ws rest with
      | EmptyString => Some v
      | String _ _ => None
      end
  | None => None
  end.

Definition quote_char (c : ascii) : string :=
  let b := byte_of c in
  if b =? 34 then String "\" (String (chr 34) EmptyString)
  else if b =? 92 then "\\"
  else if b =? 8 then "\b"
  else if b =? 12 then "\f"
  else if b =? 10 then "\n"
  else if b =? 13 then "\r"
  else if b =? 9 then "\t"
  else if b <? 32 then
    ("\u00" ++ String (hex_digit (b / 16)) (String (hex_digit (b mod 16)) EmptyString))%string
  else String c EmptyString.

Fixpoint quote_body (s : string) : string :=
  match s with
  | EmptyString => String (chr 34) EmptyString
  | String c r => (quote_char c ++ quote_body r)%string
  end.

Definition quote (s : string) : string := String (chr 34) (quote_body s).

(** The text of a value; a property whose value is [undefined] is left
    out of an object, and [undefined] in an array is written [null]. *)
Fixpoint stringify_text (v : value) : string :=
  match v with
  | VUndefined | VNull => "null"
  | VBool true => "true"
  | VBool false => "false"
  | VNum n => string_of_Z n
  | VStr s => quote s
  | VArr items => ("[" ++ join "," (map stringify_text items) ++ "]")%string
  | VObj props =>
      ("{" ++ join ","
         ((fix members (l : list (string * value)) : list string :=
             match l with
             | [] => []
             | (k, VUndefined) :: rest => members rest
             | (k, x) :: rest => (quote k ++ ":" ++ stringify_text x)%string :: members rest
             end) props) ++ "}")%string
  end.

Definition json : Json :=
  {| JSON_parse := parse_text; JSON_stringify := stringify_text |}.

(** Identifiers for [uuid.v4], one per call. *)
Definition uuid_v4 (n : nat) : string :=
  ("00000000-0000-4000-8000-" ++ string_of_Z (Z.of_nat n))%string.

Definition nodeVersion : list Z := [0; 10; 25]%Z.

(** A text written with apostrophes in place of double quotes. *)
Fixpoint dq (s : string) : string :=
  match s with
  | EmptyString => EmptyString
  | String c r => String (if byte_of c =? 39 then chr 34 else c) (dq r)
  end.

End Reference.

(** ** Definitions used to state the properties *)

(** The authentication tag of the four signed frames, in hexadecimal. *)
Definition tag (crypto : Crypto) (scheme0 key0 h ph md c : string) : string :=
  hex (mac crypto scheme0 key0 (h ++ ph ++ md ++ c)).

(** The store after [console.warn] has reported a message type. *)
Definition warned (msg_type : value) (st : Store) : Store :=
  mk_Store (trace st ++ [EvWarn [VStr "Unhandled message type:"; msg_type]])%list
           (uuid_calls st).

(** Values a property can be read from without a TypeError. *)
Definition object_coercible (v : value) : bool :=
  match v with
  | VUndefined | VNull => false
  | _ => true
  end.

(** The value of [v.name] for an object-coercible [v]. *)
Definition prop (v : value) (name : string) : value :=
  match v with
  | VObj props => lookup_prop name props
  | _ => VUndefined
  end.

(** The header of the response to [this] of type [messageType]. *)
Definition response_header (this : Message) (msg_id messageType : string) : value :=
  VObj [("msg_id", VStr msg_id);
        ("username", prop (header this) "username");
        ("session", prop (header this) "session");
        ("msg_type", VStr messageType)].

(** The frames of a response, as section 4.1 of the specification lays them
    out: identities, delimiter, signature, header, parent header, metadata,
    content. *)
Definition response_frames (crypto : Crypto) (json : Json) (this : Message)
           (msg_id messageType : string) (content0 : value) : list (option string) :=
  let h := JSON_stringify json (response_header this msg_id messageType) in
  let ph := JSON_stringify json (header this) in
  let md := JSON_stringify json (VObj []) in
  let c := JSON_stringify json content0 in
  [idents this; delimiter this; Some (tag crypto (scheme this) (key this) h ph md c);
   Some h; Some ph; Some md; Some c].

(** The message object [_onMessage] parses the frames into. *)
Definition incoming (k : Kernel) : Message :=
  Message_fields (Some (slice 5 (config_signature_scheme (config k))))
                 (Some (config_key (config k))).

(** The callbacks of a task. *)
Inductive callback : Type :=
| BeforeRun
| AfterRun
| OnSuccess
| OnError.

Definition call (task : Task) (session : Session) (c : callback) : M unit :=
  match c with
  | BeforeRun => task_beforeRun task session
  | AfterRun => task_afterRun task session
  | OnSuccess => task_onSuccess task session
  | OnError => task_onError task session
  end.

Fixpoint call_all (task : Task) (session : Session) (script : list callback) : M unit :=
  match script with
  | [] => ret tt
  | c :: rest => call task session c ;; call_all task session rest
  end.

(** Modelled from the spec: the execution engine ([sm.js] is not among the
    sources). A stubbed engine that, when a task is submitted, invokes the
    callbacks named in [script], in order, with [session]. *)
Definition stub_engine (script : list callback) (session : Session) : Manager :=
  {| run := fun _ task => call_all task session script |}.

(** The store after a response was written on [socket]: the frames at the
    end of the trace, and one more identifier drawn. *)
Definition sent (socket : Socket) (frames : list (option string)) (st : Store) : Store :=
  mk_Store (trace st ++ [EvSend socket frames]) (S (uuid_calls st)).

(** ** Concrete frames

    A kernel on the reference platform, configured with the scheme
    [hmac-sha256] and the key [secret], and frame sequences a client can
    send it. The JSON texts are written with apostrophes and [dq]. *)

Module Scenario.

Definition config : Config :=
  {| config_ip := "127.0.0.1";
     config_shell_port := 5555;
     config_iopub_port := 5556;
     config_hb_port := 5557;
     config_signature_scheme := "hmac-sha256";
     config_key := "secret" |}.

Definition kernel (manager : Manager) : Kernel :=
  mk_Kernel config (createSocket "rep") (createSocket "pub") (createSocket "router") manager.

Definition store0 : Store := mk_Store [] 0.

Definition session_ok : Session :=
  {| executionCount := VNum 1;
     result := VObj [("mime", VObj [("text/plain", VStr "2")])] |}.

Definition session_error : Session :=
  {| executionCount := VNum 1;
     result := VObj [("error", VObj [("ename", VStr "Error");
                                     ("evalue", VStr "boom");
                                     ("traceback", VArr [VStr "boom"])])] |}.

Definition header_of (msg_id msg_type : string) : string :=
  Reference.dq ("{'msg_id':'" ++ msg_id ++ "','username':'user','session':'s1','msg_type':'"
                ++ msg_type ++ "'}").

Definition execute_header : string := header_of "m1" "execute_request".

Definition execute_content : string := Reference.dq "{'code':'1+1'}".

(** An [execute_request] for the code [1+1], signed with the key
    [secret]. *)
Definition execute_frames : list string :=
  ["client-1"; "<IDS|MSG>";
   "2d2289fb3cd664005b402c2a092bd8c1bd60b1d14a093dd1e6cf8ca032abdca3";
   execute_header; "{}"; "{}"; execute_content].

(** A forged message: a signature that is not the tag, and a header that
    is not JSON. *)
Definition forged_frames : list string :=
  ["client-1"; "<IDS|MSG>"; "00"; "{not json"; "{}"; "{}"; execute_content].

(** The same request as a client without a key sends it: with an empty
    signature frame. *)
Definition unsigned_frames : list string :=
  ["client-1"; "<IDS|MSG>"; ""; execute_header; "{}"; "{}"; execute_content].

(** The same request, signed with the empty key. *)
Definition empty_key_frames : list string :=
  ["client-1"; "<IDS|MSG>";
   "d42b00c181a898cdebe263cdc4ab2c48dd29b885d32e4fad96123e81782a317f";
   execute_header; "{}"; "{}"; execute_content].

(** The signed request behind two identity frames, and behind none (with
    a trailing blob frame). *)
Definition two_identity_frames : list string :=
  ["client-1"; "client-2"; "<IDS|MSG>";
   "2d2289fb3cd664005b402c2a092bd8c1bd60b1d14a093dd1e6cf8ca032abdca3";
   execute_header; "{}"; "{}"; execute_content].

Definition no_identity_frames : list string :=
  ["<IDS|MSG>";
   "2d2289fb3cd664005b402c2a092bd8c1bd60b1d14a093dd1e6cf8ca032abdca3";
   execute_header; "{}"; "{}"; execute_content; "blob"].

(** Signed messages of three types that are not handlers. *)
Definition toString_frames : list string :=
  ["client-1"; "<IDS|MSG>";
   "bd2e2b32ca2af1ab622b72f1023f8265563976b9166cc161e2c75ff95f57e017";
   header_of "m2" "toString"; "{}"; "{}"; "{}"].

Definition proto_frames : list string :=
  ["client-1"; "<IDS|MSG>";
   "43043450ae03e3762b33fb1bd31f82a5f515dbac1ee20a90f747db74eb4f2382";
   header_of "m4" "__proto__"; "{}"; "{}"; "{}"].

Definition nonexistent_frames : list string :=
  ["client-1"; "<IDS|MSG>";
   "25f7cbde9b2683893b03fd8606a30ea51015e3a26483b7529d5f6b69cc873fa2";
   header_of "m3" "nonexistent_request"; "{}"; "{}"; "{}"].

(** The messages [parse] makes of [forged_frames], [toString_frames],
    [proto_frames] and [execute_frames]. *)
Definition forged_message : Message :=
  mk_Message None None (Some "00") VUndefined VUndefined None VUndefined None
             "sha256" "secret" (Some false).

Definition typed_message (sig msg_id msg_type : string) : Message :=
  mk_Message (Some "client-1") (Some "<IDS|MSG>") (Some sig)
             (VObj [("msg_id", VStr msg_id); ("username", VStr "user");
                    ("session", VStr "s1"); ("msg_type", VStr msg_type)])
             (VObj []) (Some "{}") (VObj []) None
             "sha256" "secret" (Some true).

Definition toString_message : Message :=
  typed_message "bd2e2b32ca2af1ab622b72f1023f8265563976b9166cc161e2c75ff95f57e017"
                "m2" "toString".

Definition proto_message : Message :=
  typed_message "43043450ae03e3762b33fb1bd31f82a5f515dbac1ee20a90f747db74eb4f2382"
                "m4" "__proto__".

(** A JSON decoder that rejects every text. *)
Definition rejecting_json : Json :=
  {| JSON_parse := fun _ => None; JSON_stringify := Reference.stringify_text |}.

(** The message object of a kernel with the key [secret], before [parse]. *)
Definition fresh : Message := Message_fields (Some "sha256") (Some "secret").

(** The engine of the success scenario, and the error of the error
    scenario. *)
Definition engine_ok : Manager := stub_engine [BeforeRun; OnSuccess] session_ok.

Definition error_value : value :=
  VObj [("ename", VStr "Error"); ("evalue", VStr "boom"); ("traceback", VArr [VStr "boom"])].

Definition execute_message : Message :=
  mk_Message (Some "client-1") (Some "<IDS|MSG>")
             (Some "2d2289fb3cd664005b402c2a092bd8c1bd60b1d14a093dd1e6cf8ca032abdca3")
             (VObj [("msg_id", VStr "m1"); ("username", VStr "user");
                    ("session", VStr "s1"); ("msg_type", VStr "execute_request")])
             (VObj []) (Some "{}") (VObj [("code", VStr "1+1")]) None
             "sha256" "secret" (Some true).

(** The socket type and the content frame of every write in a trace. *)
Fixpoint written (events : list Event) : list (string * option string) :=
  match events with
  | [] => []
  | EvSend socket frames :: rest =>
      (socket_type socket, nth 6 frames None) :: written rest
  | _ :: rest => written rest
  end.

End Scenario.

(** Text made of characters of the ASCII range only. *)
Fixpoint all_ascii (s : string) : Prop :=
  match s with
  | EmptyString => True
  | String c rest => (byte_of c <= 127)%N /\ all_ascii rest
  end.

(** Text made of the digits [0] to [9] and the letters [a] to [f]. *)
Definition is_lower_hex (c : ascii) : bool :=
  ((48 <=? byte_of c) && (byte_of c <=? 57) || (97 <=? byte_of c) && (byte_of c <=? 102))%N.

Fixpoint all_lower_hex (s : string) : bool :=
  match s with
  | EmptyString => true
  | String c rest => is_lower_hex c && all_lower_hex rest
  end.

(** ** More concrete frames

    Messages that exercise the error paths of the Shell listener, signed
    with the key [secret] where a signature is needed. *)

Module Edge.

(** The request of [Scenario.execute_frames], cut after its fifth frame. *)
Definition truncated_frames : list string :=
  firstn 5 Scenario.execute_frames.

(** A kernel whose configuration names a scheme the reference crypto module
    does not know. *)
Definition unknown_scheme_config : Config :=
  {| config_ip := "127.0.0.1";
     config_shell_port := 5555;
     config_iopub_port := 5556;
     config_hb_port := 5557;
     config_signature_scheme := "hmac-nonsense";
     config_key := "secret" |}.

Definition unknown_scheme_kernel : Kernel :=
  mk_Kernel unknown_scheme_config (createSocket "rep") (createSocket "pub")
            (createSocket "router") Scenario.engine_ok.

(** A kernel whose configuration names the scheme after five characters
    that are not [hmac-]. *)
Definition odd_prefix_kernel : Kernel :=
  mk_Kernel {| config_ip := "127.0.0.1";
               config_shell_port := 5555;
               config_iopub_port := 5556;
               config_hb_port := 5557;
               config_signature_scheme := "none:sha256";
               config_key := "secret" |}
            (createSocket "rep") (createSocket "pub") (createSocket "router")
            Scenario.engine_ok.

(** Correctly signed messages: one whose header is not JSON, one whose
    header is the JSON text [null], and a [kernel_info_request]. *)
Definition malformed_header_frames : list string :=
  ["client-1"; "<IDS|MSG>";
   "df72f6bca4d6d85eb798e720ae0179ef7ba858aae563a7f3fc1fc2765af0cdce";
   "{not json"; "{}"; "{}"; "{}"].

Definition null_header_frames : list string :=
  ["client-1"; "<IDS|MSG>";
   "f3ccc92abbef71e156a8ae38f7bccec12fd54ebad4ed9c532650295af374dfaa";
   "null"; "{}"; "{}"; "{}"].

Definition kernel_info_frames : list string :=
  ["client-1"; "<IDS|MSG>";
   "3b7b893aaf97d2b441049d37fd19426ad41f5b6bbe07ef5cd32e24d904b2896d";
   Scenario.header_of "m5" "kernel_info_request"; "{}"; "{}"; "{}"].

Definition kernel_info_message : Message :=
  Scenario.typed_message "3b7b893aaf97d2b441049d37fd19426ad41f5b6bbe07ef5cd32e24d904b2896d"
                         "m5" "kernel_info_request".

(** Sessions an engine can pass to the callbacks: one without a result,
    and one whose result has no error. *)
Definition session_without_result : Session :=
  {| executionCount := VNum 1; result := VUndefined |}.

End Edge.

(** ** The two launchers

    The statements that end the JavaScript file, and the TypeScript launcher
    that follows it in the source ([Logger], [Configuration], [Parser]).
    Command-line arguments, paths and compiled code are taken to be ASCII
    text, so that a character of a [string] is one unit of [length],
    [slice] and [substring]. *)

(** How a computation of a launcher fails: an exception of the language, an
    error of [fs.readFileSync] on a path, an [Error] object thrown by the
    code (its [stack] is [None] when the code does not set it), or
    [process.exit]. *)
Inductive failure : Type :=
| Raised (e : exn)
| FsError (path : string)
| ErrorThrown (name message : string) (stack : option string)
| Exited (code : Z).

Inductive outcome (A : Type) : Type :=
| Done (a : A)
| Failed (f : failure).

Arguments Done {A} a.
Arguments Failed {A} f.

Definition Run (S A : Type) : Type := S -> outcome A * S.

Definition done {S A : Type} (a : A) : Run S A := fun s => (Done a, s).

Definition fail {S A : Type} (f : failure) : Run S A := fun s => (Failed f, s).

Definition and_then {S A B : Type} (m : Run S A) (k : A -> Run S B) : Run S B :=
  fun s => match m s with
           | (Done a, s') => k a s'
           | (Failed f, s') => (Failed f, s')
           end.

Definition state {S : Type} : Run S S := fun s => (Done s, s).

Definition update_state {S : Type} (f : S -> S) : Run S unit := fun s => (Done tt, f s).

Declare Scope run_scope.
Delimit Scope run_scope with run.
Notation "x <- c1 ;; c2" := (and_then c1 (fun x => c2))
  (at level 61, c1 at next level, right associativity) : run_scope.
Notation "c1 ;; c2" := (and_then c1 (fun _ => c2))
  (at level 61, right associativity) : run_scope.

(** What is written on the console and on standard error. *)
Inductive Output : Type :=
| ConsoleWarn (args : list string)
| ConsoleError (text : string)
| StderrWrite (text : string)
| DebugLog (text : string).

(** The line feed, and [s.split(c)] and [l.join(sep)] for a separator of
    one character. *)
Definition nl : string := String (chr 10) EmptyString.

Fixpoint split (sep : ascii) (s : string) : list string :=
  match s with
  | EmptyString => [EmptyString]
  | String c rest =>
      if Ascii.eqb c sep then EmptyString :: split sep rest
      else match split sep rest with
           | [] => [String c EmptyString]
           | first :: others => String c first :: others
           end
  end.

(** [!v]: the values that count as false. *)
Definition falsy (v : value) : bool :=
  match v with
  | VUndefined | VNull | VBool false | VNum 0 | VStr EmptyString => true
  | _ => false
  end.

(** *** The end of the JavaScript file *)

Section Startup.
Variable readFileSync : string -> option string.
Variable json : Json.
Local Open Scope run_scope.

(** [arg.lastIndexOf("-", 0) === 0]: the argument starts with a dash. *)
Definition starts_with_dash (arg : string) : bool :=
  match arg with
  | String c _ => (byte_of c =? 45)%N
  | EmptyString => false
  end.

(** [JSON.parse(fs.readFileSync(arg))]. *)
Definition read_connection_file (arg : string) : Run (list Output) value :=
  match readFileSync arg with
  | None => fail (FsError arg)
  | Some b =>
      match JSON_parse json (Buffer_toString b) with
      | Some v => done v
      | None => fail (Raised SyntaxError)
      end
  end.

(** The [forEach] over the arguments; [ipythonConfig] is the variable it
    assigns. *)
Fixpoint forEach_argument (args : list string) (ipythonConfig : value)
  : Run (list Output) value :=
  match args with
  | [] => done ipythonConfig
  | arg :: rest =>
      if starts_with_dash arg then
        update_state (fun out => out ++ [ConsoleWarn ["Warning: Argument '%s' skipped"; arg]])%list ;;
        forEach_argument rest ipythonConfig
      else
        v <- read_connection_file arg ;;
        forEach_argument rest v
  end.

(** The configuration the file passes to [new Kernel], from
    [process.argv]. *)
Definition startup (argv : list string) : Run (list Output) value :=
  ipythonConfig <- forEach_argument (skipn 2 argv) VUndefined ;;
  if falsy ipythonConfig
  then fail (ErrorThrown "Error" "Error: Missing connection file" None)
  else done ipythonConfig.

End Startup.

(** *** The TypeScript launcher *)

(** What the launcher takes from Node.js and its modules: [fs], [path],
    [process.cwd()], the path of the package file
    ([path.join(__dirname, "..", "package.json")]), the version of the
    [typescript] module, [parseInt] without a radix and with radix 10
    ([None] is NaN), whether [require("debug")] succeeds, and [compile] of a
    [TypeScriptSimple] made with some options and the flag of semantic
    checks, which returns the compiled code or throws an error with a name
    and a message. [readTSConfig] is the outcome of
    [Configuration.readTSConfig]. *)
Record Host : Type := {
  fs_readFileSync : string -> option string;
  fs_existsSync : string -> bool;
  path_join : string -> string -> string;
  path_dirname : string -> string;
  process_cwd : string;
  package_json : string;
  tsVersion : string;
  parseInt : string -> option Z;
  parseInt10 : string -> option Z;
  require_debug : bool;
  compile : value -> bool -> string -> string + string * string;
  readTSConfig : string -> outcome value
}.

Inductive LoggerState : Type :=
| LogNothing
| LogVerbose
| LogDebug.

(** The object [protocolVersion] stores in [response]. [Reply4] is
    [{language: "typescript", language_version, protocol_version}], the two
    versions being arrays of numbers. [Reply5] is the reply of protocol 5:
    [protocol_version], [implementation: "typescript"],
    [implementation_version], [language_info] (with the name [typescript],
    the version of the compiler, the MIME type [text/x-typescript] and the
    extension [.ts]), the banner and the help link. *)
Inductive KernelInfoReply : Type :=
| Reply4 (language_version protocol_version : list (option Z))
| Reply5 (protocol_version : string) (implementation_version : value)
         (language_version : string) (banner : string).

Record Configuration : Type := mk_Configuration {
  _onDebug : bool;
  _onTypeChk : bool;
  _workingDir : string;
  hideUndefined : bool;
  protocolVer : string;
  transpiler : option (value * bool);
  runningHistory : list string;
  compiledLength : nat;
  isConnSet : bool;
  conn : value;
  response : option KernelInfoReply;
  _startupScript : option string
}.

(** The object the getter [config] returns, without its two functions
    ([startupCallback] and [transpile]). *)
Record KernelConfig : Type := {
  kc_cwd : string;
  kc_hideUndefined : bool;
  kc_protocolVersion : string;
  kc_debug : bool;
  kc_kernelInfoReply : option KernelInfoReply;
  kc_startupScript : option string;
  kc_connection : value
}.

(** The state of the launcher: the configuration under construction,
    [Logger.log], and what was written. *)
Record Launch : Type := mk_Launch {
  builder : Configuration;
  logger : LoggerState;
  written_out : list Output
}.

Definition TScode : string :=
  "declare var $$async$$: boolean;" ++ nl ++
  "declare var $$done$$: any;" ++ nl ++
  "declare var $$: any;".

Definition usage : string :=
  nl ++ "Usage: node kernel.js [--debug] [--semantic] [--hide-undefined] "
     ++ "[--protocol=Major[.minor[.patch]]] [--session-working-dir=path] "
     ++ "[--show-undefined] [--startup-script=path] connection_file" ++ nl.

Section TypeScriptLauncher.
Variable host : Host.
Variable json : Json.
Local Open Scope run_scope.

(** **** Logger *)

Definition output (o : Output) : Run Launch unit :=
  update_state (fun l => mk_Launch (builder l) (logger l) (written_out l ++ [o])%list).

Definition set_logger (x : LoggerState) : Run Launch unit :=
  update_state (fun l => mk_Launch (builder l) x (written_out l)).

Definition Logger_onVerbose : Run Launch unit := set_logger LogVerbose.

Definition Logger_onProcessDebug : Run Launch unit :=
  if require_debug host then set_logger LogDebug else Logger_onVerbose.

(** [Logger.log(...msgs)], as the logger stands. *)
Definition Logger_log (msgs : list string) : Run Launch unit :=
  l <- state ;;
  match logger l with
  | LogNothing => done tt
  | LogVerbose => output (StderrWrite "KERNEL: ") ;; output (ConsoleError (join " " msgs))
  | LogDebug => output (DebugLog (join " " msgs))
  end.

Definition Logger_printUsage : Run Launch unit := output (ConsoleError usage).

Definition Logger_throwAndExit {A : Type} (msgs : list string) : Run Launch A :=
  output (ConsoleError (join " " msgs)) ;;
  Logger_printUsage ;;
  fail (Exited 1).

(** **** Configuration *)

Definition new_Configuration : Configuration :=
  mk_Configuration false false (process_cwd host) false "5.0" None [TScode] 0
                   false (VObj []) None None.

Definition update_builder (f : Configuration -> Configuration) : Run Launch unit :=
  update_state (fun l => mk_Launch (f (builder l)) (logger l) (written_out l)).

Definition with_onDebug (x : bool) (c : Configuration) : Configuration :=
  mk_Configuration x (_onTypeChk c) (_workingDir c) (hideUndefined c) (protocolVer c)
                   (transpiler c) (runningHistory c) (compiledLength c) (isConnSet c)
                   (conn c) (response c) (_startupScript c).

Definition with_onTypeChk (x : bool) (c : Configuration) : Configuration :=
  mk_Configuration (_onDebug c) x (_workingDir c) (hideUndefined c) (protocolVer c)
                   (transpiler c) (runningHistory c) (compiledLength c) (isConnSet c)
                   (conn c) (response c) (_startupScript c).

Definition with_workingDir (x : string) (c : Configuration) : Configuration :=
  mk_Configuration (_onDebug c) (_onTypeChk c) x (hideUndefined c) (protocolVer c)
                   (transpiler c) (runningHistory c) (compiledLength c) (isConnSet c)
                   (conn c) (response c) (_startupScript c).

Definition with_hideUndefined (x : bool) (c : Configuration) : Configuration :=
  mk_Configuration (_onDebug c) (_onTypeChk c) (_workingDir c) x (protocolVer c)
                   (transpiler c) (runningHistory c) (compiledLength c) (isConnSet c)
                   (conn c) (response c) (_startupScript c).

Definition with_protocolVer (x : string) (c : Configuration) : Configuration :=
  mk_Configuration (_onDebug c) (_onTypeChk c) (_workingDir c) (hideUndefined c) x
                   (transpiler c) (runningHistory c) (compiledLength c) (isConnSet c)
                   (conn c) (response c) (_startupScript c).

Definition with_transpiler (x : option (value * bool)) (c : Configuration) : Configuration :=
  mk_Configuration (_onDebug c) (_onTypeChk c) (_workingDir c) (hideUndefined c)
                   (protocolVer c) x (runningHistory c) (compiledLength c) (isConnSet c)
                   (conn c) (response c) (_startupScript c).

Definition with_history (h : list string) (n : nat) (c : Configuration) : Configuration :=
  mk_Configuration (_onDebug c) (_onTypeChk c) (_workingDir c) (hideUndefined c)
                   (protocolVer c) (transpiler c) h n (isConnSet c)
                   (conn c) (response c) (_startupScript c).

Definition with_isConnSet (x : bool) (c : Configuration) : Configuration :=
  mk_Configuration (_onDebug c) (_onTypeChk c) (_workingDir c) (hideUndefined c)
                   (protocolVer c) (transpiler c) (runningHistory c) (compiledLength c) x
                   (conn c) (response c) (_startupScript c).

Definition with_conn (x : value) (c : Configuration) : Configuration :=
  mk_Configuration (_onDebug c) (_onTypeChk c) (_workingDir c) (hideUndefined c)
                   (protocolVer c) (transpiler c) (runningHistory c) (compiledLength c)
                   (isConnSet c) x (response c) (_startupScript c).

Definition with_response (x : option KernelInfoReply) (c : Configuration) : Configuration :=
  mk_Configuration (_onDebug c) (_onTypeChk c) (_workingDir c) (hideUndefined c)
                   (protocolVer c) (transpiler c) (runningHistory c) (compiledLength c)
                   (isConnSet c) (conn c) x (_startupScript c).

Definition with_startupScript (x : option string) (c : Configuration) : Configuration :=
  mk_Configuration (_onDebug c) (_onTypeChk c) (_workingDir c) (hideUndefined c)
                   (protocolVer c) (transpiler c) (runningHistory c) (compiledLength c)
                   (isConnSet c) (conn c) (response c) x.

(** [JSON.parse(fs.readFileSync(path).toString())]. *)
Definition read_json {S : Type} (path : string) : Run S value :=
  match fs_readFileSync host path with
  | None => fail (FsError path)
  | Some b =>
      match JSON_parse json (Buffer_toString b) with
      | Some v => done v
      | None => fail (Raised SyntaxError)
      end
  end.

Definition of_completion {S A : Type} (c : completion A) : Run S A :=
  match c with
  | Normal a => done a
  | Throw e => fail (Raised e)
  end.

(** [Configuration.findTSConfig(dir)]: the recursion goes up one directory
    at a time; [None] when [fuel] directories were not enough. *)
Fixpoint Configuration_findTSConfig (fuel : nat) (dir : string) : option (option string) :=
  match fuel with
  | O => None
  | S fuel' =>
      let tsconf := path_join host dir "tsconfig.json" in
      if fs_existsSync host tsconf then Some (Some tsconf)
      else
        let parent := path_dirname host dir in
        if String.eqb parent dir then Some None
        else Configuration_findTSConfig fuel' parent
  end.

(** The setter [connectionWith]. *)
Definition set_connectionWith (path : string) : Run Launch unit :=
  l <- state ;;
  (if isConnSet (builder l)
   then Logger_throwAndExit ["Error: {connectionFile} cannot be duplicated"]
   else done tt) ;;
  update_builder (with_isConnSet true) ;;
  v <- read_json path ;;
  update_builder (with_conn v).

Definition Configuration_onDebug : Run Launch unit := update_builder (with_onDebug true).

Definition Configuration_onTypeChk : Run Launch unit := update_builder (with_onTypeChk true).

Definition Configuration_hideUndef : Run Launch unit :=
  update_builder (with_hideUndefined true).

Definition Configuration_showUndef : Run Launch unit :=
  update_builder (with_hideUndefined true).

Definition set_workingDir (path : string) : Run Launch unit :=
  update_builder (with_workingDir path).

Definition set_startupScript (script : string) : Run Launch unit :=
  update_builder (with_startupScript (Some script)).

(** [n <= 4] for the result of [parseInt]; false for NaN. *)
Definition at_most_4 (n : option Z) : bool :=
  match n with
  | Some z => (z <=? 4)%Z
  | None => false
  end.

(** The setter [protocolVersion]. *)
Definition set_protocolVersion (ver : string) : Run Launch unit :=
  update_builder (with_protocolVer ver) ;;
  let majorVersion := parseInt host (hd EmptyString (split "." ver)) in
  if at_most_4 majorVersion then
    let tsVer := map (parseInt10 host) (split "." (tsVersion host)) in
    let protocolVersion := map (parseInt10 host) (split "." ver) in
    update_builder (with_response (Some (Reply4 tsVer protocolVersion)))
  else
    pkg <- read_json (package_json host) ;;
    itsVersion <- of_completion (get_prop pkg "version") ;;
    version_text <- of_completion (ToPrimitiveString itsVersion) ;;
    update_builder
      (with_response
         (Some (Reply5 ver itsVersion (tsVersion host)
                       ("ITypescript v" ++ version_text ++ nl
                        ++ "https://github.com/nearbydelta/itypescript" ++ nl)))).

(** The getter [config]. *)
Definition get_config : Run Launch KernelConfig :=
  l <- state ;;
  options <- (fun st => (readTSConfig host (_workingDir (builder l)), st)) ;;
  update_builder (with_transpiler (Some (options, _onTypeChk (builder l)))) ;;
  let this := builder l in
  (if isConnSet this then done tt
   else Logger_throwAndExit ["Error: missing {connectionFile}"]) ;;
  done {| kc_cwd := _workingDir this;
          kc_hideUndefined := hideUndefined this;
          kc_protocolVersion := protocolVer this;
          kc_debug := _onDebug this;
          kc_kernelInfoReply := response this;
          kc_startupScript := _startupScript this;
          kc_connection := conn this |}.

(** **** The function [transpile] of the configuration *)

(** [line.match(/^L([0-9]+): /)]: the digits and what follows the match,
    or [None] when the line does not match. *)
Fixpoint leading_digits (s : string) : string * string :=
  match s with
  | String c rest =>
      if ((48 <=? byte_of c) && (byte_of c <=? 57))%N
      then let '(d, r) := leading_digits rest in (String c d, r)
      else (EmptyString, s)
  | EmptyString => (EmptyString, s)
  end.

Definition match_line_number (line : string) : option (string * string) :=
  match line with
  | String l rest =>
      if (byte_of l =? 76)%N then
        match leading_digits rest with
        | (EmptyString, _) => None
        | (d, String colon (String space r)) =>
            if ((byte_of colon =? 58) && (byte_of space =? 32))%N then Some (d, r) else None
        | _ => None
        end
      else None
  | EmptyString => None
  end.

(** A number in a template literal: its decimal text, [NaN] for NaN (the
    numbers are integers that JavaScript holds exactly). *)
Definition number_text (n : option Z) : string :=
  match n with
  | Some z => string_of_Z z
  | None => "NaN"
  end.

(** The function mapped over the lines of the message of a compile error;
    [None] when [number.length] is read off [null], which throws. *)
Definition renumber_line (lines : nat) (line : string) : option string :=
  match match_line_number line with
  | Some (d, r) =>
      let n := match parseInt host d with
               | Some z => Some (z - Z.of_nat lines + 1)%Z
               | None => None
               end in
      Some (String (chr 9) ("Line " ++ number_text n ++ ": ") ++ r)
  | None => None
  end.

Fixpoint renumber (lines : nat) (msg : list string) : option (list string) :=
  match msg with
  | [] => Some []
  | line :: rest =>
      match renumber_line lines line with
      | None => None
      | Some line' =>
          match renumber lines rest with
          | None => None
          | Some rest' => Some (line' :: rest')
          end
      end
  end.

Definition transpile (code : string) : Run Configuration string :=
  this <- state ;;
  match transpiler this with
  | None => fail (Raised TypeError)
  | Some (options, typeChk) =>
      match compile host options typeChk (join nl (runningHistory this) ++ nl ++ code) with
      | inl compiled =>
          update_state (with_history (runningHistory this ++ [code])%list
                                     (String.length compiled)) ;;
          done (slice (compiledLength this) compiled)
      | inr (name, message) =>
          let lines := List.length (split (chr 10) (join nl (runningHistory this))) in
          match renumber lines (split (chr 10) message) with
          | None => fail (Raised TypeError)
          | Some newLines =>
              let newMsg := join nl newLines in
              fail (ErrorThrown name newMsg (Some ("[COMPILE ERROR]" ++ nl ++ newMsg)))
          end
      end
  end.

(** **** Parser *)

Definition parse_argument (arg : string) : Run Launch unit :=
  let parts := split "=" (slice 2 arg) in
  let name := hd EmptyString parts in
  let values := tl parts in
  if String.eqb name "debug" then Configuration_onDebug ;; Logger_onVerbose
  else if String.eqb name "semantic" then Configuration_onTypeChk
  else if String.eqb name "hide-undefined" then Configuration_hideUndef
  else if String.eqb name "protocol" then set_protocolVersion (join "=" values)
  else if String.eqb name "session-working-dir" then set_workingDir (join "=" values)
  else if String.eqb name "show-undefined" then Configuration_showUndef
  else if String.eqb name "startup-script" then set_startupScript (join "=" values)
  else set_connectionWith arg.

Fixpoint parse_arguments (args : list string) : Run Launch unit :=
  match args with
  | [] => done tt
  | arg :: rest => parse_argument arg ;; parse_arguments rest
  end.

(** [Parser.parse()], run on a launcher whose builder is ignored: it makes
    its own [Configuration]. *)
Definition Parser_parse (argv : list string) : Run Launch KernelConfig :=
  update_builder (fun _ => new_Configuration) ;;
  parse_arguments (skipn 2 argv) ;;
  get_config.

(** The launcher up to the construction of the kernel: [env_DEBUG] is
    [process.env["DEBUG"]]. *)
Definition launch (env_DEBUG : option string) (argv : list string) : Run Launch KernelConfig :=
  (match env_DEBUG with
   | None | Some EmptyString => done tt
   | Some _ => Logger_onProcessDebug
   end) ;;
  Parser_parse argv.

(** The handler of [SIGINT], before it restarts the kernel. *)
Definition on_SIGINT : Run Launch unit := Logger_log ["Interrupting kernel"].

End TypeScriptLauncher.

(** *** Definitions used to state the properties of the launchers *)

(** The warnings for the arguments that start with a dash, in order. *)
Definition skipped_warnings (args : list string) : list Output :=
  map (fun arg => ConsoleWarn ["Warning: Argument '%s' skipped"; arg])
      (filter starts_with_dash args).

(** An argument of the JavaScript launcher that is skipped, or names a file
    that can be read and holds JSON. *)
Definition usable_argument (readFileSync : string -> option string) (json : Json)
           (arg : string) : Prop :=
  starts_with_dash arg = true
  \/ exists b v, readFileSync arg = Some b /\ JSON_parse json (Buffer_toString b) = Some v.

(** The name of an argument of the TypeScript launcher, and whether it is
    one of the two flags about [undefined], the option [protocol], or a
    connection file (no option at all). *)
Definition argument_name (arg : string) : string :=
  hd EmptyString (split "=" (slice 2 arg)).

Definition is_undefined_flag (arg : string) : bool :=
  String.eqb (argument_name arg) "hide-undefined"
  || String.eqb (argument_name arg) "show-undefined".

Definition is_protocol_option (arg : string) : bool :=
  String.eqb (argument_name arg) "protocol".

Definition is_debug_flag (arg : string) : bool :=
  String.eqb (argument_name arg) "debug".

(** The logger [process.env["DEBUG"]] selects at the start of the
    launcher, from the logger [before]. *)
Definition logger_of_environment (host : Host) (env_DEBUG : option string)
           (before : LoggerState) : LoggerState :=
  match env_DEBUG with
  | None | Some EmptyString => before
  | Some _ => if require_debug host then LogDebug else LogVerbose
  end.

Definition is_option (arg : string) : bool :=
  existsb (String.eqb (argument_name arg))
          ["debug"; "semantic"; "hide-undefined"; "protocol"; "session-working-dir";
           "show-undefined"; "startup-script"].

Definition is_connection_file (arg : string) : bool := negb (is_option arg).

(** Text without the separator, and text made of decimal digits. *)
Fixpoint free_of (sep : ascii) (s : string) : bool :=
  match s with
  | EmptyString => true
  | String c rest => negb (Ascii.eqb c sep) && free_of sep rest
  end.

Fixpoint all_digits (s : string) : bool :=
  match s with
  | EmptyString => true
  | String c rest => ((48 <=? byte_of c) && (byte_of c <=? 57))%N && all_digits rest
  end.

(** A line of the message of a compile error: [L], a line number, a colon
    and a space, and the text. *)
Definition numbered_line (item : string * string) : string :=
  "L" ++ fst item ++ ": " ++ snd item.

(** The directory [n] levels above [dir]. *)
Definition ancestor (host : Host) (n : nat) (dir : string) : string :=
  Nat.iter n (path_dirname host) dir.

(** The number of lines of the cells compiled so far. *)
Definition history_lines (this : Configuration) : nat :=
  List.length (split (chr 10) (join nl (runningHistory this))).

(** *** Concrete launches

    A file system with two connection files and one [tsconfig.json], a
    compiler that copies its source and rejects two cells, and command
    lines. *)

Module LaunchScenario.

Definition connection_text : string :=
  Reference.dq ("{'ip':'127.0.0.1','shell_port':5555,'iopub_port':5556,'hb_port':5557,"
                ++ "'signature_scheme':'hmac-sha256','key':'secret'}").

Definition connection_value : value :=
  VObj [("ip", VStr "127.0.0.1"); ("shell_port", VNum 5555); ("iopub_port", VNum 5556);
        ("hb_port", VNum 5557); ("signature_scheme", VStr "hmac-sha256");
        ("key", VStr "secret")].

Definition readFileSync (path : string) : option string :=
  if String.eqb path "first.json" then Some (Reference.dq "{'key':'old'}")
  else if String.eqb path "conn.json" then Some connection_text
  else if String.eqb path "null.json" then Some "null"
  else if String.eqb path "/opt/its/package.json" then Some (Reference.dq "{'version':'0.3.1'}")
  else None.

(** [path.dirname] and [path.join] for absolute paths without a trailing
    slash. *)
Definition dirname (path : string) : string :=
  match join "/" (removelast (split "/" path)) with
  | EmptyString => "/"
  | parent => parent
  end.

Definition join_path (dir name : string) : string :=
  if String.eqb dir "/" then "/" ++ name else dir ++ "/" ++ name.

(** [parseInt] for text that starts with a decimal digit or has none. *)
Definition decimal_prefix (s : string) : option Z :=
  match leading_digits s with
  | (EmptyString, _) => None
  | (d, _) => Some (fst (Reference.digits d 0%Z))
  end.

(** The last line of a source. *)
Definition last_line (source : string) : string :=
  last (split (chr 10) source) EmptyString.

(** A compiler that returns its source, except for a cell [x], which it
    rejects with a numbered message, and a cell [?], which it rejects with
    a message that has no line number. *)
Definition compile_stub (options : value) (typeChk : bool) (source : string)
  : string + string * string :=
  if String.eqb (last_line source) "x"
  then inr ("Error", "L3: Cannot find name 'x'.")
  else if String.eqb (last_line source) "?"
       then inr ("SyntaxError", "Unexpected token")
       else inl source.

Definition host : Host :=
  {| fs_readFileSync := readFileSync;
     fs_existsSync := fun path => String.eqb path "/home/tsconfig.json";
     path_join := join_path;
     path_dirname := dirname;
     process_cwd := "/home/user/project";
     package_json := "/opt/its/package.json";
     tsVersion := "2.1.4";
     parseInt := decimal_prefix;
     parseInt10 := decimal_prefix;
     require_debug := false;
     compile := compile_stub;
     readTSConfig := fun _ => Done (VObj [("target", VNum 1)]) |}.

Definition launch0 : Launch := mk_Launch (new_Configuration host) LogNothing [].

Definition argv_show : list string :=
  ["node"; "kernel.js"; "--show-undefined"; "conn.json"].

Definition config_show : KernelConfig :=
  {| kc_cwd := "/home/user/project";
     kc_hideUndefined := true;
     kc_protocolVersion := "5.0";
     kc_debug := false;
     kc_kernelInfoReply := None;
     kc_startupScript := None;
     kc_connection := connection_value |}.

(** A host on which the module [debug] is installed, and a launch with
    [--debug]. *)
Definition debug_host : Host :=
  {| fs_readFileSync := readFileSync;
     fs_existsSync := fun path => String.eqb path "/home/tsconfig.json";
     path_join := join_path;
     path_dirname := dirname;
     process_cwd := "/home/user/project";
     package_json := "/opt/its/package.json";
     tsVersion := "2.1.4";
     parseInt := decimal_prefix;
     parseInt10 := decimal_prefix;
     require_debug := true;
     compile := compile_stub;
     readTSConfig := fun _ => Done (VObj [("target", VNum 1)]) |}.

Definition argv_debug : list string :=
  ["node"; "kernel.js"; "conn.json"; "--debug"].

Definition config_debug : KernelConfig :=
  {| kc_cwd := "/home/user/project";
     kc_hideUndefined := false;
     kc_protocolVersion := "5.0";
     kc_debug := true;
     kc_kernelInfoReply := None;
     kc_startupScript := None;
     kc_connection := connection_value |}.

(** A configuration whose getter has run: its transpiler is set. *)
Definition ready : Configuration :=
  with_transpiler (Some (VObj [("target", VNum 1)], false)) (new_Configuration host).

(** A kernel configured with a scheme without the prefix [hmac-]. *)
Definition md5_kernel : Kernel :=
  mk_Kernel {| config_ip := "127.0.0.1";
               config_shell_port := 5555;
               config_iopub_port := 5556;
               config_hb_port := 5557;
               config_signature_scheme := "md5";
               config_key := "secret" |}
            (createSocket "rep") (createSocket "pub") (createSocket "router")
            Scenario.engine_ok.

End LaunchScenario.

(** * Properties *)

Ltac evaluate := vm_compute; reflexivity.
Ltac conjuncts := repeat match goal with |- _ /\ _ => split end.

Lemma append_assoc (a b c : string) : (a ++ b) ++ c = a ++ b ++ c.
Proof.
  induction a as [|x a IH]; simpl; [reflexivity | now rewrite IH].
Qed.

Section Codec.
Variable crypto : Crypto.
Variable json : Json.

(** A sequence of fewer than seven frames, or an unknown scheme: [parse]
    throws and leaves the message as it was. *)
Lemma parse_throws_early (args : list string) (this : Message) :
  supported crypto (scheme this) = false \/ (List.length args < 7)%nat ->
  exists e, parse crypto json args this = (Throw e, this) /\ e <> SyntaxError.
Proof.
  intros H. unfold parse, bind, get, lift, createHmac.
  destruct (supported crypto (scheme this)) eqn:Hs.
  - destruct H as [H | H]; [discriminate|].
    destruct args as [|f0 [|f1 [|sg [|h [|ph [|md [|c rest]]]]]]];
      simpl in H; try lia; simpl; eexists; split; try reflexivity; discriminate.
  - eexists; split; [reflexivity | discriminate].
Qed.

(** With seven frames or more the tag check is made, and its outcome is
    the comparison of the third frame with the tag of the next four. *)
Lemma parse_signatureOK (this : Message) (f0 f1 sg h ph md c : string) (rest : list string) :
  supported crypto (scheme this) = true ->
  signatureOK (snd (parse crypto json (f0 :: f1 :: sg :: h :: ph :: md :: c :: rest) this))
  = Some (String.eqb (Buffer_toString sg) (tag crypto (scheme this) (key this) h ph md c)).
Proof.
  intros Hs. unfold parse, bind, get, lift, createHmac, tag, digest_hex.
  rewrite Hs. simpl. rewrite !append_assoc.
  destruct (String.eqb _ _); simpl; [|reflexivity].
  unfold bind, lift, modify.
  destruct (JSON_parse json (Buffer_toString h)); simpl; [|reflexivity].
  destruct (JSON_parse json (Buffer_toString ph)); simpl; [|reflexivity].
  destruct (JSON_parse json (Buffer_toString c)); simpl; reflexivity.
Qed.

(** When the tag does not match, [parse] returns at once. *)
Lemma parse_mismatch (this : Message) (f0 f1 sg h ph md c : string) (rest : list string) :
  supported crypto (scheme this) = true ->
  String.eqb (Buffer_toString sg) (tag crypto (scheme this) (key this) h ph md c) = false ->
  parse crypto json (f0 :: f1 :: sg :: h :: ph :: md :: c :: rest) this
  = (Normal tt, set_signatureOK (Some false) (set_signature (Some (Buffer_toString sg)) this)).
Proof.
  intros Hs Hne. unfold parse, bind, get, lift, createHmac, digest_hex.
  rewrite Hs. simpl. unfold tag in Hne. rewrite !append_assoc, Hne. reflexivity.
Qed.

(** When the tag matches and the three structured frames decode, every
    field is assigned. *)
Lemma parse_match (this : Message) (f0 f1 sg h ph md c : string) (rest : list string)
      (hv phv cv : value) :
  supported crypto (scheme this) = true ->
  String.eqb (Buffer_toString sg) (tag crypto (scheme this) (key this) h ph md c) = true ->
  JSON_parse json (Buffer_toString h) = Some hv ->
  JSON_parse json (Buffer_toString ph) = Some phv ->
  JSON_parse json (Buffer_toString c) = Some cv ->
  parse crypto json (f0 :: f1 :: sg :: h :: ph :: md :: c :: rest) this
  = (Normal tt,
     mk_Message (Some (Buffer_toString f0)) (Some (Buffer_toString f1))
                (Some (Buffer_toString sg)) hv phv (Some (Buffer_toString md)) cv
                (toString (nth_error rest 0)) (scheme this) (key this) (Some true)).
Proof.
  intros Hs He Hh Hph Hc. unfold parse, bind, get, lift, createHmac, digest_hex.
  rewrite Hs. simpl. unfold tag in He. rewrite !append_assoc, He. simpl.
  unfold bind, lift, modify. rewrite Hh. simpl. rewrite Hph. simpl. rewrite Hc. simpl.
  destruct rest; reflexivity.
Qed.

(** A message on which the check was made and failed. *)
Lemma parse_false_inv (args : list string) (this : Message) :
  signatureOK this = None ->
  signatureOK (snd (parse crypto json args this)) = Some false ->
  exists f0 f1 sg h ph md c rest,
    args = f0 :: f1 :: sg :: h :: ph :: md :: c :: rest
    /\ supported crypto (scheme this) = true
    /\ String.eqb (Buffer_toString sg) (tag crypto (scheme this) (key this) h ph md c) = false.
Proof.
  intros Hnone Hfalse.
  destruct (supported crypto (scheme this)) eqn:Hs.
  - destruct (Compare_dec.le_lt_dec 7 (List.length args)) as [Hlen | Hlen].
    + destruct args as [|f0 [|f1 [|sg [|h [|ph [|md [|c rest]]]]]]];
        simpl in Hlen; try lia.
      rewrite parse_signatureOK in Hfalse by assumption.
      exists f0, f1, sg, h, ph, md, c, rest. repeat split; congruence.
    + destruct (parse_throws_early args this (or_intror Hlen)) as (e & He & _).
      rewrite He in Hfalse. simpl in Hfalse. congruence.
  - destruct (parse_throws_early args this (or_introl Hs)) as (e & He & _).
    rewrite He in Hfalse. simpl in Hfalse. congruence.
Qed.

(** The JSON decoder is consulted only after the check has passed: as long
    as [signatureOK] does not come out true, whether [parse] threw before
    the check or the check failed, the outcome does not depend on the
    decoder. *)
Lemma parse_decoder_unused (json' : Json) (args : list string) (this : Message) :
  truthy (signatureOK (snd (parse crypto json args this))) = false ->
  parse crypto json' args this = parse crypto json args this.
Proof.
  intros Hf.
  destruct (supported crypto (scheme this)) eqn:Hs.
  - destruct (Compare_dec.le_lt_dec 7 (List.length args)) as [Hlen | Hlen].
    + destruct args as [|f0 [|f1 [|sg [|h [|ph [|md [|c rest]]]]]]];
        simpl in Hlen; try lia.
      rewrite parse_signatureOK in Hf by assumption.
      destruct (String.eqb (Buffer_toString sg)
                           (tag crypto (scheme this) (key this) h ph md c)) eqn:He;
        [discriminate|].
      rewrite (parse_mismatch _ f0 f1 sg h ph md c rest Hs He).
      unfold parse, bind, get, lift, createHmac, digest_hex.
      rewrite Hs. unfold tag in He. simpl. rewrite !append_assoc, He. reflexivity.
    + unfold parse, bind, get, lift, createHmac. rewrite Hs.
      destruct args as [|f0 [|f1 [|sg [|h [|ph [|md [|c rest]]]]]]];
        simpl in Hlen; try lia; reflexivity.
  - unfold parse, bind, get, lift, createHmac. rewrite Hs. reflexivity.
Qed.

(** C10. When the signature check fails, [parse] stops before it
    decodes anything: it returns normally, and of the fields of the
    message only [signature], the text of the received signature frame,
    and [signatureOK], now [false], are set; [idents], [delimiter],
    [header], [parentHeader], [metadata], [content] and [blob] are still
    [undefined]. *)
Theorem parse_failed_check_stores_nothing
        (args : list string) (scheme0 key0 : option string)
        (c : completion unit) (this : Message) :
  parse crypto json args (Message_fields scheme0 key0) = (c, this) ->
  signatureOK this = Some false ->
  c = Normal tt
  /\ (exists sg, nth_error args 2 = Some sg /\ signature this = Some (Buffer_toString sg))
  /\ idents this = None /\ delimiter this = None
  /\ header this = VUndefined /\ parentHeader this = VUndefined
  /\ metadata this = None /\ content this = VUndefined /\ blob this = None.
Proof.
  intros Hp Hf.
  assert (Hf' : signatureOK (snd (parse crypto json args (Message_fields scheme0 key0)))
                = Some false) by (rewrite Hp; exact Hf).
  apply parse_false_inv in Hf'; [|reflexivity].
  destruct Hf' as (f0 & f1 & sg & h & ph & md & cf & rest & -> & Hs & Hne).
  rewrite (parse_mismatch _ f0 f1 sg h ph md cf rest Hs Hne) in Hp.
  inversion Hp; subst; clear Hp. simpl.
  split; [reflexivity|]. split; [exists sg; split; reflexivity|].
  repeat split.
Qed.

(** C3. [parse] checks the authentication tag before it decodes any
    frame as structured data: when the check fails, [parse] returns
    normally, and its outcome is the same whatever the JSON decoder does
    on the header, parent header and content frames, a decoder that
    rejects them included. *)
Theorem parse_checks_tag_before_decoding
        (json' : Json) (args : list string) (scheme0 key0 : option string) :
  signatureOK (snd (parse crypto json args (Message_fields scheme0 key0))) = Some false ->
  fst (parse crypto json args (Message_fields scheme0 key0)) = Normal tt
  /\ parse crypto json' args (Message_fields scheme0 key0)
     = parse crypto json args (Message_fields scheme0 key0).
Proof.
  intros Hf. apply parse_false_inv in Hf; [|reflexivity].
  destruct Hf as (f0 & f1 & sg & h & ph & md & cf & rest & -> & Hs & Hne).
  rewrite (parse_mismatch _ f0 f1 sg h ph md cf rest Hs Hne).
  split; [reflexivity|].
  unfold parse, bind, get, lift, createHmac, digest_hex.
  rewrite Hs. unfold tag in Hne. simpl in Hne |- *.
  rewrite !append_assoc, Hne. reflexivity.
Qed.

(** C7, as amended. [parse] reads the frames at fixed positions, which is
    the layout with exactly one identity frame: for
    [identity, delimiter, signature, header, parentHeader, metadata,
    content] and what follows, when the signature frame is the tag of
    the header, parent header, metadata and content frames in that order
    and the three structured frames decode, [parse] returns normally with
    [signatureOK] true and every field taken from its frame. *)
Theorem parse_single_identity_layout
        (scheme0 key0 : option string)
        (identity delim sg h ph md c : string) (rest : list string)
        (hv phv cv : value) :
  supported crypto (or_default scheme0 "sha256") = true ->
  Buffer_toString sg
  = tag crypto (or_default scheme0 "sha256") (or_default key0 "") h ph md c ->
  JSON_parse json (Buffer_toString h) = Some hv ->
  JSON_parse json (Buffer_toString ph) = Some phv ->
  JSON_parse json (Buffer_toString c) = Some cv ->
  parse crypto json (identity :: delim :: sg :: h :: ph :: md :: c :: rest)
        (Message_fields scheme0 key0)
  = (Normal tt,
     mk_Message (Some (Buffer_toString identity)) (Some (Buffer_toString delim))
                (Some (Buffer_toString sg)) hv phv (Some (Buffer_toString md)) cv
                (toString (nth_error rest 0))
                (or_default scheme0 "sha256") (or_default key0 "") (Some true)).
Proof.
  intros Hs Hsg Hh Hph Hc.
  apply (parse_match (Message_fields scheme0 key0)); try assumption.
  simpl. rewrite Hsg. apply String.eqb_refl.
Qed.

(** C2, as amended. With the empty string as key (or no key), [parse]
    still computes the tag, keyed with the empty string, and
    [signatureOK] is true exactly when the text of the signature frame
    is that tag. *)
Theorem parse_empty_key_still_checks
        (scheme0 key0 : option string)
        (f0 f1 sg h ph md c : string) (rest : list string) :
  supported crypto (or_default scheme0 "sha256") = true ->
  key0 = None \/ key0 = Some "" ->
  signatureOK (snd (parse crypto json (f0 :: f1 :: sg :: h :: ph :: md :: c :: rest)
                          (Message_fields scheme0 key0)))
  = Some (String.eqb (Buffer_toString sg)
                     (tag crypto (or_default scheme0 "sha256") "" h ph md c)).
Proof.
  intros Hs Hk.
  rewrite parse_signatureOK by exact Hs.
  destruct Hk as [-> | ->]; reflexivity.
Qed.

End Codec.

(** ** Text that survives the wire *)

Lemma hex_all_ascii (b : string) : all_ascii (hex b).
Proof.
  induction b as [|c b IH]; simpl; [exact I|].
  destruct c as [[] [] [] [] [] [] [] []];
    (split; [vm_compute; discriminate | split; [vm_compute; discriminate | exact IH]]).
Qed.

Lemma Buffer_toString_ascii (s : string) : all_ascii s -> Buffer_toString s = s.
Proof.
  unfold Buffer_toString.
  induction s as [|c s IH]; [reflexivity|].
  intros [Hc Hs]. apply N.leb_le in Hc.
  cbn [utf8_decode]. unfold utf8_step. cbn [utf8_idle u_needed]. unfold utf8_lead.
  rewrite Hc. cbn [append]. now rewrite (IH Hs).
Qed.

Lemma get_prop_coercible (v : value) (name : string) :
  object_coercible v = true -> get_prop v name = Normal (prop v name).
Proof.
  destruct v; simpl; intros H; try discriminate; reflexivity.
Qed.

Section Responses.
Variable crypto : Crypto.
Variable json : Json.
Variable uuid_v4 : nat -> string.

Lemma stringify_defined (v : value) :
  v <> VUndefined -> stringify json v = Some (JSON_stringify json v).
Proof.
  destruct v; intros H; try reflexivity. now contradiction H.
Qed.

Lemma coercible_defined (v : value) : object_coercible v = true -> v <> VUndefined.
Proof.
  intros H ->. discriminate.
Qed.

(** A response to a message with a header, in a scheme the crypto module
    knows: one write of the frames of the response on the socket. *)
Lemma respond_sends (this : Message) (socket : Socket) (messageType : string)
      (content0 : value) (st : Store) :
  supported crypto (scheme this) = true ->
  object_coercible (header this) = true ->
  content0 <> VUndefined ->
  respond crypto json uuid_v4 this socket messageType content0 st
  = (Normal tt,
     sent socket (response_frames crypto json this (uuid_v4 (uuid_calls st))
                                  messageType content0) st).
Proof.
  intros Hs Hh Hc. unfold respond, bind, v4, lift.
  rewrite !(get_prop_coercible _ _ Hh).
  rewrite (stringify_defined _ Hc), (stringify_defined _ (coercible_defined _ Hh)).
  unfold createHmac. rewrite Hs. simpl.
  unfold send, emit_event, modify, sent, response_frames, response_header, tag, digest_hex.
  simpl. rewrite !append_assoc. reflexivity.
Qed.

(** C4. Round-trip signing: [respond] signs the serialized header, parent
    header, metadata and content in that order, and the frames it writes,
    parsed again by a message object with the same scheme and key, give
    [signatureOK] true. *)
Theorem respond_roundtrip (this that : Message) (socket : Socket) (messageType : string)
        (content0 : value) (st : Store) :
  supported crypto (scheme this) = true ->
  object_coercible (header this) = true ->
  content0 <> VUndefined ->
  scheme that = scheme this ->
  key that = key this ->
  exists frames,
    respond crypto json uuid_v4 this socket messageType content0 st
    = (Normal tt, sent socket frames st)
    /\ nth_error frames 2
       = Some (Some (tag crypto (scheme this) (key this)
                         (JSON_stringify json
                            (response_header this (uuid_v4 (uuid_calls st)) messageType))
                         (JSON_stringify json (header this))
                         (JSON_stringify json (VObj []))
                         (JSON_stringify json content0)))
    /\ signatureOK (snd (parse crypto json (wire frames) that)) = Some true.
Proof.
  intros Hs Hh Hc Hsch Hkey.
  exists (response_frames crypto json this (uuid_v4 (uuid_calls st)) messageType content0).
  split; [now apply respond_sends|]. split; [reflexivity|].
  unfold response_frames, wire. simpl map.
  rewrite parse_signatureOK by (rewrite Hsch; exact Hs).
  rewrite Hsch, Hkey.
  rewrite Buffer_toString_ascii by apply hex_all_ascii.
  now rewrite String.eqb_refl.
Qed.

End Responses.

Section Dispatch.
Variable crypto : Crypto.
Variable json : Json.
Variable uuid_v4 : nat -> string.
Variable nodeVersion : list Z.

(** C1. A message arriving on the Shell socket whose tag does not match
    its signature frame is dropped: the listener returns with the store
    unchanged, so no member of the prototype was called with it, nothing
    was written on any socket, and no response has it as parent. *)
Theorem unauthenticated_message_is_dropped (k : Kernel) (frames : list string) (st : Store) :
  signatureOK (snd (parse crypto json frames (incoming k))) = Some false ->
  shellSocket_message crypto json uuid_v4 nodeVersion k frames st = (Normal tt, st).
Proof.
  intros Hf. pose proof Hf as Hinv.
  apply parse_false_inv in Hinv; [|reflexivity].
  destruct Hinv as (f0 & f1 & sg & h & ph & md & c & rest & -> & Hs & Hne).
  unfold shellSocket_message, emit, bind_this, _onMessage, bind, lift, new_Message.
  fold (incoming k).
  rewrite (parse_mismatch crypto json _ f0 f1 sg h ph md c rest Hs Hne).
  reflexivity.
Qed.

(** An authenticated message whose type is no property of the prototype:
    a warning, and nothing else. *)
Lemma unknown_type_warns (k : Kernel) (frames : list string) (st : Store)
      (msg : Message) (msg_type : value) (name : string) :
  parse crypto json frames (incoming k) = (Normal tt, msg) ->
  signatureOK msg = Some true ->
  get_prop (header msg) "msg_type" = Normal msg_type ->
  ToPrimitiveString msg_type = Normal name ->
  in_prototype name = false ->
  shellSocket_message crypto json uuid_v4 nodeVersion k frames st
  = (Normal tt,
     mk_Store (trace st ++ [EvWarn [VStr "Unhandled message type:"; msg_type]])
              (uuid_calls st)).
Proof.
  intros Hp Hok Ht Hname Hin.
  unfold shellSocket_message, emit, bind_this, _onMessage, bind, lift, new_Message.
  fold (incoming k). rewrite Hp, Hok. simpl. rewrite Ht, Hname, Hin. reflexivity.
Qed.

(** An authenticated message whose type is a property the prototype
    inherits: the member is called, and no warning is written. *)
Lemma inherited_member_called (k : Kernel) (frames : list string) (st : Store)
      (msg : Message) (msg_type : value) (name : string) :
  parse crypto json frames (incoming k) = (Normal tt, msg) ->
  signatureOK msg = Some true ->
  get_prop (header msg) "msg_type" = Normal msg_type ->
  ToPrimitiveString msg_type = Normal name ->
  in_prototype name = true ->
  shellSocket_message crypto json uuid_v4 nodeVersion k frames st
  = call_member crypto json uuid_v4 nodeVersion name k msg st.
Proof.
  intros Hp Hok Ht Hname Hin.
  unfold shellSocket_message, emit, bind_this, _onMessage, bind, lift, new_Message.
  fold (incoming k). rewrite Hp, Hok. simpl. rewrite Ht, Hname, Hin. reflexivity.
Qed.

(** C8. An [execute_request] for the code [1+1], run by an engine that
    invokes [beforeRun] and then [onSuccess] with a session whose
    execution count is 1 and whose result has the MIME bundle
    [{"text/plain": "2"}]: the kernel writes, in this order, the input
    echo ([pyin]) with the code and the count on the IOPub socket, the
    [execute_reply] with status [ok], the count and empty [payload],
    [user_variables] and [user_expressions] on the Shell socket, and the
    output ([pyout]) with the bundle as data on the IOPub socket. *)
Theorem execute_request_success_scenario
        (k : Kernel) (request : Message) (session : Session) (st : Store) :
  supported crypto (scheme request) = true ->
  object_coercible (header request) = true ->
  get_prop (content request) "code" = Normal (VStr "1+1") ->
  sm k = stub_engine [BeforeRun; OnSuccess] session ->
  executionCount session = VNum 1 ->
  get_prop (result session) "mime" = Normal (VObj [("text/plain", VStr "2")]) ->
  execute_request crypto json uuid_v4 k request st
  = (Normal tt,
     mk_Store
       (trace st ++
        [EvSend (iopubSocket k)
           (response_frames crypto json request (uuid_v4 (uuid_calls st)) "pyin"
              (VObj [("execution_count", VNum 1);
                     ("code", VStr "1+1")]));
         EvSend (shellSocket k)
           (response_frames crypto json request (uuid_v4 (1 + uuid_calls st)) "execute_reply"
              (VObj [("status", VStr "ok");
                     ("execution_count", VNum 1);
                     ("payload", VArr []);
                     ("user_variables", VObj []);
                     ("user_expressions", VObj [])]));
         EvSend (iopubSocket k)
           (response_frames crypto json request (uuid_v4 (2 + uuid_calls st)) "pyout"
              (VObj [("execution_count", VNum 1);
                     ("data", VObj [("text/plain", VStr "2")]);
                     ("metadata", VObj [])]))])
       (3 + uuid_calls st)).
Proof.
  intros Hs Hh Hcode Hsm Hcount Hmime.
  unfold execute_request, bind, lift. rewrite Hcode.
  rewrite (get_prop_coercible _ _ Hh), Hsm. simpl.
  unfold bind, beforeRun, onSuccess, bind, lift. rewrite Hcode, Hcount.
  rewrite respond_sends by (assumption || discriminate).
  rewrite respond_sends by (assumption || discriminate).
  rewrite Hmime.
  rewrite respond_sends by (assumption || discriminate).
  unfold sent. simpl. rewrite <- !app_assoc. reflexivity.
Qed.

(** C9. The task [execute_request] hands to the engine has an [onError]
    callback that, invoked with a session whose result holds an error
    with [ename], [evalue] and [traceback], writes the [execute_reply]
    with status [error], the execution count and the three fields on the
    Shell socket, and then the error broadcast ([pyerr]) with the same
    three fields on the IOPub socket. *)
Theorem execute_request_error_callback
        (k : Kernel) (request : Message) (session : Session) (error : value) (st : Store) :
  supported crypto (scheme request) = true ->
  object_coercible (header request) = true ->
  object_coercible (content request) = true ->
  get_prop (result session) "error" = Normal error ->
  object_coercible error = true ->
  exists task,
    execute_request crypto json uuid_v4 k request st
    = run (sm k) (prop (header request) "session") task st
    /\ forall st',
      task_onError task session st'
      = (Normal tt,
         mk_Store
           (trace st' ++
            [EvSend (shellSocket k)
               (response_frames crypto json request (uuid_v4 (uuid_calls st')) "execute_reply"
                  (VObj [("status", VStr "error");
                         ("execution_count", executionCount session);
                         ("ename", prop error "ename");
                         ("evalue", prop error "evalue");
                         ("traceback", prop error "traceback")]));
             EvSend (iopubSocket k)
               (response_frames crypto json request (uuid_v4 (1 + uuid_calls st')) "pyerr"
                  (VObj [("execution_count", executionCount session);
                         ("ename", prop error "ename");
                         ("evalue", prop error "evalue");
                         ("traceback", prop error "traceback")]))])
           (2 + uuid_calls st')).
Proof.
  intros Hs Hh Hc Herr He.
  eexists. split.
  - unfold execute_request, bind, lift.
    rewrite (get_prop_coercible _ _ Hc), (get_prop_coercible _ _ Hh). reflexivity.
  - intros st'. simpl. unfold onError, bind, lift.
    rewrite Herr, !(get_prop_coercible _ _ He).
    rewrite respond_sends by (assumption || discriminate).
    rewrite respond_sends by (assumption || discriminate).
    unfold sent. simpl. rewrite <- !app_assoc. reflexivity.
Qed.

End Dispatch.

(** C5. A message arriving on the HeartBeat socket is not echoed: the
    listener is registered unbound, the socket calls it with itself as
    [this], [this.hbSocket] is [undefined], and the call of [send] on it
    throws a TypeError; nothing is written, whatever the payload. *)
Theorem heartbeat_listener_throws (k : Kernel) (frames : list string) (st : Store) :
  hbSocket_message k frames st = (Throw TypeError, st).
Proof.
  reflexivity.
Qed.

(** Had the listener been bound to the kernel, as the listener of the Shell
    socket is, the payload would be written back unchanged. *)
Lemma heartbeat_listener_bound_echoes (k : Kernel) (b : string) (st : Store) :
  emit (hbSocket k) (fun _ => hbSocket_onMessage (OKernel k)) [b] st
  = (Normal tt, mk_Store (trace st ++ [EvSend (hbSocket k) [Some b]]) (uuid_calls st)).
Proof.
  reflexivity.
Qed.

(** * The kernel on concrete frames *)

Module Checks.
Import Reference Scenario.


(** The reference HMAC-SHA-256 on the vectors of FIPS 180-4 and
    RFC 4231. *)
Example sha256_abc :
  hex (string_of_bytes (sha256 (bytes_of "abc")))
  = "ba7816bf8f01cfea414140de5dae2223b00361a396177a9cb410ff61f20015ad".
Proof. evaluate. Qed.

Example hmac_sha256_rfc4231 :
  hex (mac crypto "sha256" "Jefe" "what do ya want for nothing?")
  = "5bdcc146bf60754e6a042426089575c75a003f089d2739839dec58b964ec3843".
Proof. evaluate. Qed.

(** The signature frame of [execute_frames] is the tag of its four signed
    frames under the key [secret]. *)
Example execute_frames_signed :
  tag crypto "sha256" "secret" execute_header "{}" "{}" execute_content
  = "2d2289fb3cd664005b402c2a092bd8c1bd60b1d14a093dd1e6cf8ca032abdca3".
Proof. evaluate. Qed.

Example execute_frames_parsed (m : Manager) :
  parse crypto json execute_frames (incoming (kernel m)) = (Normal tt, execute_message).
Proof. evaluate. Qed.

Example forged_frames_parsed (m : Manager) :
  parse crypto json forged_frames (incoming (kernel m)) = (Normal tt, forged_message).
Proof. evaluate. Qed.

(** The type [nonexistent_request]: a warning, no frame written. *)
Example nonexistent_request_warns (m : Manager) :
  shellSocket_message crypto json uuid_v4 nodeVersion (kernel m) nonexistent_frames store0
  = (Normal tt,
     mk_Store [EvWarn [VStr "Unhandled message type:"; VStr "nonexistent_request"]] 0).
Proof. evaluate. Qed.

(** The two scenarios of section 8 of the specification, from the frames
    of the request to the content frames written. *)
Example success_scenario_on_the_wire :
  let r := shellSocket_message crypto json uuid_v4 nodeVersion (kernel engine_ok)
                               execute_frames store0 in
  fst r = Normal tt
  /\ written (trace (snd r))
     = [("pub", Some (dq "{'execution_count':1,'code':'1+1'}"));
        ("router", Some (dq ("{'status':'ok','execution_count':1,'payload':[],"
                             ++ "'user_variables':{},'user_expressions':{}}")));
        ("pub", Some (dq "{'execution_count':1,'data':{'text/plain':'2'},'metadata':{}}"))].
Proof. cbv zeta. conjuncts; evaluate. Qed.

Example error_scenario_on_the_wire :
  let r := shellSocket_message crypto json uuid_v4 nodeVersion
             (kernel (stub_engine [BeforeRun; OnError] session_error))
             execute_frames store0 in
  fst r = Normal tt
  /\ written (trace (snd r))
     = [("pub", Some (dq "{'execution_count':1,'code':'1+1'}"));
        ("router", Some (dq ("{'status':'error','execution_count':1,'ename':'Error',"
                             ++ "'evalue':'boom','traceback':['boom']}")));
        ("pub", Some (dq ("{'execution_count':1,'ename':'Error',"
                          ++ "'evalue':'boom','traceback':['boom']}")))].
Proof. cbv zeta. conjuncts; evaluate. Qed.

(** C6, at a failing input. An authenticated message of type [toString],
    which is no handler: the dispatcher finds the name in the prototype
    (it is inherited from [Object.prototype]), calls that member with
    the message and writes no warning. For the type [__proto__], found
    in the prototype too, the dispatcher raises a TypeError on a message
    that is authenticated: nothing is called and no warning is written. *)
Theorem inherited_names_are_dispatched (m : Manager) :
  shellSocket_message crypto json uuid_v4 nodeVersion (kernel m) toString_frames store0
  = (Normal tt, mk_Store [EvCall "toString" toString_message] 0)
  /\ parse crypto json proto_frames (incoming (kernel m)) = (Normal tt, proto_message)
  /\ signatureOK proto_message = Some true
  /\ shellSocket_message crypto json uuid_v4 nodeVersion (kernel m) proto_frames store0
     = (Throw TypeError, store0).
Proof. conjuncts; evaluate. Qed.

(** C2, counterexample. With the empty key, the request with an empty
    signature frame is not authenticated, although its frames are well
    formed; the same request is authenticated when its signature frame
    is the tag under the empty key. *)
Lemma empty_key_rejects_unsigned_message :
  key (Message_fields (Some "sha256") (Some "")) = ""
  /\ JSON_parse json execute_header
     = Some (VObj [("msg_id", VStr "m1"); ("username", VStr "user");
                   ("session", VStr "s1"); ("msg_type", VStr "execute_request")])
  /\ JSON_parse json "{}" = Some (VObj [])
  /\ JSON_parse json execute_content = Some (VObj [("code", VStr "1+1")])
  /\ signatureOK (snd (parse crypto json unsigned_frames
                             (Message_fields (Some "sha256") (Some "")))) = Some false
  /\ signatureOK (snd (parse crypto json empty_key_frames
                             (Message_fields (Some "sha256") (Some "")))) = Some true.
Proof. conjuncts; evaluate. Qed.

(** C7, counterexample. The signed request behind two identity frames,
    and behind none: the frames are laid out as the specification says,
    the signature frame that follows the delimiter is the tag of the four
    frames after it, and [parse] takes the check to have failed and
    assigns no field. *)
Lemma parse_misreads_other_identity_counts :
  two_identity_frames
  = ["client-1"; "client-2"; "<IDS|MSG>";
     tag crypto "sha256" "secret" execute_header "{}" "{}" execute_content;
     execute_header; "{}"; "{}"; execute_content]
  /\ parse crypto json two_identity_frames (Message_fields (Some "sha256") (Some "secret"))
     = (Normal tt,
        mk_Message None None (Some "<IDS|MSG>") VUndefined VUndefined None VUndefined None
                   "sha256" "secret" (Some false))
  /\ no_identity_frames
     = ["<IDS|MSG>";
        tag crypto "sha256" "secret" execute_header "{}" "{}" execute_content;
        execute_header; "{}"; "{}"; execute_content; "blob"]
  /\ parse crypto json no_identity_frames (Message_fields (Some "sha256") (Some "secret"))
     = (Normal tt,
        mk_Message None None (Some execute_header) VUndefined VUndefined None VUndefined None
                   "sha256" "secret" (Some false)).
Proof. conjuncts; evaluate. Qed.

(** ** The theorems at these frames *)

(** The forged message: the check fails and only the signature is kept. *)
Lemma parse_failed_check_stores_nothing_witness :
  parse crypto json forged_frames fresh = (Normal tt, forged_message)
  /\ signatureOK forged_message = Some false
  /\ (Normal tt = Normal tt :> completion unit)
  /\ (exists sg, nth_error forged_frames 2 = Some sg
                 /\ signature forged_message = Some (Buffer_toString sg))
  /\ idents forged_message = None /\ delimiter forged_message = None
  /\ header forged_message = VUndefined /\ parentHeader forged_message = VUndefined
  /\ metadata forged_message = None /\ content forged_message = VUndefined
  /\ blob forged_message = None.
Proof.
  assert (H : parse crypto json forged_frames fresh = (Normal tt, forged_message))
    by evaluate.
  split; [exact H|]. split; [reflexivity|].
  exact (parse_failed_check_stores_nothing crypto json forged_frames
           (Some "sha256") (Some "secret") (Normal tt) forged_message H eq_refl).
Defined.

(** The forged message, whose header is not JSON: [parse] returns normally,
    with the decoder of the platform as with one that rejects every text. *)
Lemma parse_checks_tag_before_decoding_witness :
  signatureOK (snd (parse crypto json forged_frames fresh)) = Some false
  /\ fst (parse crypto json forged_frames fresh) = Normal tt
  /\ parse crypto rejecting_json forged_frames fresh = parse crypto json forged_frames fresh.
Proof.
  assert (H : signatureOK (snd (parse crypto json forged_frames fresh)) = Some false)
    by evaluate.
  split; [exact H|].
  exact (parse_checks_tag_before_decoding crypto json rejecting_json forged_frames
           (Some "sha256") (Some "secret") H).
Defined.

(** The forged message on the Shell socket: the store stays empty. *)
Lemma unauthenticated_message_is_dropped_witness :
  signatureOK (snd (parse crypto json forged_frames (incoming (kernel engine_ok)))) = Some false
  /\ shellSocket_message crypto json uuid_v4 nodeVersion (kernel engine_ok) forged_frames store0
     = (Normal tt, store0).
Proof.
  assert (H : signatureOK (snd (parse crypto json forged_frames (incoming (kernel engine_ok))))
              = Some false) by evaluate.
  split; [exact H|].
  exact (unauthenticated_message_is_dropped crypto json uuid_v4 nodeVersion
           (kernel engine_ok) forged_frames store0 H).
Defined.

(** The unsigned request under the empty key: the check is made against
    the tag keyed with the empty string. *)
Lemma parse_empty_key_still_checks_witness :
  supported crypto (or_default (Some "sha256") "sha256") = true
  /\ (Some "" = None \/ Some "" = Some "")
  /\ signatureOK (snd (parse crypto json unsigned_frames
                             (Message_fields (Some "sha256") (Some ""))))
     = Some (String.eqb (Buffer_toString "")
                        (tag crypto "sha256" "" execute_header "{}" "{}" execute_content)).
Proof.
  split; [reflexivity|]. split; [right; reflexivity|].
  exact (parse_empty_key_still_checks crypto json (Some "sha256") (Some "")
           "client-1" "<IDS|MSG>" "" execute_header "{}" "{}" execute_content []
           eq_refl (or_intror eq_refl)).
Defined.

(** The signed request behind one identity frame is parsed into
    [execute_message]. *)
Lemma parse_single_identity_layout_witness :
  supported crypto (or_default (Some "sha256") "sha256") = true
  /\ Buffer_toString "2d2289fb3cd664005b402c2a092bd8c1bd60b1d14a093dd1e6cf8ca032abdca3"
     = tag crypto "sha256" "secret" execute_header "{}" "{}" execute_content
  /\ JSON_parse json (Buffer_toString execute_header) = Some (header execute_message)
  /\ JSON_parse json (Buffer_toString "{}") = Some (VObj [])
  /\ JSON_parse json (Buffer_toString execute_content) = Some (content execute_message)
  /\ parse crypto json execute_frames fresh = (Normal tt, execute_message).
Proof.
  assert (Hsg : Buffer_toString
                  "2d2289fb3cd664005b402c2a092bd8c1bd60b1d14a093dd1e6cf8ca032abdca3"
                = tag crypto (or_default (Some "sha256") "sha256")
                      (or_default (Some "secret") "") execute_header "{}" "{}" execute_content)
    by evaluate.
  assert (Hh : JSON_parse json (Buffer_toString execute_header)
               = Some (header execute_message)) by evaluate.
  assert (Hp : JSON_parse json (Buffer_toString "{}") = Some (VObj []))
    by evaluate.
  assert (Hc : JSON_parse json (Buffer_toString execute_content)
               = Some (content execute_message)) by evaluate.
  split; [reflexivity|]. split; [exact Hsg|]. split; [exact Hh|].
  split; [exact Hp|]. split; [exact Hc|].
  exact (parse_single_identity_layout crypto json (Some "sha256") (Some "secret")
           "client-1" "<IDS|MSG>" _ execute_header "{}" "{}" execute_content []
           (header execute_message) (VObj []) (content execute_message)
           eq_refl Hsg Hh Hp Hc).
Defined.

(** A reply to the parsed request, written and parsed again. *)
Lemma respond_roundtrip_witness :
  supported crypto (scheme execute_message) = true
  /\ object_coercible (header execute_message) = true
  /\ VObj [("status", VStr "ok")] <> VUndefined
  /\ scheme fresh = scheme execute_message
  /\ key fresh = key execute_message
  /\ exists frames,
      respond crypto json uuid_v4 execute_message (createSocket "router") "execute_reply"
              (VObj [("status", VStr "ok")]) store0
      = (Normal tt, sent (createSocket "router") frames store0)
      /\ nth_error frames 2
         = Some (Some (tag crypto "sha256" "secret"
                           (JSON_stringify json
                              (response_header execute_message (uuid_v4 0) "execute_reply"))
                           (JSON_stringify json (header execute_message))
                           (JSON_stringify json (VObj []))
                           (JSON_stringify json (VObj [("status", VStr "ok")]))))
      /\ signatureOK (snd (parse crypto json (wire frames) fresh)) = Some true.
Proof.
  assert (Hc : VObj [("status", VStr "ok")] <> VUndefined) by discriminate.
  split; [reflexivity|]. split; [reflexivity|]. split; [exact Hc|].
  split; [reflexivity|]. split; [reflexivity|].
  exact (respond_roundtrip crypto json uuid_v4 execute_message fresh
           (createSocket "router") "execute_reply" (VObj [("status", VStr "ok")]) store0
           eq_refl eq_refl Hc eq_refl eq_refl).
Defined.

(** The success scenario on the parsed request. *)
Lemma execute_request_success_scenario_witness :
  supported crypto (scheme execute_message) = true
  /\ object_coercible (header execute_message) = true
  /\ get_prop (content execute_message) "code" = Normal (VStr "1+1")
  /\ sm (kernel engine_ok) = stub_engine [BeforeRun; OnSuccess] session_ok
  /\ executionCount session_ok = VNum 1
  /\ get_prop (result session_ok) "mime" = Normal (VObj [("text/plain", VStr "2")])
  /\ execute_request crypto json uuid_v4 (kernel engine_ok) execute_message store0
     = (Normal tt,
        mk_Store
          [EvSend (createSocket "pub")
             (response_frames crypto json execute_message (uuid_v4 0) "pyin"
                (VObj [("execution_count", VNum 1); ("code", VStr "1+1")]));
           EvSend (createSocket "router")
             (response_frames crypto json execute_message (uuid_v4 1) "execute_reply"
                (VObj [("status", VStr "ok");
                       ("execution_count", VNum 1);
                       ("payload", VArr []);
                       ("user_variables", VObj []);
                       ("user_expressions", VObj [])]));
           EvSend (createSocket "pub")
             (response_frames crypto json execute_message (uuid_v4 2) "pyout"
                (VObj [("execution_count", VNum 1);
                       ("data", VObj [("text/plain", VStr "2")]);
                       ("metadata", VObj [])]))]
          3).
Proof.
  do 6 (split; [reflexivity|]).
  exact (execute_request_success_scenario crypto json uuid_v4 (kernel engine_ok)
           execute_message session_ok store0 eq_refl eq_refl eq_refl eq_refl eq_refl eq_refl).
Defined.

(** The error scenario on the parsed request. *)
Lemma execute_request_error_callback_witness :
  supported crypto (scheme execute_message) = true
  /\ object_coercible (header execute_message) = true
  /\ object_coercible (content execute_message) = true
  /\ get_prop (result session_error) "error" = Normal error_value
  /\ object_coercible error_value = true
  /\ exists task,
      execute_request crypto json uuid_v4 (kernel engine_ok) execute_message store0
      = run (sm (kernel engine_ok)) (VStr "s1") task store0
      /\ forall st',
        task_onError task session_error st'
        = (Normal tt,
           mk_Store
             (trace st' ++
              [EvSend (createSocket "router")
                 (response_frames crypto json execute_message (uuid_v4 (uuid_calls st'))
                    "execute_reply"
                    (VObj [("status", VStr "error");
                           ("execution_count", VNum 1);
                           ("ename", VStr "Error");
                           ("evalue", VStr "boom");
                           ("traceback", VArr [VStr "boom"])]));
               EvSend (createSocket "pub")
                 (response_frames crypto json execute_message (uuid_v4 (1 + uuid_calls st'))
                    "pyerr"
                    (VObj [("execution_count", VNum 1);
                           ("ename", VStr "Error");
                           ("evalue", VStr "boom");
                           ("traceback", VArr [VStr "boom"])]))])
             (2 + uuid_calls st')).
Proof.
  do 5 (split; [reflexivity|]).
  exact (execute_request_error_callback crypto json uuid_v4 (kernel engine_ok)
           execute_message session_error error_value store0
           eq_refl eq_refl eq_refl eq_refl eq_refl).
Defined.

End Checks.

(** * Further properties of the codec and the dispatcher *)

Lemma hex_lower (b : string) : all_lower_hex (hex b) = true.
Proof.
  induction b as [|c b IH]; [reflexivity|].
  cbn [hex all_lower_hex]. rewrite IH.
  destruct c as [[] [] [] [] [] [] [] []]; vm_compute; reflexivity.
Qed.

Lemma hex_length (b : string) : String.length (hex b) = (2 * String.length b)%nat.
Proof.
  induction b as [|c b IH]; [reflexivity|]. cbn [hex String.length]. rewrite IH. lia.
Qed.

Section CodecEdges.
Variable crypto : Crypto.
Variable json : Json.

Lemma parse_truncated (args : list string) (this : Message) :
  supported crypto (scheme this) = true ->
  (List.length args < 7)%nat ->
  parse crypto json args this = (Throw TypeError, this).
Proof.
  intros Hs Hlen. unfold parse, bind, get, lift, createHmac. rewrite Hs.
  destruct args as [|f0 [|f1 [|sg [|h [|ph [|md [|c rest]]]]]]];
    simpl in Hlen; try lia; reflexivity.
Qed.

Lemma parse_unknown_scheme (args : list string) (this : Message) :
  supported crypto (scheme this) = false ->
  parse crypto json args this = (Throw CryptoError, this).
Proof.
  intros Hs. unfold parse, bind, get, lift, createHmac. now rewrite Hs.
Qed.

(** The signature field once the check has been made. *)
Lemma parse_signature (this : Message) (f0 f1 sg h ph md c : string) (rest : list string) :
  supported crypto (scheme this) = true ->
  signature (snd (parse crypto json (f0 :: f1 :: sg :: h :: ph :: md :: c :: rest) this))
  = Some (Buffer_toString sg).
Proof.
  intros Hs. unfold parse, bind, get, lift, createHmac, digest_hex.
  rewrite Hs. simpl.
  destruct (String.eqb _ _); simpl; [|reflexivity].
  unfold bind, lift, modify.
  destruct (JSON_parse json (Buffer_toString h)); simpl; [|reflexivity].
  destruct (JSON_parse json (Buffer_toString ph)); simpl; [|reflexivity].
  destruct (JSON_parse json (Buffer_toString c)); simpl; reflexivity.
Qed.

(** [parse] on an authenticated message in which a structured frame does
    not decode. *)
Lemma parse_undecodable (this : Message) (f0 f1 sg h ph md c : string) (rest : list string) :
  supported crypto (scheme this) = true ->
  String.eqb (Buffer_toString sg) (tag crypto (scheme this) (key this) h ph md c) = true ->
  JSON_parse json (Buffer_toString h) = None
  \/ JSON_parse json (Buffer_toString ph) = None
  \/ JSON_parse json (Buffer_toString c) = None ->
  fst (parse crypto json (f0 :: f1 :: sg :: h :: ph :: md :: c :: rest) this)
  = Throw SyntaxError.
Proof.
  intros Hs He Hbad. unfold parse, bind, get, lift, createHmac, digest_hex.
  rewrite Hs. simpl. unfold tag in He. rewrite !append_assoc, He. simpl.
  unfold bind, lift, modify.
  destruct (JSON_parse json (Buffer_toString h)); simpl; [|reflexivity].
  destruct (JSON_parse json (Buffer_toString ph)); simpl; [|reflexivity].
  destruct (JSON_parse json (Buffer_toString c)); simpl; [|reflexivity].
  destruct Hbad as [H | [H | H]]; discriminate.
Qed.

(** X1. A signature [parse] accepts is lower-case hexadecimal text of even
    length: a signature frame with an upper-case digit, a space or any
    other byte is never authenticated, whatever the scheme and the key. *)
Theorem accepted_signature_is_lowercase_hex
        (args : list string) (scheme0 key0 : option string)
        (c : completion unit) (this : Message) :
  parse crypto json args (Message_fields scheme0 key0) = (c, this) ->
  signatureOK this = Some true ->
  exists s,
    signature this = Some s
    /\ all_lower_hex s = true
    /\ Nat.even (String.length s) = true.
Proof.
  intros Hp Hok.
  assert (Hok' : signatureOK (snd (parse crypto json args (Message_fields scheme0 key0)))
                 = Some true) by (rewrite Hp; exact Hok).
  assert (Hsig : signature this
                 = signature (snd (parse crypto json args (Message_fields scheme0 key0))))
    by (rewrite Hp; reflexivity).
  destruct (supported crypto (scheme (Message_fields scheme0 key0))) eqn:Hs.
  - destruct (Compare_dec.le_lt_dec 7 (List.length args)) as [Hlen | Hlen].
    + destruct args as [|f0 [|f1 [|sg [|h [|ph [|md [|cf rest]]]]]]];
        simpl in Hlen; try lia.
      rewrite parse_signatureOK in Hok' by exact Hs.
      rewrite parse_signature in Hsig by exact Hs.
      injection Hok' as Heq. apply String.eqb_eq in Heq.
      exists (Buffer_toString sg). split; [exact Hsig|].
      rewrite Heq. unfold tag. split; [apply hex_lower|].
      rewrite hex_length, Nat.even_mul. reflexivity.
    + rewrite (parse_truncated _ _ Hs Hlen) in Hok'. discriminate.
  - rewrite (parse_unknown_scheme _ _ Hs) in Hok'. discriminate.
Qed.

(** X2. Only the header, parent header, metadata and content frames are
    authenticated: the identity frame, the delimiter frame and whatever
    follows the content frame can be replaced without changing the outcome
    of the check. *)
Theorem unsigned_frames_do_not_affect_the_check
        (this : Message) (f0 f1 g0 g1 sg h ph md c : string) (rest rest' : list string) :
  signatureOK (snd (parse crypto json (f0 :: f1 :: sg :: h :: ph :: md :: c :: rest) this))
  = signatureOK (snd (parse crypto json (g0 :: g1 :: sg :: h :: ph :: md :: c :: rest') this)).
Proof.
  destruct (supported crypto (scheme this)) eqn:Hs.
  - now rewrite !parse_signatureOK by exact Hs.
  - now rewrite !parse_unknown_scheme by exact Hs.
Qed.

(** X3. The tag covers the concatenation of the four signed frames, not
    their boundaries: bytes moved from the end of one signed frame to the
    start of the next leave the outcome of the check as it was. *)
Theorem frame_boundaries_are_not_authenticated
        (this : Message) (f0 f1 sg h ph md c x : string) (rest : list string) :
  signatureOK (snd (parse crypto json
                          (f0 :: f1 :: sg :: (h ++ x) :: ph :: md :: c :: rest) this))
  = signatureOK (snd (parse crypto json
                            (f0 :: f1 :: sg :: h :: (x ++ ph) :: md :: c :: rest) this))
  /\ signatureOK (snd (parse crypto json
                             (f0 :: f1 :: sg :: h :: (ph ++ x) :: md :: c :: rest) this))
     = signatureOK (snd (parse crypto json
                               (f0 :: f1 :: sg :: h :: ph :: (x ++ md) :: c :: rest) this))
  /\ signatureOK (snd (parse crypto json
                             (f0 :: f1 :: sg :: h :: ph :: (md ++ x) :: c :: rest) this))
     = signatureOK (snd (parse crypto json
                               (f0 :: f1 :: sg :: h :: ph :: md :: (x ++ c) :: rest) this)).
Proof.
  destruct (supported crypto (scheme this)) eqn:Hs.
  - rewrite !parse_signatureOK by exact Hs. unfold tag.
    rewrite ?append_assoc. repeat split.
  - rewrite !parse_unknown_scheme by exact Hs. repeat split.
Qed.

End CodecEdges.

Section DispatchEdges.
Variable crypto : Crypto.
Variable json : Json.
Variable uuid_v4 : nat -> string.
Variable nodeVersion : list Z.

(** X4. A message of fewer than seven frames on the Shell socket: the
    listener throws a TypeError (from [hmac.update] on the missing frame)
    and leaves the store as it was; nothing is written. *)
Theorem truncated_message_throws (k : Kernel) (frames : list string) (st : Store) :
  supported crypto (scheme (incoming k)) = true ->
  (List.length frames < 7)%nat ->
  shellSocket_message crypto json uuid_v4 nodeVersion k frames st = (Throw TypeError, st).
Proof.
  intros Hs Hlen.
  unfold shellSocket_message, emit, bind_this, _onMessage, bind, lift, new_Message.
  fold (incoming k). now rewrite (parse_truncated crypto json frames (incoming k) Hs Hlen).
Qed.

(** X5. When the configured signature scheme, stripped of its first five
    characters, is a digest the crypto module does not know, every message
    on the Shell socket, well signed or not, makes the listener throw
    before anything is read or written. *)
Theorem unknown_scheme_rejects_every_message (k : Kernel) (frames : list string) (st : Store) :
  supported crypto (scheme (incoming k)) = false ->
  shellSocket_message crypto json uuid_v4 nodeVersion k frames st = (Throw CryptoError, st).
Proof.
  intros Hs.
  unfold shellSocket_message, emit, bind_this, _onMessage, bind, lift, new_Message.
  fold (incoming k). now rewrite (parse_unknown_scheme crypto json frames (incoming k) Hs).
Qed.

(** X6. A correctly signed message in which the header, the parent header
    or the content frame is not JSON: the listener throws a SyntaxError
    and leaves the store as it was; the message is neither answered nor
    reported. *)
Theorem authenticated_malformed_json_throws
        (k : Kernel) (f0 f1 sg h ph md c : string) (rest : list string) (st : Store) :
  supported crypto (scheme (incoming k)) = true ->
  Buffer_toString sg = tag crypto (scheme (incoming k)) (key (incoming k)) h ph md c ->
  JSON_parse json (Buffer_toString h) = None
  \/ JSON_parse json (Buffer_toString ph) = None
  \/ JSON_parse json (Buffer_toString c) = None ->
  shellSocket_message crypto json uuid_v4 nodeVersion k
                      (f0 :: f1 :: sg :: h :: ph :: md :: c :: rest) st
  = (Throw SyntaxError, st).
Proof.
  intros Hs Hsg Hbad.
  assert (He : String.eqb (Buffer_toString sg)
                          (tag crypto (scheme (incoming k)) (key (incoming k)) h ph md c) = true)
    by (rewrite Hsg; apply String.eqb_refl).
  pose proof (parse_undecodable crypto json (incoming k) f0 f1 sg h ph md c rest Hs He Hbad)
    as Hthrow.
  unfold shellSocket_message, emit, bind_this, _onMessage, bind, lift, new_Message.
  fold (incoming k).
  destruct (parse crypto json (f0 :: f1 :: sg :: h :: ph :: md :: c :: rest) (incoming k))
    as [cp m]. simpl in Hthrow. subst cp. reflexivity.
Qed.

(** X7. A correctly signed message whose header frame is the JSON text
    [null] (the other structured frames being JSON): reading its
    [msg_type] throws a TypeError, and nothing is written. *)
Theorem authenticated_null_header_throws
        (k : Kernel) (f0 f1 sg h ph md c : string) (rest : list string)
        (phv cv : value) (st : Store) :
  supported crypto (scheme (incoming k)) = true ->
  Buffer_toString sg = tag crypto (scheme (incoming k)) (key (incoming k)) h ph md c ->
  JSON_parse json (Buffer_toString h) = Some VNull ->
  JSON_parse json (Buffer_toString ph) = Some phv ->
  JSON_parse json (Buffer_toString c) = Some cv ->
  shellSocket_message crypto json uuid_v4 nodeVersion k
                      (f0 :: f1 :: sg :: h :: ph :: md :: c :: rest) st
  = (Throw TypeError, st).
Proof.
  intros Hs Hsg Hh Hph Hc.
  assert (He : String.eqb (Buffer_toString sg)
                          (tag crypto (scheme (incoming k)) (key (incoming k)) h ph md c) = true)
    by (rewrite Hsg; apply String.eqb_refl).
  unfold shellSocket_message, emit, bind_this, _onMessage, bind, lift, new_Message.
  fold (incoming k).
  rewrite (parse_match crypto json (incoming k) f0 f1 sg h ph md c rest VNull phv cv
                       Hs He Hh Hph Hc).
  reflexivity.
Qed.

(** What [parse] leaves of the scheme and the key, and that it needs the
    scheme to be known to return. *)
Lemma parse_normal_scheme_key (args : list string) (this msg : Message) :
  parse crypto json args this = (Normal tt, msg) ->
  supported crypto (scheme msg) = true /\ scheme msg = scheme this /\ key msg = key this.
Proof.
  intros Hp.
  destruct (supported crypto (scheme this)) eqn:Hs.
  - destruct (Compare_dec.le_lt_dec 7 (List.length args)) as [Hlen | Hlen].
    + destruct args as [|f0 [|f1 [|sg [|h [|ph [|md [|c rest]]]]]]];
        simpl in Hlen; try lia.
      revert Hp. unfold parse, bind, get, lift, createHmac, digest_hex.
      rewrite Hs. simpl.
      destruct (String.eqb _ _); simpl.
      * unfold bind, lift, modify.
        destruct (JSON_parse json (Buffer_toString h)); simpl; [|discriminate].
        destruct (JSON_parse json (Buffer_toString ph)); simpl; [|discriminate].
        destruct (JSON_parse json (Buffer_toString c)); simpl; [|discriminate].
        intros Hp. inversion Hp; subst; clear Hp. simpl. auto.
      * intros Hp. inversion Hp; subst; clear Hp. simpl. auto.
    + rewrite (parse_truncated crypto json _ _ Hs Hlen) in Hp. discriminate.
  - rewrite (parse_unknown_scheme crypto json _ _ Hs) in Hp. discriminate.
Qed.

(** X8. An authenticated [kernel_info_request] is answered once: the
    listener writes one [kernel_info_reply] on the Shell socket, with the
    language [javascript], the version of Node.js and the protocol version
    4.1, and nothing on the IOPub socket. *)
Theorem kernel_info_request_is_answered_once
        (k : Kernel) (frames : list string) (st : Store) (msg : Message) :
  parse crypto json frames (incoming k) = (Normal tt, msg) ->
  signatureOK msg = Some true ->
  get_prop (header msg) "msg_type" = Normal (VStr "kernel_info_request") ->
  shellSocket_message crypto json uuid_v4 nodeVersion k frames st
  = (Normal tt,
     mk_Store
       (trace st ++
        [EvCall "kernel_info_request" msg;
         EvSend (shellSocket k)
           (response_frames crypto json msg (uuid_v4 (uuid_calls st)) "kernel_info_reply"
              (VObj [("language", VStr "javascript");
                     ("language_version", VArr (map VNum nodeVersion));
                     ("protocol_version", VArr [VNum 4; VNum 1])]))])
       (S (uuid_calls st))).
Proof.
  intros Hp Hok Ht.
  destruct (parse_normal_scheme_key _ _ _ Hp) as (Hs & _ & _).
  assert (Hh : object_coercible (header msg) = true)
    by (destruct (header msg); simpl in Ht; try discriminate; reflexivity).
  rewrite (inherited_member_called crypto json uuid_v4 nodeVersion k frames st msg
             (VStr "kernel_info_request") "kernel_info_request" Hp Hok Ht eq_refl eq_refl).
  unfold call_member, bind, emit_event, modify. simpl.
  unfold kernel_info_request.
  rewrite respond_sends by (assumption || discriminate).
  unfold sent. simpl. rewrite <- app_assoc. reflexivity.
Qed.

(** X9. An authenticated [execute_request] whose content can be read is
    handed to the engine, once, with the session of its header and a task
    that carries the code of its content; the kernel writes nothing of its
    own before that. Of the task's callbacks, [afterRun] leaves the store
    as it is, and [beforeRun] writes one input echo ([pyin]) on the IOPub
    socket with the count of the session it is given and the code. *)
Theorem execute_request_is_handed_to_the_engine
        (k : Kernel) (frames : list string) (st : Store) (msg : Message) :
  parse crypto json frames (incoming k) = (Normal tt, msg) ->
  signatureOK msg = Some true ->
  get_prop (header msg) "msg_type" = Normal (VStr "execute_request") ->
  object_coercible (content msg) = true ->
  exists task,
    shellSocket_message crypto json uuid_v4 nodeVersion k frames st
    = run (sm k) (prop (header msg) "session") task
          (mk_Store (trace st ++ [EvCall "execute_request" msg]) (uuid_calls st))
    /\ task_code task = prop (content msg) "code"
    /\ (forall session st', task_afterRun task session st' = (Normal tt, st'))
    /\ (forall session st',
          task_beforeRun task session st'
          = (Normal tt,
             sent (iopubSocket k)
                  (response_frames crypto json msg (uuid_v4 (uuid_calls st')) "pyin"
                     (VObj [("execution_count", executionCount session);
                            ("code", prop (content msg) "code")]))
                  st')).
Proof.
  intros Hp Hok Ht Hc.
  destruct (parse_normal_scheme_key _ _ _ Hp) as (Hs & _ & _).
  assert (Hh : object_coercible (header msg) = true)
    by (destruct (header msg); simpl in Ht; try discriminate; reflexivity).
  eexists. split; [|split; [|split]].
  - rewrite (inherited_member_called crypto json uuid_v4 nodeVersion k frames st msg
               (VStr "execute_request") "execute_request" Hp Hok Ht eq_refl eq_refl).
    unfold call_member, bind, emit_event, modify. simpl.
    unfold execute_request, bind, lift.
    rewrite (get_prop_coercible _ _ Hc), (get_prop_coercible _ _ Hh). reflexivity.
  - reflexivity.
  - reflexivity.
  - intros session st'. simpl. unfold beforeRun, bind, lift.
    rewrite (get_prop_coercible _ _ Hc).
    now rewrite respond_sends by (assumption || discriminate).
Qed.

(** X10. [respond] writes once or not at all: either it completes and the
    store has one more write, on the socket it was given, or it throws
    and the trace is as it was; in both cases one identifier has been
    drawn from [uuid.v4]. *)
Theorem respond_writes_once_or_not_at_all
        (this : Message) (socket : Socket) (messageType : string) (content0 : value)
        (st : Store) :
  (exists frames,
      respond crypto json uuid_v4 this socket messageType content0 st
      = (Normal tt, sent socket frames st))
  \/ (exists e,
         respond crypto json uuid_v4 this socket messageType content0 st
         = (Throw e, mk_Store (trace st) (S (uuid_calls st)))).
Proof.
  unfold respond, bind, v4, lift.
  destruct (get_prop (header this) "username") as [u|e]; [|right; now exists e].
  destruct (get_prop (header this) "session") as [se|e]; [|right; now exists e].
  unfold createHmac. destruct (supported crypto (scheme this)); [|right; now eexists].
  simpl.
  destruct (stringify json (header this)) as [ph|]; simpl; [|right; now eexists].
  destruct (stringify json content0) as [c|]; simpl; [|right; now eexists].
  left. eexists. reflexivity.
Qed.

(** X11. [onSuccess] with a session that has no result: the [execute_reply]
    with status [ok] is written on the Shell socket, and reading the MIME
    bundle then throws a TypeError; no output is broadcast. *)
Theorem onSuccess_without_result_replies_then_throws
        (k : Kernel) (request : Message) (session : Session) (st : Store) :
  supported crypto (scheme request) = true ->
  object_coercible (header request) = true ->
  object_coercible (result session) = false ->
  onSuccess crypto json uuid_v4 k request session st
  = (Throw TypeError,
     sent (shellSocket k)
          (response_frames crypto json request (uuid_v4 (uuid_calls st)) "execute_reply"
             (VObj [("status", VStr "ok");
                    ("execution_count", executionCount session);
                    ("payload", VArr []);
                    ("user_variables", VObj []);
                    ("user_expressions", VObj [])]))
          st).
Proof.
  intros Hs Hh Hr. unfold onSuccess, bind, lift.
  rewrite respond_sends by (assumption || discriminate).
  destruct (result session); simpl in Hr; try discriminate; reflexivity.
Qed.

(** X12. [onError] with a session whose result is missing or holds no
    error: reading the error throws a TypeError before anything is
    written, so the request gets no reply at all. *)
Theorem onError_without_error_writes_nothing
        (k : Kernel) (request : Message) (session : Session) (st : Store) :
  object_coercible (result session) = false
  \/ object_coercible (prop (result session) "error") = false ->
  onError crypto json uuid_v4 k request session st = (Throw TypeError, st).
Proof.
  intros H. unfold onError, bind, lift.
  destruct (object_coercible (result session)) eqn:Hr.
  - destruct H as [H | H]; [discriminate|].
    rewrite (get_prop_coercible _ _ Hr).
    destruct (prop (result session) "error"); simpl in H; try discriminate; reflexivity.
  - destruct (result session); simpl in Hr; try discriminate; reflexivity.
Qed.

End DispatchEdges.

Section SchemeInUse.
Variable crypto : Crypto.
Variable json : Json.
Variable uuid_v4 : nat -> string.
Variable nodeVersion : list Z.

(** What the listener does with a message of a type that is no property
    of the prototype, when [s] is the scheme the constructor of the
    message ends up with. *)
Lemma unknown_type_under_scheme
      (k : Kernel) (s f0 f1 sg h ph md c : string) (rest : list string)
      (hv phv cv msg_type : value) (name : string) (st : Store) :
  scheme (incoming k) = s ->
  supported crypto s = true ->
  JSON_parse json (Buffer_toString h) = Some hv ->
  JSON_parse json (Buffer_toString ph) = Some phv ->
  JSON_parse json (Buffer_toString c) = Some cv ->
  get_prop hv "msg_type" = Normal msg_type ->
  ToPrimitiveString msg_type = Normal name ->
  in_prototype name = false ->
  shellSocket_message crypto json uuid_v4 nodeVersion k
                      (f0 :: f1 :: sg :: h :: ph :: md :: c :: rest) st
  = (Normal tt,
     if String.eqb (Buffer_toString sg) (tag crypto s (config_key (config k)) h ph md c)
     then warned msg_type st
     else st).
Proof.
  intros Hscheme Hs Hh Hph Hc Ht Hname Hin.
  assert (Hkey : key (incoming k) = config_key (config k))
    by (unfold incoming; simpl; destruct (config_key (config k)); reflexivity).
  rewrite <- Hscheme in Hs |- *. rewrite <- Hkey.
  destruct (String.eqb (Buffer_toString sg)
                       (tag crypto (scheme (incoming k)) (key (incoming k)) h ph md c)) eqn:He.
  - pose proof (parse_match crypto json (incoming k) f0 f1 sg h ph md c rest hv phv cv
                            Hs He Hh Hph Hc) as Hp.
    exact (unknown_type_warns crypto json uuid_v4 nodeVersion k _ st _ msg_type name
                              Hp eq_refl Ht Hname Hin).
  - unfold shellSocket_message, emit, bind_this, _onMessage, bind, lift, new_Message.
    fold (incoming k).
    rewrite (parse_mismatch crypto json (incoming k) f0 f1 sg h ph md c rest Hs He).
    reflexivity.
Qed.

(** X13. The listener of the Shell socket drops the first five characters
    of the configured signature scheme without comparing them with
    [hmac-] and authenticates under what follows them ([sha256] when
    nothing follows), whatever those characters are (ASCII characters, one
    byte each). Seen on a message of a type that is no property of the
    prototype: it is reported exactly when its signature is the tag under
    that scheme and the configured key, and dropped in silence
    otherwise. *)
Theorem scheme_prefix_is_dropped_unchecked
        (k : Kernel) (prefix name f0 f1 sg h ph md c : string) (rest : list string)
        (hv phv cv msg_type : value) (type_name : string) (st : Store) :
  config_signature_scheme (config k) = prefix ++ name ->
  all_ascii prefix ->
  String.length prefix = 5%nat ->
  supported crypto (match name with EmptyString => "sha256" | _ => name end) = true ->
  JSON_parse json (Buffer_toString h) = Some hv ->
  JSON_parse json (Buffer_toString ph) = Some phv ->
  JSON_parse json (Buffer_toString c) = Some cv ->
  get_prop hv "msg_type" = Normal msg_type ->
  ToPrimitiveString msg_type = Normal type_name ->
  in_prototype type_name = false ->
  shellSocket_message crypto json uuid_v4 nodeVersion k
                      (f0 :: f1 :: sg :: h :: ph :: md :: c :: rest) st
  = (Normal tt,
     if String.eqb (Buffer_toString sg)
                   (tag crypto (match name with EmptyString => "sha256" | _ => name end)
                        (config_key (config k)) h ph md c)
     then warned msg_type st
     else st).
Proof.
  intros Hc _ Hlen Hs Hh Hph Hcv Ht Hname Hin.
  apply (unknown_type_under_scheme k _ f0 f1 sg h ph md c rest hv phv cv msg_type type_name);
    try assumption.
  unfold incoming. rewrite Hc. simpl.
  destruct prefix as [|a1 [|a2 [|a3 [|a4 [|a5 [|a6 p]]]]]]; simpl in Hlen; try discriminate.
  simpl. destruct name; reflexivity.
Qed.

(** X14. With a configured signature scheme of at most five characters,
    [md5] or [sha1] for instance, nothing is left after the slice and the
    listener of the Shell socket authenticates under [sha256]. Seen on a
    message of a type that is no property of the prototype: it is reported
    exactly when its signature is the tag under [sha256] and the
    configured key, and dropped in silence otherwise. *)
Theorem short_scheme_defaults_to_sha256
        (k : Kernel) (f0 f1 sg h ph md c : string) (rest : list string)
        (hv phv cv msg_type : value) (type_name : string) (st : Store) :
  (String.length (config_signature_scheme (config k)) <= 5)%nat ->
  supported crypto "sha256" = true ->
  JSON_parse json (Buffer_toString h) = Some hv ->
  JSON_parse json (Buffer_toString ph) = Some phv ->
  JSON_parse json (Buffer_toString c) = Some cv ->
  get_prop hv "msg_type" = Normal msg_type ->
  ToPrimitiveString msg_type = Normal type_name ->
  in_prototype type_name = false ->
  shellSocket_message crypto json uuid_v4 nodeVersion k
                      (f0 :: f1 :: sg :: h :: ph :: md :: c :: rest) st
  = (Normal tt,
     if String.eqb (Buffer_toString sg)
                   (tag crypto "sha256" (config_key (config k)) h ph md c)
     then warned msg_type st
     else st).
Proof.
  intros Hlen Hs Hh Hph Hcv Ht Hname Hin.
  apply (unknown_type_under_scheme k _ f0 f1 sg h ph md c rest hv phv cv msg_type type_name);
    try assumption.
  unfold incoming. simpl.
  destruct (config_signature_scheme (config k)) as [|a1 [|a2 [|a3 [|a4 [|a5 [|a6 p]]]]]];
    simpl in Hlen; try lia; reflexivity.
Qed.

End SchemeInUse.

(** * Properties of the launchers *)

Section StartupProperties.
Variable readFileSync : string -> option string.
Variable json : Json.

Lemma forEach_argument_app (a b : list string) (v : value) (out : list Output) :
  forEach_argument readFileSync json (a ++ b) v out
  = match forEach_argument readFileSync json a v out with
    | (Done v', out') => forEach_argument readFileSync json b v' out'
    | (Failed f, out') => (Failed f, out')
    end.
Proof.
  revert v out. induction a as [|x a IH]; intros v out; [reflexivity|].
  simpl. destruct (starts_with_dash x).
  - unfold and_then, update_state. apply IH.
  - unfold and_then, read_connection_file.
    destruct (readFileSync x) as [bx|]; [|reflexivity].
    destruct (JSON_parse json (Buffer_toString bx)) as [vx|]; [|reflexivity].
    apply IH.
Qed.

Lemma forEach_argument_dashed (args : list string) (v : value) (out : list Output) :
  forallb starts_with_dash args = true ->
  forEach_argument readFileSync json args v out = (Done v, (out ++ skipped_warnings args)%list).
Proof.
  revert out. induction args as [|x args IH]; intros out H.
  - unfold skipped_warnings. simpl. now rewrite app_nil_r.
  - simpl in H. apply andb_prop in H. destruct H as [Hx Hr].
    simpl. rewrite Hx. unfold and_then, update_state.
    rewrite (IH _ Hr). unfold skipped_warnings. simpl. rewrite Hx. simpl.
    now rewrite <- app_assoc.
Qed.

Lemma forEach_argument_usable (args : list string) (v : value) (out : list Output) :
  Forall (usable_argument readFileSync json) args ->
  exists v',
    forEach_argument readFileSync json args v out
    = (Done v', (out ++ skipped_warnings args)%list).
Proof.
  intros H. revert v out. induction H as [|x args Hx _ IH]; intros v out.
  - exists v. unfold skipped_warnings. simpl. now rewrite app_nil_r.
  - simpl. unfold skipped_warnings. simpl.
    destruct (starts_with_dash x) eqn:Hd.
    + unfold and_then, update_state.
      destruct (IH v (out ++ [ConsoleWarn ["Warning: Argument '%s' skipped"; x]])%list)
        as (v' & Hv').
      exists v'. rewrite Hv'. unfold skipped_warnings. simpl. now rewrite <- app_assoc.
    + destruct Hx as [Hx | (b & vx & Hb & Hvx)]; [congruence|].
      unfold and_then, read_connection_file. rewrite Hb, Hvx.
      destruct (IH vx out) as (v' & Hv'). exists v'. exact Hv'.
Qed.

(** X15. Started with no argument, or with arguments that all begin with
    a dash, the JavaScript launcher warns once for each argument, in
    order, reads no file, and throws the error [Missing connection file];
    no kernel is made. *)
Theorem startup_without_connection_file (argv : list string) (out : list Output) :
  forallb starts_with_dash (skipn 2 argv) = true ->
  startup readFileSync json argv out
  = (Failed (ErrorThrown "Error" "Error: Missing connection file" None),
     (out ++ skipped_warnings (skipn 2 argv))%list).
Proof.
  intros H. unfold startup, and_then.
  now rewrite (forEach_argument_dashed _ VUndefined out H).
Qed.

(** X16. When several connection files are given, the last one wins: the
    earlier ones are read and parsed, and the configuration is the JSON
    value of the last; every argument with a dash is skipped with a
    warning. A last file that holds a falsy value ([null], [false], [0] or
    the empty string) counts as no file at all. *)
Theorem startup_last_connection_file_wins
        (argv before after : list string) (file b : string) (v : value)
        (out : list Output) :
  skipn 2 argv = (before ++ file :: after)%list ->
  Forall (usable_argument readFileSync json) before ->
  starts_with_dash file = false ->
  readFileSync file = Some b ->
  JSON_parse json (Buffer_toString b) = Some v ->
  forallb starts_with_dash after = true ->
  startup readFileSync json argv out
  = (if falsy v
     then Failed (ErrorThrown "Error" "Error: Missing connection file" None)
     else Done v,
     (out ++ skipped_warnings (skipn 2 argv))%list).
Proof.
  intros Hargs Hbefore Hfile Hb Hv Hafter.
  unfold startup, and_then. rewrite Hargs, forEach_argument_app.
  destruct (forEach_argument_usable before VUndefined out Hbefore) as (v0 & Hv0).
  rewrite Hv0. simpl. rewrite Hfile.
  unfold and_then, read_connection_file. rewrite Hb, Hv. unfold done.
  rewrite (forEach_argument_dashed _ v _ Hafter).
  unfold skipped_warnings. rewrite filter_app, map_app. simpl. rewrite Hfile.
  rewrite <- app_assoc. destruct (falsy v); reflexivity.
Qed.

(** X17. A connection file that cannot be read stops the launcher at once
    with the error of the file system: the arguments after it are not
    looked at, not even to warn about them. *)
Theorem startup_unreadable_file_stops
        (argv before after : list string) (file : string) (out : list Output) :
  skipn 2 argv = (before ++ file :: after)%list ->
  Forall (usable_argument readFileSync json) before ->
  starts_with_dash file = false ->
  readFileSync file = None ->
  startup readFileSync json argv out
  = (Failed (FsError file), (out ++ skipped_warnings before)%list).
Proof.
  intros Hargs Hbefore Hfile Hb.
  unfold startup, and_then. rewrite Hargs, forEach_argument_app.
  destruct (forEach_argument_usable before VUndefined out Hbefore) as (v0 & Hv0).
  rewrite Hv0. simpl. rewrite Hfile.
  unfold and_then, read_connection_file. now rewrite Hb.
Qed.

End StartupProperties.

(** ** Splitting and joining *)

Lemma split_not_nil (sep : ascii) (s : string) : split sep s <> [].
Proof.
  destruct s as [|c s]; simpl; [discriminate|].
  destruct (Ascii.eqb c sep); [discriminate|].
  destruct (split sep s); discriminate.
Qed.

(** [s.split(sep).join(sep)] is [s]. *)
Lemma join_split (sep : ascii) (s : string) :
  join (String sep EmptyString) (split sep s) = s.
Proof.
  induction s as [|c s IH]; [reflexivity|].
  simpl. destruct (Ascii.eqb c sep) eqn:Hc.
  - apply Ascii.eqb_eq in Hc. subst c.
    pose proof (split_not_nil sep s) as Hn.
    destruct (split sep s) as [|x l] eqn:Hs; [contradiction|].
    change (join (String sep EmptyString) (EmptyString :: x :: l))
      with (String sep (join (String sep EmptyString) (x :: l))).
    now rewrite IH.
  - pose proof (split_not_nil sep s) as Hn.
    destruct (split sep s) as [|x l] eqn:Hs; [contradiction|].
    destruct l as [|y l].
    + simpl in IH. simpl. now rewrite IH.
    + change (join (String sep EmptyString) (String c x :: y :: l))
        with (String c (x ++ String sep EmptyString ++ join (String sep EmptyString) (y :: l))).
      change (join (String sep EmptyString) (x :: y :: l))
        with (x ++ String sep EmptyString ++ join (String sep EmptyString) (y :: l)) in IH.
      now rewrite IH.
Qed.

Lemma split_free (sep : ascii) (s : string) : free_of sep s = true -> split sep s = [s].
Proof.
  induction s as [|c s IH]; [reflexivity|].
  simpl. intros H. apply andb_prop in H. destruct H as [Hc Hs].
  apply negb_true_iff in Hc. rewrite Hc, (IH Hs). reflexivity.
Qed.

Lemma split_app (sep : ascii) (a b : string) :
  free_of sep a = true ->
  split sep (a ++ String sep b) = a :: split sep b.
Proof.
  induction a as [|c a IH]; simpl.
  - intros _. now rewrite Ascii.eqb_refl.
  - intros H. apply andb_prop in H. destruct H as [Hc Ha].
    apply negb_true_iff in Hc. rewrite Hc, (IH Ha). reflexivity.
Qed.

(** Splitting the lines that were joined gives them back. *)
Lemma split_join_lines (sep : ascii) (first : string) (others : list string) :
  Forall (fun l => free_of sep l = true) (first :: others) ->
  split sep (join (String sep EmptyString) (first :: others)) = first :: others.
Proof.
  revert first. induction others as [|y l IH]; intros first H.
  - simpl. apply split_free. now inversion H.
  - change (join (String sep EmptyString) (first :: y :: l))
      with (first ++ String sep (join (String sep EmptyString) (y :: l))).
    inversion H as [|? ? Hf Hrest]; subst.
    rewrite (split_app _ _ _ Hf). now rewrite (IH y Hrest).
Qed.

Lemma slice_app (a b : string) : slice (String.length a) (a ++ b) = b.
Proof.
  induction a as [|c a IH]; simpl; [now destruct b | exact IH].
Qed.

Section LauncherProperties.
Variable host : Host.
Variable json : Json.

Ltac run_step :=
  unfold and_then, update_builder, update_state, state, done, fail, output, set_logger.

(** What one argument does to the configuration when it is accepted. *)
Lemma parse_argument_effect (arg : string) (l l' : Launch) :
  parse_argument host json arg l = (Done tt, l') ->
  hideUndefined (builder l') = hideUndefined (builder l) || is_undefined_flag arg
  /\ (is_protocol_option arg = false ->
      response (builder l') = response (builder l)
      /\ protocolVer (builder l') = protocolVer (builder l))
  /\ (if is_connection_file arg
      then isConnSet (builder l) = false
           /\ isConnSet (builder l') = true
           /\ exists b, fs_readFileSync host arg = Some b
                        /\ JSON_parse json (Buffer_toString b) = Some (conn (builder l'))
      else isConnSet (builder l') = isConnSet (builder l)
           /\ conn (builder l') = conn (builder l)).
Proof.
  unfold parse_argument, is_undefined_flag, is_protocol_option, is_connection_file,
    is_option, argument_name.
  set (name := hd EmptyString (split "=" (slice 2 arg))). clearbody name.
  set (values := tl (split "=" (slice 2 arg))). clearbody values.
  destruct (String.eqb name "debug") eqn:E1.
  { apply String.eqb_eq in E1. subst name. unfold Configuration_onDebug, Logger_onVerbose.
    run_step. intros H. inversion H; subst; clear H. simpl.
    rewrite orb_false_r. repeat split. }
  destruct (String.eqb name "semantic") eqn:E2.
  { apply String.eqb_eq in E2. subst name. unfold Configuration_onTypeChk.
    run_step. intros H. inversion H; subst; clear H. simpl.
    rewrite orb_false_r. repeat split. }
  destruct (String.eqb name "hide-undefined") eqn:E3.
  { apply String.eqb_eq in E3. subst name. unfold Configuration_hideUndef.
    run_step. intros H. inversion H; subst; clear H. simpl.
    rewrite orb_true_r. repeat split. }
  destruct (String.eqb name "protocol") eqn:E4.
  { apply String.eqb_eq in E4. subst name. unfold set_protocolVersion.
    run_step. simpl.
    destruct (at_most_4 _).
    - intros H. inversion H; subst; clear H. simpl.
      rewrite orb_false_r. split; [reflexivity|]. split; [discriminate|]. split; reflexivity.
    - unfold read_json, of_completion.
      destruct (fs_readFileSync host (package_json host)) as [b|]; [|discriminate].
      destruct (JSON_parse json (Buffer_toString b)) as [pkg|]; [|discriminate].
      unfold done. destruct (get_prop pkg "version") as [v|e]; [|discriminate].
      unfold done. destruct (ToPrimitiveString v) as [text|e]; [|discriminate].
      unfold done. intros H. inversion H; subst; clear H. simpl.
      rewrite orb_false_r. split; [reflexivity|]. split; [discriminate|]. split; reflexivity. }
  destruct (String.eqb name "session-working-dir") eqn:E5.
  { apply String.eqb_eq in E5. subst name. unfold set_workingDir.
    run_step. intros H. inversion H; subst; clear H. simpl.
    rewrite orb_false_r. repeat split. }
  destruct (String.eqb name "show-undefined") eqn:E6.
  { apply String.eqb_eq in E6. subst name. unfold Configuration_showUndef.
    run_step. intros H. inversion H; subst; clear H. simpl.
    rewrite orb_true_r. repeat split. }
  destruct (String.eqb name "startup-script") eqn:E7.
  { apply String.eqb_eq in E7. subst name. unfold set_startupScript.
    run_step. intros H. inversion H; subst; clear H. simpl.
    rewrite orb_false_r. repeat split. }
  simpl. rewrite E1, E2, E3, E4, E5, E6, E7. simpl.
  unfold set_connectionWith, Logger_throwAndExit, Logger_printUsage.
  run_step. destruct (isConnSet (builder l)) eqn:Hset; [discriminate|].
  simpl. unfold read_json.
  destruct (fs_readFileSync host arg) as [b|]; [|discriminate].
  destruct (JSON_parse json (Buffer_toString b)) as [v|] eqn:Hv; [|discriminate].
  unfold done. intros H. inversion H; subst; clear H. simpl.
  rewrite orb_false_r. split; [reflexivity|]. split; [intros _; split; reflexivity|].
  split; [reflexivity|]. split; [reflexivity|]. exists b. split; [reflexivity | exact Hv].
Qed.

(** What the arguments, all accepted, do to the configuration. *)
Lemma parse_arguments_effect (args : list string) (l l' : Launch) :
  parse_arguments host json args l = (Done tt, l') ->
  hideUndefined (builder l') = hideUndefined (builder l) || existsb is_undefined_flag args
  /\ (existsb is_protocol_option args = false ->
      response (builder l') = response (builder l)
      /\ protocolVer (builder l') = protocolVer (builder l))
  /\ match filter is_connection_file args with
     | [] => isConnSet (builder l') = isConnSet (builder l)
             /\ conn (builder l') = conn (builder l)
     | [file] => isConnSet (builder l) = false
                 /\ isConnSet (builder l') = true
                 /\ exists b, fs_readFileSync host file = Some b
                              /\ JSON_parse json (Buffer_toString b) = Some (conn (builder l'))
     | _ => False
     end.
Proof.
  revert l. induction args as [|arg args IH]; intros l.
  - simpl. unfold done. intros H. inversion H; subst; clear H.
    rewrite orb_false_r. repeat split.
  - simpl. unfold and_then.
    destruct (parse_argument host json arg l) as [[[]|f] l1] eqn:Harg; [|discriminate].
    intros Hrest.
    destruct (parse_argument_effect _ _ _ Harg) as (Hh & Hp & Hc).
    destruct (IH _ Hrest) as (Hh' & Hp' & Hc').
    split; [rewrite Hh', Hh; now rewrite orb_assoc|].
    split.
    + intros Hno. apply orb_false_elim in Hno. destruct Hno as [Hn1 Hn2].
      destruct (Hp Hn1) as [Hr1 Hv1]. destruct (Hp' Hn2) as [Hr2 Hv2].
      split; congruence.
    + destruct (is_connection_file arg).
      * destruct Hc as (Hc1 & Hc2 & b & Hb & Hv).
        destruct (filter is_connection_file args) as [|f1 [|f2 fs]].
        -- destruct Hc' as [Hs' Hconn']. split; [exact Hc1|]. split; [congruence|].
           exists b. split; [exact Hb | congruence].
        -- destruct Hc' as (Hfalse & _). congruence.
        -- contradiction.
      * destruct Hc as [Hc1 Hc2].
        destruct (filter is_connection_file args) as [|f1 [|f2 fs]].
        -- destruct Hc' as [Hs' Hconn']. split; congruence.
        -- destruct Hc' as (Hs1 & Hs2 & b & Hb & Hv). split; [congruence|].
           split; [exact Hs2|]. exists b. split; assumption.
        -- contradiction.
Qed.

(** What the getter returns when it returns. *)
Lemma get_config_done (l l' : Launch) (kc : KernelConfig) :
  get_config host l = (Done kc, l') ->
  isConnSet (builder l) = true
  /\ kc_hideUndefined kc = hideUndefined (builder l)
  /\ kc_kernelInfoReply kc = response (builder l)
  /\ kc_protocolVersion kc = protocolVer (builder l)
  /\ kc_connection kc = conn (builder l).
Proof.
  unfold get_config, Logger_throwAndExit, Logger_printUsage. run_step.
  destruct (readTSConfig host (_workingDir (builder l))) as [options|f]; [|discriminate].
  simpl. destruct (isConnSet (builder l)); [|discriminate].
  intros H. inversion H; subst; clear H. simpl. repeat split.
Qed.

Lemma Parser_parse_done (argv : list string) (l l' : Launch) (kc : KernelConfig) :
  Parser_parse host json argv l = (Done kc, l') ->
  exists l1,
    parse_arguments host json (skipn 2 argv)
                    (mk_Launch (new_Configuration host) (logger l) (written_out l))
    = (Done tt, l1)
    /\ get_config host l1 = (Done kc, l').
Proof.
  unfold Parser_parse. run_step.
  destruct (parse_arguments host json (skipn 2 argv) _) as [[[]|f] l1] eqn:Hloop;
    [|discriminate].
  intros H. exists l1. split; [reflexivity | exact H].
Qed.

(** X18. [--show-undefined] does what [--hide-undefined] does: in the
    configuration [Parser.parse] returns, [hideUndefined] is true exactly
    when one of the two flags is among the arguments (ASCII text, as for
    all the properties of [Parser.parse]). *)
Theorem show_undefined_hides_undefined
        (argv : list string) (l l' : Launch) (kc : KernelConfig) :
  Forall all_ascii (skipn 2 argv) ->
  Parser_parse host json argv l = (Done kc, l') ->
  kc_hideUndefined kc = existsb is_undefined_flag (skipn 2 argv).
Proof.
  intros _ H. destruct (Parser_parse_done _ _ _ _ H) as (l1 & Hloop & Hget).
  destruct (parse_arguments_effect _ _ _ Hloop) as (Hh & _ & _).
  destruct (get_config_done _ _ _ Hget) as (_ & Hk & _).
  rewrite Hk, Hh. reflexivity.
Qed.

(** X19. Without a [protocol] option the configuration [Parser.parse]
    returns names the protocol version [5.0] and has no reply to
    [kernel_info_request]: [kernelInfoReply] is [undefined], because only
    the setter of the option builds it. *)
Theorem default_protocol_has_no_kernel_info_reply
        (argv : list string) (l l' : Launch) (kc : KernelConfig) :
  Forall all_ascii (skipn 2 argv) ->
  Parser_parse host json argv l = (Done kc, l') ->
  existsb is_protocol_option (skipn 2 argv) = false ->
  kc_protocolVersion kc = "5.0" /\ kc_kernelInfoReply kc = None.
Proof.
  intros _ H Hno. destruct (Parser_parse_done _ _ _ _ H) as (l1 & Hloop & Hget).
  destruct (parse_arguments_effect _ _ _ Hloop) as (_ & Hp & _).
  destruct (Hp Hno) as [Hr Hv].
  destruct (get_config_done _ _ _ Hget) as (_ & _ & Hk1 & Hk2 & _).
  rewrite Hk1, Hk2, Hr, Hv. split; reflexivity.
Qed.

(** X20. [Parser.parse] returns only when exactly one argument is a
    connection file, that is, an argument whose name is none of the seven
    options; the connection of the configuration is the JSON value of that
    file. *)
Theorem Parser_parse_needs_one_connection_file
        (argv : list string) (l l' : Launch) (kc : KernelConfig) :
  Forall all_ascii (skipn 2 argv) ->
  Parser_parse host json argv l = (Done kc, l') ->
  exists file b,
    filter is_connection_file (skipn 2 argv) = [file]
    /\ fs_readFileSync host file = Some b
    /\ JSON_parse json (Buffer_toString b) = Some (kc_connection kc).
Proof.
  intros _ H. destruct (Parser_parse_done _ _ _ _ H) as (l1 & Hloop & Hget).
  destruct (parse_arguments_effect _ _ _ Hloop) as (_ & _ & Hc).
  destruct (get_config_done _ _ _ Hget) as (Hset & _ & _ & _ & Hk).
  destruct (filter is_connection_file (skipn 2 argv)) as [|f1 [|f2 fs]].
  - destruct Hc as [Hs _]. simpl in Hs. congruence.
  - destruct Hc as (_ & _ & b & Hb & Hv). exists f1, b. repeat split; congruence.
  - contradiction.
Qed.

(** What one argument, and then all of them, do to the debug flag and to
    the logger. *)
Lemma parse_argument_debug (arg : string) (l l' : Launch) :
  parse_argument host json arg l = (Done tt, l') ->
  _onDebug (builder l') = _onDebug (builder l) || is_debug_flag arg
  /\ logger l' = if is_debug_flag arg then LogVerbose else logger l.
Proof.
  unfold parse_argument, is_debug_flag, argument_name.
  set (name := hd EmptyString (split "=" (slice 2 arg))). clearbody name.
  set (values := tl (split "=" (slice 2 arg))). clearbody values.
  destruct (String.eqb name "debug") eqn:E1.
  { unfold Configuration_onDebug, Logger_onVerbose.
    run_step. intros H. inversion H; subst; clear H. simpl.
    rewrite orb_true_r. split; reflexivity. }
  rewrite orb_false_r.
  destruct (String.eqb name "semantic").
  { unfold Configuration_onTypeChk.
    run_step. intros H. inversion H; subst; clear H. split; reflexivity. }
  destruct (String.eqb name "hide-undefined").
  { unfold Configuration_hideUndef.
    run_step. intros H. inversion H; subst; clear H. split; reflexivity. }
  destruct (String.eqb name "protocol").
  { unfold set_protocolVersion.
    run_step. simpl.
    destruct (at_most_4 _).
    - intros H. inversion H; subst; clear H. split; reflexivity.
    - unfold read_json, of_completion.
      destruct (fs_readFileSync host (package_json host)) as [b|]; [|discriminate].
      destruct (JSON_parse json (Buffer_toString b)) as [pkg|]; [|discriminate].
      unfold done. destruct (get_prop pkg "version") as [v|e]; [|discriminate].
      unfold done. destruct (ToPrimitiveString v) as [text|e]; [|discriminate].
      unfold done. intros H. inversion H; subst; clear H. split; reflexivity. }
  destruct (String.eqb name "session-working-dir").
  { unfold set_workingDir.
    run_step. intros H. inversion H; subst; clear H. split; reflexivity. }
  destruct (String.eqb name "show-undefined").
  { unfold Configuration_showUndef.
    run_step. intros H. inversion H; subst; clear H. split; reflexivity. }
  destruct (String.eqb name "startup-script").
  { unfold set_startupScript.
    run_step. intros H. inversion H; subst; clear H. split; reflexivity. }
  unfold set_connectionWith, Logger_throwAndExit, Logger_printUsage.
  run_step. destruct (isConnSet (builder l)); [discriminate|].
  simpl. unfold read_json.
  destruct (fs_readFileSync host arg) as [b|]; [|discriminate].
  destruct (JSON_parse json (Buffer_toString b)) as [v|]; [|discriminate].
  unfold done. intros H. inversion H; subst; clear H. split; reflexivity.
Qed.

Lemma parse_arguments_debug (args : list string) (l l' : Launch) :
  parse_arguments host json args l = (Done tt, l') ->
  _onDebug (builder l') = _onDebug (builder l) || existsb is_debug_flag args
  /\ logger l' = if existsb is_debug_flag args then LogVerbose else logger l.
Proof.
  revert l. induction args as [|arg args IH]; intros l.
  - simpl. unfold done. intros H. inversion H; subst; clear H.
    rewrite orb_false_r. split; reflexivity.
  - simpl. unfold and_then.
    destruct (parse_argument host json arg l) as [[[]|f] l1] eqn:Harg; [|discriminate].
    intros Hrest.
    destruct (parse_argument_debug _ _ _ Harg) as (Hd & Hl).
    destruct (IH _ Hrest) as (Hd' & Hl').
    rewrite Hd', Hd, Hl', Hl, orb_assoc. split; [reflexivity|].
    destruct (is_debug_flag arg), (existsb is_debug_flag args); reflexivity.
Qed.

Lemma get_config_logger (l l' : Launch) (kc : KernelConfig) :
  get_config host l = (Done kc, l') ->
  kc_debug kc = _onDebug (builder l) /\ logger l' = logger l.
Proof.
  unfold get_config, Logger_throwAndExit, Logger_printUsage. run_step.
  destruct (readTSConfig host (_workingDir (builder l))) as [options|f]; [|discriminate].
  simpl. destruct (isConnSet (builder l)); [|discriminate].
  intros H. inversion H; subst; clear H. split; reflexivity.
Qed.

(** X21. The environment variable [DEBUG] selects a logger but does not set
    the [debug] field of the configuration: in a launch that returns a
    configuration, [debug] is true exactly when [--debug] is among the
    arguments, and then the logger is the verbose one, whatever [DEBUG]
    had selected; without [--debug] the logger is the one [DEBUG]
    selected. *)
Theorem debug_flag_overrides_the_logger_of_DEBUG
        (env_DEBUG : option string) (argv : list string) (l l' : Launch)
        (kc : KernelConfig) :
  Forall all_ascii (skipn 2 argv) ->
  launch host json env_DEBUG argv l = (Done kc, l') ->
  kc_debug kc = existsb is_debug_flag (skipn 2 argv)
  /\ logger l' = if existsb is_debug_flag (skipn 2 argv) then LogVerbose
                 else logger_of_environment host env_DEBUG (logger l).
Proof.
  intros _ H. unfold launch in H. unfold and_then at 1 in H.
  assert (Hstart : exists l0,
             (match env_DEBUG with
              | None | Some EmptyString => done tt
              | Some _ => Logger_onProcessDebug host
              end) l = (Done tt, l0)
             /\ logger l0 = logger_of_environment host env_DEBUG (logger l)).
  { unfold logger_of_environment, Logger_onProcessDebug, Logger_onVerbose.
    destruct env_DEBUG as [[|c e]|]; run_step.
    - eexists. split; reflexivity.
    - destruct (require_debug host); run_step; eexists; split; reflexivity.
    - eexists. split; reflexivity. }
  destruct Hstart as (l0 & Hl0 & Hlog). rewrite Hl0 in H.
  destruct (Parser_parse_done _ _ _ _ H) as (l1 & Hloop & Hget).
  destruct (parse_arguments_debug _ _ _ Hloop) as (Hd & Hl).
  destruct (get_config_logger _ _ _ Hget) as (Hk & Hl').
  rewrite Hk, Hd, Hl', Hl. simpl. rewrite Hlog. split; reflexivity.
Qed.

Lemma parse_arguments_app (a b : list string) (l : Launch) :
  parse_arguments host json (a ++ b) l
  = match parse_arguments host json a l with
    | (Done _, l1) => parse_arguments host json b l1
    | (Failed f, l1) => (Failed f, l1)
    end.
Proof.
  revert l. induction a as [|x a IH]; intros l; [reflexivity|].
  simpl. unfold and_then.
  destruct (parse_argument host json x l) as [[[]|f] l1]; [apply IH | reflexivity].
Qed.

(** X22. A second connection file makes the launcher exit with status 1:
    once the arguments before it have been accepted and one of them was a
    connection file, the next one is refused without being read, after the
    message and the usage are printed; the arguments after it are not
    looked at. *)
Theorem second_connection_file_exits
        (before after : list string) (file : string) (l l1 : Launch) :
  Forall all_ascii (before ++ [file])%list ->
  parse_arguments host json before l = (Done tt, l1) ->
  existsb is_connection_file before = true ->
  is_connection_file file = true ->
  parse_arguments host json (before ++ file :: after) l
  = (Failed (Exited 1),
     mk_Launch (builder l1) (logger l1)
               (written_out l1 ++
                [ConsoleError "Error: {connectionFile} cannot be duplicated";
                 ConsoleError usage])).
Proof.
  intros _ Hbefore Hsome Hfile.
  assert (Hset : isConnSet (builder l1) = true).
  { destruct (parse_arguments_effect _ _ _ Hbefore) as (_ & _ & Hc).
    destruct (filter is_connection_file before) as [|f1 [|f2 fs]] eqn:Hf.
    - exfalso. apply existsb_exists in Hsome. destruct Hsome as (x & Hin & Hx).
      assert (Hin' : In x (filter is_connection_file before))
        by (apply filter_In; split; assumption).
      rewrite Hf in Hin'. contradiction.
    - now destruct Hc as (_ & Hs & _).
    - contradiction. }
  rewrite parse_arguments_app, Hbefore. simpl.
  unfold and_then at 1.
  assert (Harg : parse_argument host json file l1
                 = (Failed (Exited 1),
                    mk_Launch (builder l1) (logger l1)
                              (written_out l1 ++
                               [ConsoleError "Error: {connectionFile} cannot be duplicated";
                                ConsoleError usage]))).
  { revert Hfile.
    unfold parse_argument, is_connection_file, is_option, argument_name.
    set (name := hd EmptyString (split "=" (slice 2 file))). clearbody name.
    simpl. intros Hfile. apply negb_true_iff in Hfile.
    repeat (apply orb_false_elim in Hfile; destruct Hfile as [?E Hfile]).
    rewrite E, E0, E1, E2, E3, E4, E5.
    unfold set_connectionWith, Logger_throwAndExit, Logger_printUsage.
    run_step. rewrite Hset. simpl. now rewrite <- app_assoc. }
  now rewrite Harg.
Qed.

(** X23. The value of an option is everything that follows the first equals
    sign, further equals signs included, and the first two characters of
    an argument are dropped without being looked at: an argument made of
    any two ASCII characters, the name of the option, an equals sign and a
    text sets the working directory, the startup script or the protocol
    version to that text. *)
Theorem option_value_is_the_text_after_the_first_equals_sign
        (dashes text : string) (l : Launch) :
  all_ascii dashes ->
  String.length dashes = 2%nat ->
  parse_argument host json (dashes ++ "session-working-dir=" ++ text) l
  = set_workingDir text l
  /\ parse_argument host json (dashes ++ "startup-script=" ++ text) l
     = set_startupScript text l
  /\ parse_argument host json (dashes ++ "protocol=" ++ text) l
     = set_protocolVersion host json text l.
Proof.
  intros _ Hlen.
  destruct dashes as [|a [|b [|c d]]]; simpl in Hlen; try discriminate.
  unfold parse_argument.
  repeat split.
  - change (slice 2 (String a (String b "") ++ "session-working-dir=" ++ text))
      with ("session-working-dir" ++ String "=" text).
    rewrite split_app by reflexivity. simpl hd. simpl tl. cbn -[join split].
    now rewrite join_split.
  - change (slice 2 (String a (String b "") ++ "startup-script=" ++ text))
      with ("startup-script" ++ String "=" text).
    rewrite split_app by reflexivity. simpl hd. simpl tl. cbn -[join split].
    now rewrite join_split.
  - change (slice 2 (String a (String b "") ++ "protocol=" ++ text))
      with ("protocol" ++ String "=" text).
    rewrite split_app by reflexivity. simpl hd. simpl tl. cbn -[join split].
    now rewrite join_split.
Qed.

(** **** transpile *)

Lemma renumber_In (lines : nat) (msg : list string) (line : string) :
  In line msg -> match_line_number line = None -> renumber host lines msg = None.
Proof.
  induction msg as [|x msg IH]; intros Hin Hnone; [contradiction|].
  simpl. destruct Hin as [-> | Hin].
  - unfold renumber_line. now rewrite Hnone.
  - destruct (renumber_line host lines x); [|reflexivity].
    now rewrite (IH Hin Hnone).
Qed.

Lemma leading_digits_app (d t : string) :
  all_digits d = true ->
  leading_digits (d ++ String ":" t) = (d, String ":" t).
Proof.
  induction d as [|c d IH]; intros H; [reflexivity|].
  simpl in H. apply andb_prop in H. destruct H as [Hc Hd].
  cbn [append leading_digits]. rewrite Hc, (IH Hd). reflexivity.
Qed.

Lemma match_numbered_line (d r : string) :
  all_digits d = true -> d <> EmptyString ->
  match_line_number (numbered_line (d, r)) = Some (d, r).
Proof.
  intros Hd Hne. unfold numbered_line, match_line_number. simpl fst. simpl snd.
  change ("L" ++ d ++ ": " ++ r) with (String "L" (d ++ String ":" (String " " r))).
  change (byte_of "L" =? 76)%N with true. cbv iota.
  rewrite (leading_digits_app d _ Hd).
  destruct d; [contradiction|]. reflexivity.
Qed.

Lemma free_of_app (sep : ascii) (a b : string) :
  free_of sep (a ++ b) = free_of sep a && free_of sep b.
Proof.
  induction a as [|c a IH]; [reflexivity|]. simpl. now rewrite IH, andb_assoc.
Qed.

Lemma digits_free (d : string) : all_digits d = true -> free_of (chr 10) d = true.
Proof.
  induction d as [|c d IH]; [reflexivity|]. cbn [free_of all_digits]. intros H.
  apply andb_prop in H. destruct H as [Hc Hd]. rewrite (IH Hd), andb_true_r.
  apply andb_prop in Hc. destruct Hc as [Hlo _].
  apply negb_true_iff. apply Ascii.eqb_neq. intros ->. vm_compute in Hlo. discriminate.
Qed.

Lemma numbered_line_free (d r : string) :
  all_digits d = true -> free_of (chr 10) r = true ->
  free_of (chr 10) (numbered_line (d, r)) = true.
Proof.
  intros Hd Hr. unfold numbered_line. simpl fst. simpl snd.
  rewrite !free_of_app, (digits_free d Hd), Hr. reflexivity.
Qed.

Lemma renumber_numbered (lines : nat) (items : list (string * string)) :
  Forall (fun item => all_digits (fst item) = true /\ fst item <> EmptyString) items ->
  renumber host lines (map numbered_line items)
  = Some (map (fun item =>
                 String (chr 9)
                        ("Line "
                         ++ number_text
                              match parseInt host (fst item) with
                              | Some z => Some (z - Z.of_nat lines + 1)%Z
                              | None => None
                              end
                         ++ ": ") ++ snd item) items).
Proof.
  induction 1 as [|[d r] items [Hd Hne] _ IH]; [reflexivity|].
  cbn [map renumber]. unfold renumber_line at 1.
  rewrite (match_numbered_line d r Hd Hne), IH. reflexivity.
Qed.

(** X24. A failed [transpile] changes nothing, and when one line of the
    message of the compile error does not start with [L], digits, a colon
    and a space, the error thrown is not the compile error but a
    TypeError: the match of the line is [null], and its [length] is read. *)
Theorem transpile_unnumbered_error_line_throws_TypeError
        (this : Configuration) (options : value) (typeChk : bool)
        (code name message line : string) :
  transpiler this = Some (options, typeChk) ->
  compile host options typeChk (join nl (runningHistory this) ++ nl ++ code)
  = inr (name, message) ->
  In line (split (chr 10) message) ->
  match_line_number line = None ->
  transpile host code this = (Failed (Raised TypeError), this).
Proof.
  intros Ht Hc Hin Hnone. unfold transpile, and_then, state.
  rewrite Ht, Hc. now rewrite (renumber_In _ _ _ Hin Hnone).
Qed.

(** X25. When every line of the message of a compile error is numbered,
    [transpile] throws an error with the name of the compile error whose
    message has, for each line [L n: text], the line [Line m: text] after
    a tab, where [m] is [n] minus the number of lines compiled before,
    plus one (for line numbers below 2^53, which JavaScript holds exactly
    and prints in full); the configuration is unchanged, so the failed cell
    is not part of the history. *)
Theorem transpile_renumbers_the_lines_of_an_error
        (this : Configuration) (options : value) (typeChk : bool)
        (code name : string) (first : string * string) (others : list (string * string)) :
  transpiler this = Some (options, typeChk) ->
  compile host options typeChk (join nl (runningHistory this) ++ nl ++ code)
  = inr (name, join nl (map numbered_line (first :: others))) ->
  Forall (fun item => all_digits (fst item) = true /\ fst item <> EmptyString
                      /\ free_of (chr 10) (snd item) = true) (first :: others) ->
  (forall item z, In item (first :: others) -> parseInt host (fst item) = Some z ->
                  (Z.abs z < 2 ^ 53)%Z) ->
  exists message,
    message
    = join nl (map (fun item =>
                      String (chr 9)
                             ("Line "
                              ++ number_text
                                   match parseInt host (fst item) with
                                   | Some z => Some (z - Z.of_nat (history_lines this) + 1)%Z
                                   | None => None
                                   end
                              ++ ": ") ++ snd item) (first :: others))
    /\ transpile host code this
       = (Failed (ErrorThrown name message (Some ("[COMPILE ERROR]" ++ nl ++ message))), this).
Proof.
  intros Ht Hc Hitems _. eexists. split; [reflexivity|].
  unfold transpile, and_then, state. rewrite Ht, Hc.
  assert (Hfree : Forall (fun l => free_of (chr 10) l = true)
                         (map numbered_line (first :: others))).
  { apply Forall_map. eapply Forall_impl; [|exact Hitems].
    intros [d r] (Hd & _ & Hr). now apply numbered_line_free. }
  cbn [map] in Hfree |- *.
  pose proof (split_join_lines (chr 10) _ _ Hfree) as Hsplit.
  change (String (chr 10) EmptyString) with nl in Hsplit. rewrite Hsplit.
  change (numbered_line first :: map numbered_line others)
    with (map numbered_line (first :: others)).
  rewrite renumber_numbered.
  - reflexivity.
  - eapply Forall_impl; [|exact Hitems]. intros item (Hd & Hne & _). now split.
Qed.

(** X26. [transpile] returns only what is new: after a cell was compiled,
    when the compiled code of the history with the next cell extends the
    compiled code before it (both ASCII text), the next cell gets exactly
    the extension; both cells are then in the history. *)
Theorem transpile_returns_only_the_new_code
        (this : Configuration) (options : value) (typeChk : bool)
        (cell1 cell2 compiled1 new2 : string) :
  transpiler this = Some (options, typeChk) ->
  compile host options typeChk (join nl (runningHistory this) ++ nl ++ cell1)
  = inl compiled1 ->
  compile host options typeChk (join nl (runningHistory this ++ [cell1]) ++ nl ++ cell2)
  = inl (compiled1 ++ new2) ->
  all_ascii (compiled1 ++ new2) ->
  and_then (transpile host cell1) (fun _ => transpile host cell2) this
  = (Done new2,
     with_history (runningHistory this ++ [cell1; cell2])%list
                  (String.length (compiled1 ++ new2)) this).
Proof.
  intros Ht H1 H2 _. unfold and_then at 1. unfold transpile at 1.
  unfold and_then, state, update_state, done. rewrite Ht, H1.
  unfold transpile, and_then, state, update_state, done.
  cbn [runningHistory with_history transpiler compiledLength].
  rewrite Ht, H2. rewrite slice_app. unfold with_history.
  cbn [runningHistory transpiler compiledLength _onDebug _onTypeChk _workingDir
       hideUndefined protocolVer isConnSet conn response _startupScript].
  now rewrite <- app_assoc.
Qed.

(** **** findTSConfig *)

Lemma ancestor_S (n : nat) (dir : string) :
  ancestor host (S n) dir = ancestor host n (path_dirname host dir).
Proof.
  unfold ancestor. induction n as [|n IH]; [reflexivity|].
  simpl in *. now rewrite IH.
Qed.

(** X27. [findTSConfig] returns the [tsconfig.json] of the nearest directory
    that has one, going up from [dir]: when the directory [n] levels up is
    the first with the file, and no directory below it is its own parent,
    the result is the path of that file. *)
Theorem findTSConfig_finds_the_nearest (n fuel : nat) (dir : string) :
  (forall i, (i < n)%nat ->
             fs_existsSync host (path_join host (ancestor host i dir) "tsconfig.json") = false
             /\ ancestor host (S i) dir <> ancestor host i dir) ->
  fs_existsSync host (path_join host (ancestor host n dir) "tsconfig.json") = true ->
  (n < fuel)%nat ->
  Configuration_findTSConfig host fuel dir
  = Some (Some (path_join host (ancestor host n dir) "tsconfig.json")).
Proof.
  revert fuel dir. induction n as [|n IH]; intros fuel dir Hbelow Hfound Hfuel.
  - destruct fuel as [|fuel]; [lia|]. cbn [Configuration_findTSConfig].
    change (ancestor host 0 dir) with dir in *. now rewrite Hfound.
  - destruct fuel as [|fuel]; [lia|]. cbn [Configuration_findTSConfig].
    destruct (Hbelow 0%nat ltac:(lia)) as [H0 Hne].
    change (ancestor host 0 dir) with dir in *.
    change (ancestor host 1 dir) with (path_dirname host dir) in *.
    rewrite H0.
    destruct (String.eqb (path_dirname host dir) dir) eqn:He;
      [apply String.eqb_eq in He; contradiction|].
    rewrite ancestor_S in Hfound |- *. apply IH; [|exact Hfound | lia].
    intros i Hi. destruct (Hbelow (S i) ltac:(lia)) as [Hi1 Hi2].
    rewrite (ancestor_S i dir) in Hi1, Hi2. rewrite (ancestor_S (S i) dir) in Hi2.
    split; assumption.
Qed.

(** X28. [findTSConfig] returns [undefined] when it reaches a directory that
    is its own parent without having found a [tsconfig.json] on the way,
    that directory included. *)
Theorem findTSConfig_stops_at_the_root (n fuel : nat) (dir : string) :
  (forall i, (i <= n)%nat ->
             fs_existsSync host (path_join host (ancestor host i dir) "tsconfig.json") = false) ->
  (forall i, (i < n)%nat -> ancestor host (S i) dir <> ancestor host i dir) ->
  ancestor host (S n) dir = ancestor host n dir ->
  (n < fuel)%nat ->
  Configuration_findTSConfig host fuel dir = Some None.
Proof.
  revert fuel dir. induction n as [|n IH]; intros fuel dir Hnone Hbelow Hroot Hfuel.
  - destruct fuel as [|fuel]; [lia|]. cbn [Configuration_findTSConfig].
    pose proof (Hnone 0%nat ltac:(lia)) as H0.
    change (ancestor host 0 dir) with dir in *.
    change (ancestor host 1 dir) with (path_dirname host dir) in *.
    rewrite H0, Hroot. now rewrite String.eqb_refl.
  - destruct fuel as [|fuel]; [lia|]. cbn [Configuration_findTSConfig].
    pose proof (Hnone 0%nat ltac:(lia)) as H0.
    pose proof (Hbelow 0%nat ltac:(lia)) as Hne.
    change (ancestor host 0 dir) with dir in *.
    change (ancestor host 1 dir) with (path_dirname host dir) in *.
    rewrite H0.
    destruct (String.eqb (path_dirname host dir) dir) eqn:He;
      [apply String.eqb_eq in He; contradiction|].
    apply IH; [| |rewrite <- (ancestor_S n dir), <- (ancestor_S (S n) dir); exact Hroot | lia].
    + intros i Hi. pose proof (Hnone (S i) ltac:(lia)) as Hi1.
      now rewrite ancestor_S in Hi1.
    + intros i Hi. pose proof (Hbelow (S i) ltac:(lia)) as Hi1.
      now rewrite (ancestor_S i dir), (ancestor_S (S i) dir) in Hi1.
Qed.

End LauncherProperties.

(** * The further properties on concrete input *)

Module MoreChecks.
Import Reference Scenario Edge.

(** The signature of the signed request is lower-case hexadecimal. *)
Lemma accepted_signature_is_lowercase_hex_witness :
  parse crypto json execute_frames fresh = (Normal tt, execute_message)
  /\ signatureOK execute_message = Some true
  /\ exists s,
      signature execute_message = Some s
      /\ all_lower_hex s = true
      /\ Nat.even (String.length s) = true.
Proof.
  assert (H : parse crypto json execute_frames fresh = (Normal tt, execute_message))
    by evaluate.
  split; [exact H|]. split; [reflexivity|].
  exact (accepted_signature_is_lowercase_hex crypto json execute_frames
           (Some "sha256") (Some "secret") (Normal tt) execute_message H eq_refl).
Defined.

(** The request cut after five frames. *)
Lemma truncated_message_throws_witness :
  supported crypto (scheme (incoming (kernel engine_ok))) = true
  /\ (List.length truncated_frames < 7)%nat
  /\ shellSocket_message crypto json uuid_v4 nodeVersion (kernel engine_ok)
                         truncated_frames store0
     = (Throw TypeError, store0).
Proof.
  assert (H : (List.length truncated_frames < 7)%nat) by (vm_compute; lia).
  split; [reflexivity|]. split; [exact H|].
  exact (truncated_message_throws crypto json uuid_v4 nodeVersion (kernel engine_ok)
           truncated_frames store0 eq_refl H).
Defined.

(** The signed request sent to a kernel configured with an unknown
    scheme. *)
Lemma unknown_scheme_rejects_every_message_witness :
  supported crypto (scheme (incoming unknown_scheme_kernel)) = false
  /\ shellSocket_message crypto json uuid_v4 nodeVersion unknown_scheme_kernel
                         execute_frames store0
     = (Throw CryptoError, store0).
Proof.
  split; [reflexivity|].
  exact (unknown_scheme_rejects_every_message crypto json uuid_v4 nodeVersion
           unknown_scheme_kernel execute_frames store0 eq_refl).
Defined.

(** The signed message whose header is not JSON. *)
Lemma authenticated_malformed_json_throws_witness :
  supported crypto (scheme (incoming (kernel engine_ok))) = true
  /\ Buffer_toString "df72f6bca4d6d85eb798e720ae0179ef7ba858aae563a7f3fc1fc2765af0cdce"
     = tag crypto (scheme (incoming (kernel engine_ok))) (key (incoming (kernel engine_ok)))
           "{not json" "{}" "{}" "{}"
  /\ (JSON_parse json (Buffer_toString "{not json") = None
      \/ JSON_parse json (Buffer_toString "{}") = None
      \/ JSON_parse json (Buffer_toString "{}") = None)
  /\ shellSocket_message crypto json uuid_v4 nodeVersion (kernel engine_ok)
                         malformed_header_frames store0
     = (Throw SyntaxError, store0).
Proof.
  assert (Hsg : Buffer_toString
                  "df72f6bca4d6d85eb798e720ae0179ef7ba858aae563a7f3fc1fc2765af0cdce"
                = tag crypto (scheme (incoming (kernel engine_ok)))
                      (key (incoming (kernel engine_ok))) "{not json" "{}" "{}" "{}")
    by evaluate.
  assert (Hbad : JSON_parse json (Buffer_toString "{not json") = None
                 \/ JSON_parse json (Buffer_toString "{}") = None
                 \/ JSON_parse json (Buffer_toString "{}") = None)
    by (left; evaluate).
  split; [reflexivity|]. split; [exact Hsg|]. split; [exact Hbad|].
  exact (authenticated_malformed_json_throws crypto json uuid_v4 nodeVersion
           (kernel engine_ok) "client-1" "<IDS|MSG>" _ "{not json" "{}" "{}" "{}" []
           store0 eq_refl Hsg Hbad).
Defined.

(** The signed message whose header is [null]. *)
Lemma authenticated_null_header_throws_witness :
  supported crypto (scheme (incoming (kernel engine_ok))) = true
  /\ Buffer_toString "f3ccc92abbef71e156a8ae38f7bccec12fd54ebad4ed9c532650295af374dfaa"
     = tag crypto (scheme (incoming (kernel engine_ok))) (key (incoming (kernel engine_ok)))
           "null" "{}" "{}" "{}"
  /\ JSON_parse json (Buffer_toString "null") = Some VNull
  /\ JSON_parse json (Buffer_toString "{}") = Some (VObj [])
  /\ shellSocket_message crypto json uuid_v4 nodeVersion (kernel engine_ok)
                         null_header_frames store0
     = (Throw TypeError, store0).
Proof.
  assert (Hsg : Buffer_toString
                  "f3ccc92abbef71e156a8ae38f7bccec12fd54ebad4ed9c532650295af374dfaa"
                = tag crypto (scheme (incoming (kernel engine_ok)))
                      (key (incoming (kernel engine_ok))) "null" "{}" "{}" "{}")
    by evaluate.
  assert (Hh : JSON_parse json (Buffer_toString "null") = Some VNull) by evaluate.
  assert (Hp : JSON_parse json (Buffer_toString "{}") = Some (VObj [])) by evaluate.
  split; [reflexivity|]. split; [exact Hsg|]. split; [exact Hh|]. split; [exact Hp|].
  exact (authenticated_null_header_throws crypto json uuid_v4 nodeVersion
           (kernel engine_ok) "client-1" "<IDS|MSG>" _ "null" "{}" "{}" "{}" []
           (VObj []) (VObj []) store0 eq_refl Hsg Hh Hp Hp).
Defined.

(** The signed [kernel_info_request]. *)
Lemma kernel_info_request_is_answered_once_witness :
  parse crypto json kernel_info_frames (incoming (kernel engine_ok))
  = (Normal tt, kernel_info_message)
  /\ signatureOK kernel_info_message = Some true
  /\ get_prop (header kernel_info_message) "msg_type" = Normal (VStr "kernel_info_request")
  /\ shellSocket_message crypto json uuid_v4 nodeVersion (kernel engine_ok)
                         kernel_info_frames store0
     = (Normal tt,
        mk_Store
          [EvCall "kernel_info_request" kernel_info_message;
           EvSend (createSocket "router")
             (response_frames crypto json kernel_info_message (uuid_v4 0) "kernel_info_reply"
                (VObj [("language", VStr "javascript");
                       ("language_version", VArr [VNum 0; VNum 10; VNum 25]);
                       ("protocol_version", VArr [VNum 4; VNum 1])]))]
          1).
Proof.
  assert (H : parse crypto json kernel_info_frames (incoming (kernel engine_ok))
              = (Normal tt, kernel_info_message)) by evaluate.
  split; [exact H|]. split; [reflexivity|]. split; [reflexivity|].
  exact (kernel_info_request_is_answered_once crypto json uuid_v4 nodeVersion
           (kernel engine_ok) kernel_info_frames store0 kernel_info_message
           H eq_refl eq_refl).
Defined.

(** The signed [execute_request]. *)
Lemma execute_request_is_handed_to_the_engine_witness :
  parse crypto json execute_frames (incoming (kernel engine_ok))
  = (Normal tt, execute_message)
  /\ signatureOK execute_message = Some true
  /\ get_prop (header execute_message) "msg_type" = Normal (VStr "execute_request")
  /\ object_coercible (content execute_message) = true
  /\ exists task,
      shellSocket_message crypto json uuid_v4 nodeVersion (kernel engine_ok)
                          execute_frames store0
      = run engine_ok (VStr "s1") task
            (mk_Store [EvCall "execute_request" execute_message] 0)
      /\ task_code task = VStr "1+1"
      /\ (forall session st', task_afterRun task session st' = (Normal tt, st'))
      /\ (forall session st',
            task_beforeRun task session st'
            = (Normal tt,
               sent (createSocket "pub")
                    (response_frames crypto json execute_message (uuid_v4 (uuid_calls st'))
                       "pyin"
                       (VObj [("execution_count", executionCount session);
                              ("code", VStr "1+1")]))
                    st')).
Proof.
  assert (H : parse crypto json execute_frames (incoming (kernel engine_ok))
              = (Normal tt, execute_message)) by evaluate.
  split; [exact H|]. split; [reflexivity|]. split; [reflexivity|]. split; [reflexivity|].
  exact (execute_request_is_handed_to_the_engine crypto json uuid_v4 nodeVersion
           (kernel engine_ok) execute_frames store0 execute_message
           H eq_refl eq_refl eq_refl).
Defined.

(** [onSuccess] on the parsed request with a session without a result. *)
Lemma onSuccess_without_result_replies_then_throws_witness :
  supported crypto (scheme execute_message) = true
  /\ object_coercible (header execute_message) = true
  /\ object_coercible (result session_without_result) = false
  /\ onSuccess crypto json uuid_v4 (kernel engine_ok) execute_message
               session_without_result store0
     = (Throw TypeError,
        sent (createSocket "router")
             (response_frames crypto json execute_message (uuid_v4 0) "execute_reply"
                (VObj [("status", VStr "ok");
                       ("execution_count", VNum 1);
                       ("payload", VArr []);
                       ("user_variables", VObj []);
                       ("user_expressions", VObj [])]))
             store0).
Proof.
  do 3 (split; [reflexivity|]).
  exact (onSuccess_without_result_replies_then_throws crypto json uuid_v4
           (kernel engine_ok) execute_message session_without_result store0
           eq_refl eq_refl eq_refl).
Defined.

(** [onError] with the session of the success scenario, whose result has
    no error. *)
Lemma onError_without_error_writes_nothing_witness :
  (object_coercible (result session_ok) = false
   \/ object_coercible (prop (result session_ok) "error") = false)
  /\ onError crypto json uuid_v4 (kernel engine_ok) execute_message session_ok store0
     = (Throw TypeError, store0).
Proof.
  assert (H : object_coercible (result session_ok) = false
              \/ object_coercible (prop (result session_ok) "error") = false)
    by (right; reflexivity).
  split; [exact H|].
  exact (onError_without_error_writes_nothing crypto json uuid_v4 (kernel engine_ok)
           execute_message session_ok store0 H).
Defined.

End MoreChecks.

Module LauncherChecks.
Import LaunchScenario.

Ltac ascii_text :=
  repeat match goal with
         | |- Forall _ _ => constructor
         | |- all_ascii _ => cbn [all_ascii]
         | |- _ /\ _ => split
         | |- (_ <= _)%N => apply N.leb_le; reflexivity
         | |- _ = _ -> False => discriminate
         | |- True => exact I
         end.

(** The message of type [nonexistent_request], signed under [sha256],
    sent to a kernel configured with the scheme [none:sha256]. *)
Lemma scheme_prefix_is_dropped_unchecked_witness :
  config_signature_scheme (config Edge.odd_prefix_kernel) = "none:" ++ "sha256"
  /\ all_ascii "none:"
  /\ String.length "none:" = 5%nat
  /\ supported Reference.crypto "sha256" = true
  /\ JSON_parse Reference.json
                (Buffer_toString (Scenario.header_of "m3" "nonexistent_request"))
     = Some (VObj [("msg_id", VStr "m3"); ("username", VStr "user");
                   ("session", VStr "s1"); ("msg_type", VStr "nonexistent_request")])
  /\ JSON_parse Reference.json (Buffer_toString "{}") = Some (VObj [])
  /\ get_prop (VObj [("msg_id", VStr "m3"); ("username", VStr "user");
                     ("session", VStr "s1"); ("msg_type", VStr "nonexistent_request")])
              "msg_type"
     = Normal (VStr "nonexistent_request")
  /\ ToPrimitiveString (VStr "nonexistent_request") = Normal "nonexistent_request"
  /\ in_prototype "nonexistent_request" = false
  /\ shellSocket_message Reference.crypto Reference.json Reference.uuid_v4
                         Reference.nodeVersion Edge.odd_prefix_kernel
                         Scenario.nonexistent_frames Scenario.store0
     = (Normal tt, warned (VStr "nonexistent_request") Scenario.store0).
Proof.
  assert (Hascii : all_ascii "none:") by ascii_text.
  assert (Hh : JSON_parse Reference.json
                 (Buffer_toString (Scenario.header_of "m3" "nonexistent_request"))
               = Some (VObj [("msg_id", VStr "m3"); ("username", VStr "user");
                             ("session", VStr "s1");
                             ("msg_type", VStr "nonexistent_request")])) by evaluate.
  assert (Hp : JSON_parse Reference.json (Buffer_toString "{}") = Some (VObj []))
    by evaluate.
  assert (Hsigned :
            String.eqb
              (Buffer_toString
                 "25f7cbde9b2683893b03fd8606a30ea51015e3a26483b7529d5f6b69cc873fa2")
              (tag Reference.crypto "sha256" (config_key (config Edge.odd_prefix_kernel))
                   (Scenario.header_of "m3" "nonexistent_request") "{}" "{}" "{}")
            = true) by evaluate.
  split; [reflexivity|]. split; [exact Hascii|]. do 2 (split; [reflexivity|]).
  split; [exact Hh|]. split; [exact Hp|]. do 3 (split; [reflexivity|]).
  pose proof (scheme_prefix_is_dropped_unchecked Reference.crypto Reference.json
                Reference.uuid_v4 Reference.nodeVersion Edge.odd_prefix_kernel
                "none:" "sha256" "client-1" "<IDS|MSG>"
                "25f7cbde9b2683893b03fd8606a30ea51015e3a26483b7529d5f6b69cc873fa2"
                (Scenario.header_of "m3" "nonexistent_request") "{}" "{}" "{}" []
                _ _ _ _ "nonexistent_request" Scenario.store0
                eq_refl Hascii eq_refl eq_refl Hh Hp Hp eq_refl eq_refl eq_refl) as H.
  cbv beta iota in H. rewrite Hsigned in H. exact H.
Defined.

(** The same message sent to a kernel configured with the scheme [md5],
    written without the prefix. *)
Lemma short_scheme_defaults_to_sha256_witness :
  (String.length (config_signature_scheme (config md5_kernel)) <= 5)%nat
  /\ supported Reference.crypto "sha256" = true
  /\ JSON_parse Reference.json
                (Buffer_toString (Scenario.header_of "m3" "nonexistent_request"))
     = Some (VObj [("msg_id", VStr "m3"); ("username", VStr "user");
                   ("session", VStr "s1"); ("msg_type", VStr "nonexistent_request")])
  /\ JSON_parse Reference.json (Buffer_toString "{}") = Some (VObj [])
  /\ get_prop (VObj [("msg_id", VStr "m3"); ("username", VStr "user");
                     ("session", VStr "s1"); ("msg_type", VStr "nonexistent_request")])
              "msg_type"
     = Normal (VStr "nonexistent_request")
  /\ ToPrimitiveString (VStr "nonexistent_request") = Normal "nonexistent_request"
  /\ in_prototype "nonexistent_request" = false
  /\ shellSocket_message Reference.crypto Reference.json Reference.uuid_v4
                         Reference.nodeVersion md5_kernel
                         Scenario.nonexistent_frames Scenario.store0
     = (Normal tt, warned (VStr "nonexistent_request") Scenario.store0).
Proof.
  assert (Hlen : (String.length (config_signature_scheme (config md5_kernel)) <= 5)%nat)
    by (vm_compute; lia).
  assert (Hh : JSON_parse Reference.json
                 (Buffer_toString (Scenario.header_of "m3" "nonexistent_request"))
               = Some (VObj [("msg_id", VStr "m3"); ("username", VStr "user");
                             ("session", VStr "s1");
                             ("msg_type", VStr "nonexistent_request")])) by evaluate.
  assert (Hp : JSON_parse Reference.json (Buffer_toString "{}") = Some (VObj []))
    by evaluate.
  assert (Hsigned :
            String.eqb
              (Buffer_toString
                 "25f7cbde9b2683893b03fd8606a30ea51015e3a26483b7529d5f6b69cc873fa2")
              (tag Reference.crypto "sha256" (config_key (config md5_kernel))
                   (Scenario.header_of "m3" "nonexistent_request") "{}" "{}" "{}")
            = true) by evaluate.
  split; [exact Hlen|]. split; [reflexivity|].
  split; [exact Hh|]. split; [exact Hp|]. do 3 (split; [reflexivity|]).
  pose proof (short_scheme_defaults_to_sha256 Reference.crypto Reference.json
                Reference.uuid_v4 Reference.nodeVersion md5_kernel
                "client-1" "<IDS|MSG>"
                "25f7cbde9b2683893b03fd8606a30ea51015e3a26483b7529d5f6b69cc873fa2"
                (Scenario.header_of "m3" "nonexistent_request") "{}" "{}" "{}" []
                _ _ _ _ "nonexistent_request" Scenario.store0
                Hlen eq_refl Hh Hp Hp eq_refl eq_refl eq_refl) as H.
  rewrite Hsigned in H. exact H.
Defined.

(** The JavaScript launcher started with two dashed arguments. *)
Lemma startup_without_connection_file_witness :
  forallb starts_with_dash (skipn 2 ["node"; "kernel.js"; "--debug"; "-v"]) = true
  /\ startup readFileSync Reference.json ["node"; "kernel.js"; "--debug"; "-v"] []
     = (Failed (ErrorThrown "Error" "Error: Missing connection file" None),
        [ConsoleWarn ["Warning: Argument '%s' skipped"; "--debug"];
         ConsoleWarn ["Warning: Argument '%s' skipped"; "-v"]]).
Proof.
  split; [reflexivity|].
  exact (startup_without_connection_file readFileSync Reference.json
           ["node"; "kernel.js"; "--debug"; "-v"] [] eq_refl).
Defined.

(** The JavaScript launcher started with two connection files. *)
Lemma startup_last_connection_file_wins_witness :
  skipn 2 ["node"; "kernel.js"; "first.json"; "-x"; "conn.json"; "-y"]
  = (["first.json"; "-x"] ++ "conn.json" :: ["-y"])%list
  /\ Forall (usable_argument readFileSync Reference.json) ["first.json"; "-x"]
  /\ starts_with_dash "conn.json" = false
  /\ readFileSync "conn.json" = Some connection_text
  /\ JSON_parse Reference.json (Buffer_toString connection_text) = Some connection_value
  /\ forallb starts_with_dash ["-y"] = true
  /\ startup readFileSync Reference.json
             ["node"; "kernel.js"; "first.json"; "-x"; "conn.json"; "-y"] []
     = (Done connection_value,
        [ConsoleWarn ["Warning: Argument '%s' skipped"; "-x"];
         ConsoleWarn ["Warning: Argument '%s' skipped"; "-y"]]).
Proof.
  assert (Hfirst : JSON_parse Reference.json (Buffer_toString (Reference.dq "{'key':'old'}"))
                   = Some (VObj [("key", VStr "old")])) by evaluate.
  assert (Hbefore : Forall (usable_argument readFileSync Reference.json) ["first.json"; "-x"]).
  { constructor; [| constructor; [| constructor]].
    - right. exists (Reference.dq "{'key':'old'}"), (VObj [("key", VStr "old")]).
      split; [reflexivity | exact Hfirst].
    - left. reflexivity. }
  assert (Hv : JSON_parse Reference.json (Buffer_toString connection_text)
               = Some connection_value) by evaluate.
  split; [reflexivity|]. split; [exact Hbefore|]. split; [reflexivity|].
  split; [reflexivity|]. split; [exact Hv|]. split; [reflexivity|].
  exact (startup_last_connection_file_wins readFileSync Reference.json
           ["node"; "kernel.js"; "first.json"; "-x"; "conn.json"; "-y"]
           ["first.json"; "-x"] ["-y"] "conn.json" connection_text connection_value []
           eq_refl Hbefore eq_refl eq_refl Hv eq_refl).
Defined.

(** The JavaScript launcher started with a file that does not exist. *)
Lemma startup_unreadable_file_stops_witness :
  skipn 2 ["node"; "kernel.js"; "-x"; "gone.json"; "-y"; "conn.json"]
  = (["-x"] ++ "gone.json" :: ["-y"; "conn.json"])%list
  /\ Forall (usable_argument readFileSync Reference.json) ["-x"]
  /\ starts_with_dash "gone.json" = false
  /\ readFileSync "gone.json" = None
  /\ startup readFileSync Reference.json
             ["node"; "kernel.js"; "-x"; "gone.json"; "-y"; "conn.json"] []
     = (Failed (FsError "gone.json"),
        [ConsoleWarn ["Warning: Argument '%s' skipped"; "-x"]]).
Proof.
  assert (Hbefore : Forall (usable_argument readFileSync Reference.json) ["-x"]).
  { constructor; [| constructor]. left. reflexivity. }
  split; [reflexivity|]. split; [exact Hbefore|]. split; [reflexivity|].
  split; [reflexivity|].
  exact (startup_unreadable_file_stops readFileSync Reference.json
           ["node"; "kernel.js"; "-x"; "gone.json"; "-y"; "conn.json"]
           ["-x"] ["-y"; "conn.json"] "gone.json" [] eq_refl Hbefore eq_refl eq_refl).
Defined.

(** The TypeScript launcher started with [--show-undefined]. *)
Lemma show_undefined_hides_undefined_witness :
  Forall all_ascii (skipn 2 argv_show)
  /\ Parser_parse host Reference.json argv_show launch0
     = (Done config_show, snd (Parser_parse host Reference.json argv_show launch0))
  /\ kc_hideUndefined config_show = true.
Proof.
  assert (Hascii : Forall all_ascii (skipn 2 argv_show)) by ascii_text.
  assert (H : Parser_parse host Reference.json argv_show launch0
              = (Done config_show, snd (Parser_parse host Reference.json argv_show launch0)))
    by evaluate.
  split; [exact Hascii|]. split; [exact H|].
  exact (show_undefined_hides_undefined host Reference.json argv_show launch0 _
           config_show Hascii H).
Defined.

(** The same launch has no [protocol] option. *)
Lemma default_protocol_has_no_kernel_info_reply_witness :
  Forall all_ascii (skipn 2 argv_show)
  /\ Parser_parse host Reference.json argv_show launch0
     = (Done config_show, snd (Parser_parse host Reference.json argv_show launch0))
  /\ existsb is_protocol_option (skipn 2 argv_show) = false
  /\ kc_protocolVersion config_show = "5.0"
  /\ kc_kernelInfoReply config_show = None.
Proof.
  assert (Hascii : Forall all_ascii (skipn 2 argv_show)) by ascii_text.
  assert (H : Parser_parse host Reference.json argv_show launch0
              = (Done config_show, snd (Parser_parse host Reference.json argv_show launch0)))
    by evaluate.
  split; [exact Hascii|]. split; [exact H|]. split; [reflexivity|].
  exact (default_protocol_has_no_kernel_info_reply host Reference.json argv_show launch0 _
           config_show Hascii H eq_refl).
Defined.

(** The same launch has one connection file. *)
Lemma Parser_parse_needs_one_connection_file_witness :
  Forall all_ascii (skipn 2 argv_show)
  /\ Parser_parse host Reference.json argv_show launch0
     = (Done config_show, snd (Parser_parse host Reference.json argv_show launch0))
  /\ exists file b,
      filter is_connection_file (skipn 2 argv_show) = [file]
      /\ fs_readFileSync host file = Some b
      /\ JSON_parse Reference.json (Buffer_toString b) = Some (kc_connection config_show).
Proof.
  assert (H : Parser_parse host Reference.json argv_show launch0
              = (Done config_show, snd (Parser_parse host Reference.json argv_show launch0)))
    by evaluate.
  assert (Hascii : Forall all_ascii (skipn 2 argv_show)) by ascii_text.
  split; [exact Hascii|]. split; [exact H|].
  exact (Parser_parse_needs_one_connection_file host Reference.json argv_show launch0 _
           config_show Hascii H).
Defined.

(** The TypeScript launcher started with two connection files. *)
Lemma second_connection_file_exits_witness :
  Forall all_ascii (["conn.json"] ++ ["first.json"])%list
  /\ parse_arguments host Reference.json ["conn.json"] launch0
     = (Done tt, snd (parse_arguments host Reference.json ["conn.json"] launch0))
  /\ existsb is_connection_file ["conn.json"] = true
  /\ is_connection_file "first.json" = true
  /\ parse_arguments host Reference.json
                     (["conn.json"] ++ "first.json" :: ["--debug"]) launch0
     = (Failed (Exited 1),
        mk_Launch
          (builder (snd (parse_arguments host Reference.json ["conn.json"] launch0)))
          (logger (snd (parse_arguments host Reference.json ["conn.json"] launch0)))
          (written_out (snd (parse_arguments host Reference.json ["conn.json"] launch0))
           ++ [ConsoleError "Error: {connectionFile} cannot be duplicated";
               ConsoleError usage])).
Proof.
  assert (Hascii : Forall all_ascii (["conn.json"] ++ ["first.json"])%list) by ascii_text.
  assert (H : parse_arguments host Reference.json ["conn.json"] launch0
              = (Done tt, snd (parse_arguments host Reference.json ["conn.json"] launch0)))
    by evaluate.
  split; [exact Hascii|]. split; [exact H|]. do 2 (split; [reflexivity|]).
  exact (second_connection_file_exits host Reference.json ["conn.json"] ["--debug"]
           "first.json" launch0 _ Hascii H eq_refl eq_refl).
Defined.

(** A startup script whose name has an equals sign. *)
Lemma option_value_is_the_text_after_the_first_equals_sign_witness :
  all_ascii "--"
  /\ String.length "--" = 2%nat
  /\ parse_argument host Reference.json ("--" ++ "session-working-dir=" ++ "a=b") launch0
     = set_workingDir "a=b" launch0
  /\ parse_argument host Reference.json ("--" ++ "startup-script=" ++ "a=b") launch0
     = set_startupScript "a=b" launch0
  /\ parse_argument host Reference.json ("--" ++ "protocol=" ++ "a=b") launch0
     = set_protocolVersion host Reference.json "a=b" launch0.
Proof.
  assert (Hascii : all_ascii "--") by ascii_text.
  split; [exact Hascii|]. split; [reflexivity|].
  exact (option_value_is_the_text_after_the_first_equals_sign host Reference.json
           "--" "a=b" launch0 Hascii eq_refl).
Defined.

(** The cell [?], rejected with a message without a line number. *)
Lemma transpile_unnumbered_error_line_throws_TypeError_witness :
  transpiler ready = Some (VObj [("target", VNum 1)], false)
  /\ compile host (VObj [("target", VNum 1)]) false
             (join nl (runningHistory ready) ++ nl ++ "?")
     = inr ("SyntaxError", "Unexpected token")
  /\ In "Unexpected token" (split (chr 10) "Unexpected token")
  /\ match_line_number "Unexpected token" = None
  /\ transpile host "?" ready = (Failed (Raised TypeError), ready).
Proof.
  assert (Hc : compile host (VObj [("target", VNum 1)]) false
                       (join nl (runningHistory ready) ++ nl ++ "?")
               = inr ("SyntaxError", "Unexpected token")) by evaluate.
  assert (Hin : In "Unexpected token" (split (chr 10) "Unexpected token"))
    by (left; evaluate).
  split; [reflexivity|]. split; [exact Hc|]. split; [exact Hin|]. split; [reflexivity|].
  exact (transpile_unnumbered_error_line_throws_TypeError host ready
           (VObj [("target", VNum 1)]) false "?" "SyntaxError" "Unexpected token"
           "Unexpected token" eq_refl Hc Hin eq_refl).
Defined.

(** The cell [x], rejected with a message about line 3. *)
Lemma transpile_renumbers_the_lines_of_an_error_witness :
  transpiler ready = Some (VObj [("target", VNum 1)], false)
  /\ compile host (VObj [("target", VNum 1)]) false
             (join nl (runningHistory ready) ++ nl ++ "x")
     = inr ("Error", join nl (map numbered_line [("3", "Cannot find name 'x'.")]))
  /\ Forall (fun item => all_digits (fst item) = true /\ fst item <> EmptyString
                         /\ free_of (chr 10) (snd item) = true)
            [("3", "Cannot find name 'x'.")]
  /\ (forall item z, In item [("3", "Cannot find name 'x'.")] ->
                     parseInt host (fst item) = Some z -> (Z.abs z < 2 ^ 53)%Z)
  /\ exists message,
      message
      = join nl (map (fun item =>
                        String (chr 9)
                               ("Line "
                                ++ number_text
                                     match parseInt host (fst item) with
                                     | Some z => Some (z - Z.of_nat (history_lines ready) + 1)%Z
                                     | None => None
                                     end
                                ++ ": ") ++ snd item) [("3", "Cannot find name 'x'.")])
      /\ transpile host "x" ready
         = (Failed (ErrorThrown "Error" message
                                (Some ("[COMPILE ERROR]" ++ nl ++ message))), ready).
Proof.
  assert (Hc : compile host (VObj [("target", VNum 1)]) false
                       (join nl (runningHistory ready) ++ nl ++ "x")
               = inr ("Error", join nl (map numbered_line [("3", "Cannot find name 'x'.")])))
    by evaluate.
  assert (Hitems : Forall (fun item => all_digits (fst item) = true
                                       /\ fst item <> EmptyString
                                       /\ free_of (chr 10) (snd item) = true)
                          [("3", "Cannot find name 'x'.")]).
  { constructor; [| constructor].
    split; [reflexivity|]. split; [discriminate | reflexivity]. }
  assert (Hsmall : forall item z, In item [("3", "Cannot find name 'x'.")] ->
                     parseInt host (fst item) = Some z -> (Z.abs z < 2 ^ 53)%Z).
  { intros item z [<- | []] Hz. vm_compute in Hz. injection Hz as <-. reflexivity. }
  split; [reflexivity|]. split; [exact Hc|]. split; [exact Hitems|]. split; [exact Hsmall|].
  exact (transpile_renumbers_the_lines_of_an_error host ready
           (VObj [("target", VNum 1)]) false "x" "Error"
           ("3", "Cannot find name 'x'.") [] eq_refl Hc Hitems Hsmall).
Defined.

(** Two cells compiled one after the other. *)
Lemma transpile_returns_only_the_new_code_witness :
  transpiler ready = Some (VObj [("target", VNum 1)], false)
  /\ compile host (VObj [("target", VNum 1)]) false
             (join nl (runningHistory ready) ++ nl ++ "let a = 1")
     = inl (join nl (runningHistory ready) ++ nl ++ "let a = 1")
  /\ compile host (VObj [("target", VNum 1)]) false
             (join nl (runningHistory ready ++ ["let a = 1"]) ++ nl ++ "a + 1")
     = inl ((join nl (runningHistory ready) ++ nl ++ "let a = 1") ++ nl ++ "a + 1")
  /\ all_ascii ((join nl (runningHistory ready) ++ nl ++ "let a = 1") ++ nl ++ "a + 1")
  /\ and_then (transpile host "let a = 1") (fun _ => transpile host "a + 1") ready
     = (Done (nl ++ "a + 1"),
        with_history (runningHistory ready ++ ["let a = 1"; "a + 1"])%list
                     (String.length
                        ((join nl (runningHistory ready) ++ nl ++ "let a = 1")
                         ++ nl ++ "a + 1"))
                     ready).
Proof.
  assert (H1 : compile host (VObj [("target", VNum 1)]) false
                       (join nl (runningHistory ready) ++ nl ++ "let a = 1")
               = inl (join nl (runningHistory ready) ++ nl ++ "let a = 1")) by evaluate.
  assert (H2 : compile host (VObj [("target", VNum 1)]) false
                       (join nl (runningHistory ready ++ ["let a = 1"]) ++ nl ++ "a + 1")
               = inl ((join nl (runningHistory ready) ++ nl ++ "let a = 1")
                      ++ nl ++ "a + 1")) by evaluate.
  assert (Hascii : all_ascii ((join nl (runningHistory ready) ++ nl ++ "let a = 1")
                              ++ nl ++ "a + 1"))
    by (vm_compute; ascii_text).
  split; [reflexivity|]. split; [exact H1|]. split; [exact H2|]. split; [exact Hascii|].
  exact (transpile_returns_only_the_new_code host ready (VObj [("target", VNum 1)]) false
           "let a = 1" "a + 1" _ (nl ++ "a + 1") eq_refl H1 H2 Hascii).
Defined.

(** The working directory two levels below the one with the file. *)
Lemma findTSConfig_finds_the_nearest_witness :
  (forall i, (i < 2)%nat ->
     fs_existsSync host (path_join host (ancestor host i "/home/user/project")
                                   "tsconfig.json") = false
     /\ ancestor host (S i) "/home/user/project" <> ancestor host i "/home/user/project")
  /\ fs_existsSync host (path_join host (ancestor host 2 "/home/user/project")
                                   "tsconfig.json") = true
  /\ (2 < 5)%nat
  /\ Configuration_findTSConfig host 5 "/home/user/project"
     = Some (Some "/home/tsconfig.json").
Proof.
  assert (Hbelow : forall i, (i < 2)%nat ->
     fs_existsSync host (path_join host (ancestor host i "/home/user/project")
                                   "tsconfig.json") = false
     /\ ancestor host (S i) "/home/user/project" <> ancestor host i "/home/user/project").
  { intros i Hi. destruct i as [|[|i]]; [| | lia];
      (split; [reflexivity | intro E; vm_compute in E; discriminate E]). }
  assert (Hfuel : (2 < 5)%nat) by lia.
  split; [exact Hbelow|]. split; [reflexivity|]. split; [exact Hfuel|].
  exact (findTSConfig_finds_the_nearest host 2 5 "/home/user/project"
           Hbelow eq_refl Hfuel).
Defined.

(** A directory with no [tsconfig.json] up to the root. *)
Lemma findTSConfig_stops_at_the_root_witness :
  (forall i, (i <= 2)%nat ->
     fs_existsSync host (path_join host (ancestor host i "/srv/app") "tsconfig.json") = false)
  /\ (forall i, (i < 2)%nat -> ancestor host (S i) "/srv/app" <> ancestor host i "/srv/app")
  /\ ancestor host 3 "/srv/app" = ancestor host 2 "/srv/app"
  /\ (2 < 5)%nat
  /\ Configuration_findTSConfig host 5 "/srv/app" = Some None.
Proof.
  assert (Hnone : forall i, (i <= 2)%nat ->
     fs_existsSync host (path_join host (ancestor host i "/srv/app") "tsconfig.json") = false).
  { intros i Hi. destruct i as [|[|[|i]]]; [| | | lia]; reflexivity. }
  assert (Hup : forall i, (i < 2)%nat ->
     ancestor host (S i) "/srv/app" <> ancestor host i "/srv/app").
  { intros i Hi. destruct i as [|[|i]]; [| | lia];
      (intro E; vm_compute in E; discriminate E). }
  assert (Hfuel : (2 < 5)%nat) by lia.
  split; [exact Hnone|]. split; [exact Hup|]. split; [reflexivity|]. split; [exact Hfuel|].
  exact (findTSConfig_stops_at_the_root host 2 5 "/srv/app" Hnone Hup eq_refl Hfuel).
Defined.

(** A launch with [--debug] and [DEBUG] set, on a host with the module
    [debug]. *)
Lemma debug_flag_overrides_the_logger_of_DEBUG_witness :
  Forall all_ascii (skipn 2 argv_debug)
  /\ launch debug_host Reference.json (Some "KERNEL:*") argv_debug launch0
     = (Done config_debug,
        snd (launch debug_host Reference.json (Some "KERNEL:*") argv_debug launch0))
  /\ kc_debug config_debug = true
  /\ logger (snd (launch debug_host Reference.json (Some "KERNEL:*") argv_debug launch0))
     = LogVerbose.
Proof.
  assert (Hascii : Forall all_ascii (skipn 2 argv_debug)) by ascii_text.
  assert (H : launch debug_host Reference.json (Some "KERNEL:*") argv_debug launch0
              = (Done config_debug,
                 snd (launch debug_host Reference.json (Some "KERNEL:*") argv_debug launch0)))
    by evaluate.
  split; [exact Hascii|]. split; [exact H|].
  exact (debug_flag_overrides_the_logger_of_DEBUG debug_host Reference.json
           (Some "KERNEL:*") argv_debug launch0 _ config_debug Hascii H).
Defined.

End LauncherChecks.
